(** * Datalayer: the local booking ledger of Annisse Kattepension

    A shallow embedding of [src/Datalayer.ts]: the localStorage helpers,
    the booking / check-in / profile operations and the capacity
    calculator, followed by the properties the specification states
    about them.

    Conventions of the embedding
    - a JS [number] holding a count is an integer [Z]; [NaN] appears only
      as the [None] result of a coercion;
    - an optional or possibly missing property is an [option]
      ([None] is [undefined]); [cageId], which may also be [null], is an
      [option (option string)];
    - a [string] is a [String.string]; [<=] and [<] on strings are the
      lexicographic order on code units ([String.leb], [String.ltb]);
    - a [Date] is its time value in milliseconds since the epoch, with
      [None] for an invalid date; [Date.parse] and [Number] on strings
      and the local time zone are the host's and stay parameters;
    - an object in memory may hold [undefined] under a key: where a spread
      lets such a key overwrite, the key is an [option (option _)], [None]
      for a key left out and [Some None] for a key holding [undefined];
    - localStorage is seen after [JSON.parse], at the type each key is
      read at: [JSON.stringify] then [JSON.parse] gives a record back;
    - the functions are [async] but run to completion one after the
      other, so they are plain state passing over [World]. *)

From Stdlib Require Import ZArith String Ascii List Bool Lia.
From stdpp Require Import base option list strings.
Import ListNotations.

Local Open Scope string_scope.

(* ------------------------------------------------------------------ *)
(** * JavaScript primitives used by the module                          *)
(* ------------------------------------------------------------------ *)

Module JS.

(** [!s] for a value typed [string | undefined]. *)
Definition falsy_string (s : option string) : bool :=
  match s with
  | None => true
  | Some s => String.eqb s ""
  end.

(** [n || 1] for a number that may be missing: [undefined], [NaN] (both
    [None]) and [0] are falsy. *)
Definition or_one (n : option Z) : Z :=
  match n with
  | None => 1%Z
  | Some z => if (z =? 0)%Z then 1%Z else z
  end.

(** [s ?? d] and [s || d] on [string | undefined]. *)
Definition nullish (s : option string) (d : string) : string :=
  match s with
  | None => d
  | Some s => s
  end.

Definition or_string (s : option string) (d : string) : string :=
  if falsy_string s then d else nullish s d.

(** [a === b] where [a] may be [undefined] and [b] is a string. *)
Definition strict_eq (a : option string) (b : string) : bool :=
  match a with
  | None => false
  | Some a => String.eqb a b
  end.

(** ** Dates: ECMAScript time values *)

Definition msPerDay : Z := 86400000.

Definition TimeClip (t : Z) : option Z :=
  if (Z.abs t <=? 8640000000000000)%Z then Some t else None.

(** Day number of a time value, and the civil date of a day number
    (proleptic Gregorian calendar, as [YearFromTime], [MonthFromTime]
    (here 1-based) and [DateFromTime] give it). *)
Definition Day (t : Z) : Z := (t / msPerDay)%Z.

Definition civil_of_day (z : Z) : Z * Z * Z :=
  (let z := z + 719468 in
   let era := z / 146097 in
   let doe := z - era * 146097 in
   let yoe := (doe - doe / 1460 + doe / 36524 - doe / 146096) / 365 in
   let y := yoe + era * 400 in
   let doy := doe - (365 * yoe + yoe / 4 - yoe / 100) in
   let mp := (5 * doy + 2) / 153 in
   let d := doy - (153 * mp + 2) / 5 + 1 in
   let m := if mp <? 10 then mp + 3 else mp - 9 in
   (if m <=? 2 then y + 1 else y, m, d))%Z.

(** [MakeDay]: the day number of a civil date. *)
Definition day_of_civil (y m d : Z) : Z :=
  (let y := if m <=? 2 then y - 1 else y in
   let era := y / 400 in
   let yoe := y - era * 400 in
   let doy := (153 * (if 2 <? m then m - 3 else m + 9) + 2) / 5 + d - 1 in
   let doe := yoe * 365 + yoe / 4 - yoe / 100 + doy in
   era * 146097 + doe - 719468)%Z.

Definition digit (z : Z) : ascii :=
  ascii_of_nat (48 + Z.to_nat (z mod 10)).

(** The [n] low decimal digits of [z], most significant first. *)
Fixpoint digits (n : nat) (z : Z) : string :=
  match n with
  | O => ""
  | S n' => digits n' (z / 10) ++ String (digit z) ""
  end.

(** The date part of [toISOString()]: four-digit years between 0 and
    9999, a sign and six digits otherwise. *)
Definition iso_date (t : Z) : string :=
  let '(y, m, d) := civil_of_day (Day t) in
  (if ((0 <=? y) && (y <=? 9999))%Z then digits 4 y
   else (if (y <? 0)%Z then "-" else "+") ++ digits 6 (Z.abs y))
  ++ "-" ++ digits 2 m ++ "-" ++ digits 2 d.

(** [d.toISOString().slice(0, 10)]. *)
Definition toISOString_slice10 (t : Z) : string :=
  String.substring 0 10 (iso_date t).

(** ** Local time

    [LocalTZA t isUTC] is the host's offset of local time from UTC in
    milliseconds: the offset in force at the time value [t] when [isUTC]
    holds, the offset by which the local time [t] is read otherwise.  A
    local time that a clock change skips or repeats is read with the offset
    in force before the change. *)
Definition LocalTime (LocalTZA : Z -> bool -> Z) (t : Z) : Z := (t + LocalTZA t true)%Z.

Definition UTC (LocalTZA : Z -> bool -> Z) (t : Z) : Z := (t - LocalTZA t false)%Z.

(** [d.setDate(d.getDate() + 1)]: the local time of [d] is moved to the
    same time of day on the next day of the local calendar
    ([MakeDay(year, month, date + 1)] is the day after [Day(local)]), read
    back as a time value and clipped.  Across a clock change the time value
    advances by 23 or 25 hours. *)
Definition setDate_next (LocalTZA : Z -> bool -> Z) (t : Z) : option Z :=
  let local := LocalTime LocalTZA t in
  let newDate := (local + msPerDay)%Z in
  TimeClip (UTC LocalTZA newDate).

(** ** Two admissible time zones

    A zone without clock changes, and Central European Time with the
    summer time rule in force since 1996: two hours ahead of UTC from the
    last Sunday of March to the last Sunday of October, 01:00 UTC both, one
    hour ahead otherwise. *)
Definition fixed_zone (offset : Z) : Z -> bool -> Z := fun _ _ => offset.

Definition msPerHour : Z := 3600000.

(** [WeekDay]: 0 is Sunday. *)
Definition WeekDay (t : Z) : Z := ((Day t + 4) mod 7)%Z.

(** The day number of the last Sunday of a month of 31 days. *)
Definition last_sunday (y m : Z) : Z :=
  (let d := day_of_civil y m 31 in d - WeekDay (d * msPerDay))%Z.

Definition Europe_Copenhagen (t : Z) (isUTC : bool) : Z :=
  (let '(y, _, _) := civil_of_day (Day t) in
   let change := (if isUTC then 1 else 3) * msPerHour in
   let from := last_sunday y 3 * msPerDay + change in
   let to := last_sunday y 10 * msPerDay + change in
   if (from <=? t) && (t <? to) then 2 * msPerHour else msPerHour)%Z.

(** ** One admissible [Date.parse]: the date-only form [YYYY-MM-DD] *)

Definition digit_val (c : ascii) : option Z :=
  let n := nat_of_ascii c in
  if ((48 <=? n) && (n <=? 57))%nat then Some (Z.of_nat (n - 48)) else None.

Fixpoint number_of_digits (acc : Z) (s : string) : option Z :=
  match s with
  | "" => Some acc
  | String c s' =>
      match digit_val c with
      | Some v => number_of_digits (10 * acc + v)%Z s'
      | None => None
      end
  end.

Definition InLeapYear (y : Z) : bool :=
  ((y mod 4 =? 0) && (negb (y mod 100 =? 0) || (y mod 400 =? 0)))%Z.

Definition DaysInMonth (y m : Z) : Z :=
  (if m =? 2 then (if InLeapYear y then 29 else 28)
   else if (m =? 4) || (m =? 6) || (m =? 9) || (m =? 11) then 30
   else 31)%Z.

Definition parse_date_only (s : string) : option Z :=
  if negb (Nat.eqb (String.length s) 10) then None
  else if negb (String.eqb (String.substring 4 1 s) "-"
                && String.eqb (String.substring 7 1 s) "-") then None
  else
    y ← number_of_digits 0 (String.substring 0 4 s);
    m ← number_of_digits 0 (String.substring 5 2 s);
    d ← number_of_digits 0 (String.substring 8 2 s);
    if ((1 <=? m) && (m <=? 12) && (1 <=? d) && (d <=? DaysInMonth y m))%Z
    then Some (day_of_civil y m d * msPerDay)%Z
    else None.

(** ** [Date.prototype.toISOString] and [Number.prototype.toString(36)] *)

Definition toISOString (t : Z) : string :=
  (let ms := t mod msPerDay in
   iso_date t ++ "T" ++ digits 2 (ms / 3600000) ++ ":" ++ digits 2 (ms / 60000 mod 60)
   ++ ":" ++ digits 2 (ms / 1000 mod 60) ++ "." ++ digits 3 (ms mod 1000) ++ "Z")%Z.

Definition digit36 (z : Z) : ascii :=
  let n := Z.to_nat (z mod 36) in
  ascii_of_nat (if (n <? 10)%nat then 48 + n else 87 + n).

Fixpoint base36 (fuel : nat) (z : Z) (acc : string) : string :=
  match fuel with
  | O => acc
  | S fuel' =>
      if (z <=? 0)%Z then acc
      else base36 fuel' (z / 36) (String (digit36 z) acc)
  end.

(** [z.toString(36)] for an integer [z]. *)
Definition toString36 (z : Z) : string :=
  if (z =? 0)%Z then "0"
  else (if (z <? 0)%Z then "-" else "")
       ++ base36 (S (Z.to_nat (Z.log2 (Z.abs z)))) (Z.abs z) "".

End JS.

(* ------------------------------------------------------------------ *)
(** * Types                                                             *)
(* ------------------------------------------------------------------ *)

Inductive BookingSource := owner | internal | other.

Inductive IndoorPet := inde | ude.

(** [BookingRecord].  [status], [checkIn] and [checkOut] are declared
    required, but the code reads them defensively ([b.status ?? "pending"],
    [!startIso]), so stored records may lack them. *)
Record BookingRecord := {
  id : string;
  kennelId : string;
  status : option string;
  createdAt : string;
  source : option BookingSource;
  checkIn : option string;
  checkOut : option string;
  petName : option string;
  petNames : option string;
  catCount : option Z;
  roomCount : option Z;
  ownerName : option string;
  ownerPhone : option string;
  ownerEmail : option string;
  note : option string;
  indoorPet : option IndoorPet;
  food : option string;
  medicine : option string;
  allowSocialMedia : option bool
}.

(** [CheckinRecord extends BookingRecord] with [cageId?: string | null]. *)
Record CheckinRecord := {
  base :> BookingRecord;
  cageId : option (option string)
}.

(** [Partial<CheckinRecord>]: a key that is present overrides, also when
    its value is [undefined]. *)
Record PartialCheckin := {
  o_id : option string;
  o_kennelId : option string;
  o_status : option (option string);
  o_createdAt : option string;
  o_source : option (option BookingSource);
  o_checkIn : option (option string);
  o_checkOut : option (option string);
  o_petName : option (option string);
  o_petNames : option (option string);
  o_catCount : option (option Z);
  o_roomCount : option (option Z);
  o_ownerName : option (option string);
  o_ownerPhone : option (option string);
  o_ownerEmail : option (option string);
  o_note : option (option string);
  o_indoorPet : option (option IndoorPet);
  o_food : option (option string);
  o_medicine : option (option string);
  o_allowSocialMedia : option (option bool);
  o_cageId : option (option (option string))
}.

Record KennelProfile := {
  p_id : string;
  p_name : string;
  tagline : option string;
  nightlyRate : option Z;
  addressLine1 : option string;
  postalCode : option string;
  city : option string;
  phone : option string;
  email : option string;
  website : option string;
  shortDescription : option string;
  sellingPoints : option string;
  practicalInfo : option string;
  conditionsText : option string
}.

Record OwnerBookingRequestPayload := {
  r_checkIn : string;
  r_checkOut : string;
  r_catCount : string;
  r_roomCount : string;
  r_ownerName : string;
  r_ownerPhone : string;
  r_ownerEmail : string;
  r_petNames : string;
  r_indoorPet : IndoorPet;
  r_food : string;
  r_medicine : string;
  r_allowSocialMedia : bool;
  r_note : string
}.

Record CapacityDay := {
  date : string;
  booked : Z;
  capacity : Z;
  free : Z
}.

Definition STORAGE_PREFIX : string := "annisse_".
Definition KENNEL_ID : string := "annisse-001".
Definition FIXED_DAILY_CAPACITY : Z := 6.

(** [{ ...b, status }] *)
Definition with_status (b : BookingRecord) (s : option string) : BookingRecord :=
  {| id := id b; kennelId := kennelId b; status := s; createdAt := createdAt b;
     source := source b; checkIn := checkIn b; checkOut := checkOut b;
     petName := petName b; petNames := petNames b; catCount := catCount b;
     roomCount := roomCount b; ownerName := ownerName b;
     ownerPhone := ownerPhone b; ownerEmail := ownerEmail b; note := note b;
     indoorPet := indoorPet b; food := food b; medicine := medicine b;
     allowSocialMedia := allowSocialMedia b |}.

(** [{ ...b, id }] *)
Definition with_id (b : BookingRecord) (i : string) : BookingRecord :=
  {| id := i; kennelId := kennelId b; status := status b; createdAt := createdAt b;
     source := source b; checkIn := checkIn b; checkOut := checkOut b;
     petName := petName b; petNames := petNames b; catCount := catCount b;
     roomCount := roomCount b; ownerName := ownerName b;
     ownerPhone := ownerPhone b; ownerEmail := ownerEmail b; note := note b;
     indoorPet := indoorPet b; food := food b; medicine := medicine b;
     allowSocialMedia := allowSocialMedia b |}.

(** One property of a spread [{ ...x, ...o }]. *)
Definition over {A} (o : option A) (x : A) : A :=
  match o with
  | Some v => v
  | None => x
  end.

(** [{ ...c, ...overrides }] *)
Definition spread_overrides (c : CheckinRecord) (o : PartialCheckin) : CheckinRecord :=
  {| base :=
       {| id := over (o_id o) (id c);
          kennelId := over (o_kennelId o) (kennelId c);
          status := over (o_status o) (status c);
          createdAt := over (o_createdAt o) (createdAt c);
          source := over (o_source o) (source c);
          checkIn := over (o_checkIn o) (checkIn c);
          checkOut := over (o_checkOut o) (checkOut c);
          petName := over (o_petName o) (petName c);
          petNames := over (o_petNames o) (petNames c);
          catCount := over (o_catCount o) (catCount c);
          roomCount := over (o_roomCount o) (roomCount c);
          ownerName := over (o_ownerName o) (ownerName c);
          ownerPhone := over (o_ownerPhone o) (ownerPhone c);
          ownerEmail := over (o_ownerEmail o) (ownerEmail c);
          note := over (o_note o) (note c);
          indoorPet := over (o_indoorPet o) (indoorPet c);
          food := over (o_food o) (food c);
          medicine := over (o_medicine o) (medicine c);
          allowSocialMedia := over (o_allowSocialMedia o) (allowSocialMedia c) |};
     cageId := over (o_cageId o) (cageId c) |}.

(** [{}] *)
Definition no_overrides : PartialCheckin :=
  {| o_id := None; o_kennelId := None; o_status := None; o_createdAt := None;
     o_source := None; o_checkIn := None; o_checkOut := None; o_petName := None;
     o_petNames := None; o_catCount := None; o_roomCount := None;
     o_ownerName := None; o_ownerPhone := None; o_ownerEmail := None;
     o_note := None; o_indoorPet := None; o_food := None; o_medicine := None;
     o_allowSocialMedia := None; o_cageId := None |}.

(* ------------------------------------------------------------------ *)
(** * The host: window, localStorage, clock and random source           *)
(* ------------------------------------------------------------------ *)

(** What [JSON.parse] makes of a stored text, seen at the element type the
    caller casts it to: an array of [T], a single [T], [null], or another
    JSON value (a number, a string or a boolean). *)
Inductive Json (T : Type) : Type :=
  | JArray (xs : list T)
  | JObject (x : T)
  | JNull
  | JOther.
Arguments JArray {T} xs.
Arguments JObject {T} x.
Arguments JNull {T}.
Arguments JOther {T}.

(** The text under a key: the empty string, text that [JSON.parse] rejects,
    or text that parses.  [JSON.stringify] followed by [JSON.parse] gives the
    value back, so a written value is kept as [raw_json]. *)
Inductive Raw (T : Type) : Type :=
  | raw_empty
  | raw_garbage
  | raw_json (v : Json T).
Arguments raw_empty {T}.
Arguments raw_garbage {T}.
Arguments raw_json {T} v.

(** The keys of the bookings, the stays and the profile, each with the
    type it is read at.  The cage catalogue ([annisse_cages_v1]) is
    independent of them and has its own slot, see [CageWorld]. *)
Inductive Key : Type -> Type :=
  | BOOKING_KEY : Key BookingRecord
  | CHECKIN_KEY : Key CheckinRecord
  | PROFILE_KEY : Key KennelProfile.

Definition key_name {T} (k : Key T) : string :=
  match k with
  | BOOKING_KEY => STORAGE_PREFIX ++ "bookings_v2"
  | CHECKIN_KEY => STORAGE_PREFIX ++ "checkins_v2"
  | PROFILE_KEY => STORAGE_PREFIX ++ "profile_v1"
  end.

(** [window.localStorage]; [None] under a key is a missing key. *)
Record Storage := {
  bookings_v2 : option (Raw BookingRecord);
  checkins_v2 : option (Raw CheckinRecord);
  profile_v1 : option (Raw KennelProfile)
}.

Definition getItem {T} (k : Key T) (ls : Storage) : option (Raw T) :=
  match k in Key T return option (Raw T) with
  | BOOKING_KEY => bookings_v2 ls
  | CHECKIN_KEY => checkins_v2 ls
  | PROFILE_KEY => profile_v1 ls
  end.

Definition setItem {T} (k : Key T) (v : Raw T) (ls : Storage) : Storage :=
  match k in Key T return Raw T -> Storage with
  | BOOKING_KEY => fun v =>
      {| bookings_v2 := Some v; checkins_v2 := checkins_v2 ls; profile_v1 := profile_v1 ls |}
  | CHECKIN_KEY => fun v =>
      {| bookings_v2 := bookings_v2 ls; checkins_v2 := Some v; profile_v1 := profile_v1 ls |}
  | PROFILE_KEY => fun v =>
      {| bookings_v2 := bookings_v2 ls; checkins_v2 := checkins_v2 ls; profile_v1 := Some v |}
  end v.

(** A call of [localStorage.setItem], kept in the order issued. *)
Inductive SetItemCall : Type :=
  | set_item {T} (k : Key T) (v : Json T).

(** The environment of a call.  [clock] and [random] are the successive
    readings of [Date.now()] / [new Date()] and of
    [Math.random().toString(36)] after its leading ["0."]; [ticks] and
    [draws] count the readings consumed. *)
Record World := {
  window : bool;
  getItem_throws : bool;
  setItem_throws : string -> bool;
  localStorage : Storage;
  setItem_calls : list SetItemCall;
  clock : nat -> Z;
  ticks : nat;
  random : nat -> string;
  draws : nat
}.

Definition M (A : Type) : Type := World -> A * World.

#[global] Instance M_ret : MRet M := fun A x w => (x, w).
#[global] Instance M_bind : MBind M :=
  fun A B f m w => let '(x, w') := m w in f x w'.

(** A computation that may throw. *)
Inductive Completion (A : Type) : Type :=
  | Normal (a : A)
  | Throw.
Arguments Normal {A} a.
Arguments Throw {A}.

#[global] Instance Completion_ret : MRet Completion := fun A x => Normal x.
#[global] Instance Completion_bind : MBind Completion :=
  fun A B f m => match m with Normal a => f a | Throw => Throw end.

(** [try { body } catch { handler }] *)
Definition try_catch {A} (body : Completion A) (handler : A) : A :=
  match body with
  | Normal a => a
  | Throw => handler
  end.

Definition isBrowser (w : World) : bool := window w.

Definition localStorage_getItem {T} (k : Key T) (w : World) : Completion (option (Raw T)) :=
  if getItem_throws w then Throw else Normal (getItem k (localStorage w)).

(** [JSON.parse(raw)]: a [SyntaxError] on the empty string and on garbage. *)
Definition JSON_parse {T} (raw : Raw T) : Completion (Json T) :=
  match raw with
  | raw_json v => Normal v
  | _ => Throw
  end.

(** [!raw] for the result of [getItem]: [null] and the empty string. *)
Definition falsy_raw {T} (raw : option (Raw T)) : bool :=
  match raw with
  | None | Some raw_empty => true
  | Some _ => false
  end.

Definition log_call (c : SetItemCall) (w : World) : World :=
  {| window := window w; getItem_throws := getItem_throws w;
     setItem_throws := setItem_throws w; localStorage := localStorage w;
     setItem_calls := (setItem_calls w ++ [c])%list;
     clock := clock w; ticks := ticks w; random := random w; draws := draws w |}.

Definition with_localStorage (ls : Storage) (w : World) : World :=
  {| window := window w; getItem_throws := getItem_throws w;
     setItem_throws := setItem_throws w; localStorage := ls;
     setItem_calls := setItem_calls w;
     clock := clock w; ticks := ticks w; random := random w; draws := draws w |}.

(** [window.localStorage.setItem(key, JSON.stringify(value))] *)
Definition localStorage_setItem {T} (k : Key T) (v : Json T) : M (Completion unit) :=
  fun w =>
    let w := log_call (set_item k v) w in
    if setItem_throws w (key_name k) then (Throw, w)
    else (Normal tt, with_localStorage (setItem k (raw_json v) (localStorage w)) w).

(* ------------------------------------------------------------------ *)
(** * localStorage helpers                                              *)
(* ------------------------------------------------------------------ *)

Definition loadArray {T} (key : Key T) (w : World) : list T :=
  if negb (isBrowser w) then []
  else
    try_catch
      (raw ← localStorage_getItem key w;
       if falsy_raw raw then Normal []
       else
         parsed ← JSON_parse (default raw_empty raw);
         Normal (match parsed with JArray xs => xs | _ => [] end))
      [].

Definition saveArray {T} (key : Key T) (value : list T) : M unit :=
  fun w =>
    if negb (isBrowser w) then (tt, w)
    else
      let '(r, w') := localStorage_setItem key (JArray value) w in
      (try_catch r tt, w').

Definition loadObject {T} (key : Key T) (fallback : Json T) (w : World) : Json T :=
  if negb (isBrowser w) then fallback
  else
    try_catch
      (raw ← localStorage_getItem key w;
       if falsy_raw raw then Normal fallback
       else JSON_parse (default raw_empty raw))
      fallback.

Definition saveObject {T} (key : Key T) (value : T) : M unit :=
  fun w =>
    if negb (isBrowser w) then (tt, w)
    else
      let '(r, w') := localStorage_setItem key (JObject value) w in
      (try_catch r tt, w').

(** Reading the environment. *)
Definition gets {A} (f : World -> A) : M A := fun w => (f w, w).

(** [Date.now()] and [new Date()]: the next clock reading. *)
Definition Date_now : M Z :=
  fun w =>
    (clock w (ticks w),
     {| window := window w; getItem_throws := getItem_throws w;
        setItem_throws := setItem_throws w; localStorage := localStorage w;
        setItem_calls := setItem_calls w;
        clock := clock w; ticks := S (ticks w); random := random w; draws := draws w |}).

(** [Math.random().toString(36).slice(2, 8)]: at most six digits of the
    next random reading. *)
Definition Math_random_slice : M string :=
  fun w =>
    (String.substring 0 6 (random w (draws w)),
     {| window := window w; getItem_throws := getItem_throws w;
        setItem_throws := setItem_throws w; localStorage := localStorage w;
        setItem_calls := setItem_calls w;
        clock := clock w; ticks := ticks w; random := random w; draws := S (draws w) |}).

Definition newId (prefix : string) : M string :=
  t ← Date_now;
  r ← Math_random_slice;
  mret (prefix ++ "_" ++ JS.toString36 t ++ "_" ++ r).

(** [all.findIndex(p)], with [None] for [-1]. *)
Fixpoint findIndex {A} (p : A -> bool) (all : list A) : option nat :=
  match all with
  | [] => None
  | x :: rest => if p x then Some O else S <$> findIndex p rest
  end.

(* ------------------------------------------------------------------ *)
(** * Booking API                                                       *)
(* ------------------------------------------------------------------ *)

(** [!kennelId || r.kennelId === kennelId] *)
Definition ofKennel (kennelId_ : string) (b : BookingRecord) : bool :=
  String.eqb kennelId_ "" || String.eqb (kennelId b) kennelId_.

Definition listBookingsForKennel (kennelId_ : string) (w : World) : list BookingRecord :=
  let all := loadArray BOOKING_KEY w in
  List.filter (ofKennel kennelId_)
    (List.map (fun b => with_status b (Some (JS.nullish (status b) "pending"))) all).

Definition setBookingStatus (id_ : string) (status_ : string) : M (option BookingRecord) :=
  all ← gets (loadArray BOOKING_KEY);
  match findIndex (fun b => String.eqb (id b) id_) all with
  | None => mret None
  | Some idx =>
      let all := alter (fun b => with_status b (Some status_)) idx all in
      _ ← saveArray BOOKING_KEY all;
      mret (all !! idx)
  end.

Definition acceptBooking (id_ : string) : M (option BookingRecord) :=
  setBookingStatus id_ "precheck".

Definition cancelBooking (id_ : string) : M (option BookingRecord) :=
  setBookingStatus id_ "cancelled".

(* ------------------------------------------------------------------ *)
(** * Check-in API                                                      *)
(* ------------------------------------------------------------------ *)

Definition listCheckinsForKennel (kennelId_ : string) (w : World) : list CheckinRecord :=
  let all := loadArray CHECKIN_KEY w in
  List.filter (fun c : CheckinRecord => ofKennel kennelId_ c) all.

Definition createCheckinFromBooking (booking : BookingRecord) (overrides : PartialCheckin)
  : M CheckinRecord :=
  all ← gets (loadArray CHECKIN_KEY);
  id_ ← newId "c";
  let record :=
    spread_overrides
      {| base := with_status (with_id booking id_) (Some "checked_in");
         cageId := Some None |}
      overrides in
  let all := (all ++ [record])%list in
  _ ← saveArray CHECKIN_KEY all;
  _ ← setBookingStatus (id booking) "converted";
  mret record.

Definition checkOutCheckin (id_ : string) : M unit :=
  all ← gets (loadArray CHECKIN_KEY);
  match findIndex (fun c : CheckinRecord => String.eqb (id c) id_) all with
  | None => mret tt
  | Some idx =>
      let all :=
        alter (fun c : CheckinRecord =>
                 {| base := with_status c (Some "checked_out"); cageId := cageId c |})
              idx all in
      saveArray CHECKIN_KEY all
  end.

Definition assignCageToCheckin (checkinId : string) (cageId_ : option string)
  : M (option CheckinRecord) :=
  all ← gets (loadArray CHECKIN_KEY);
  match findIndex (fun c : CheckinRecord => String.eqb (id c) checkinId) all with
  | None => mret None
  | Some idx =>
      let all :=
        alter (fun c : CheckinRecord => {| base := base c; cageId := Some cageId_ |})
              idx all in
      _ ← saveArray CHECKIN_KEY all;
      mret (all !! idx)
  end.

(* ------------------------------------------------------------------ *)
(** * Profile API                                                       *)
(* ------------------------------------------------------------------ *)

Definition nl : string := String (ascii_of_nat 10) "".

Definition DEFAULT_PROFILE : KennelProfile :=
  {| p_id := KENNEL_ID;
     p_name := "Annisse Kattepension";
     tagline := Some "Luksuriøs, familiedrevet kattepension";
     nightlyRate := Some 325%Z;
     addressLine1 := Some "Kattegangen 12";
     postalCode := Some "3200";
     city := Some "Annisse";
     phone := Some "12 34 56 78";
     email := Some "kontakt@annisse-kattepension.dk";
     website := Some "https://annisse-kattepension.dk";
     shortDescription := Some
       "Hos Annisse Kattepension får hver kat sit eget rummelige bur med adgang til både inde- og udeområde. Vi lægger vægt på ro, nærvær og gennemsigtighed – både for kat og ejer.";
     sellingPoints := Some
       ("Familiedrevet og nærværende hverdag" ++ nl ++
        "Eget bur til hver kat – ingen tvangssammensætning" ++ nl ++
        "Inde- og udeområde efter kattens temperament" ++ nl ++
        "Mulighed for opdateringer med billeder/video" ++ nl ++
        "Roligt miljø med fokus på trivsel");
     practicalInfo := Some
       ("Katten skal være vaccineret efter gældende anbefalinger." ++ nl ++
        "Medbring gerne eget foder, hvis katten er kræsen eller på specialkost." ++ nl ++
        "Medicin gives efter aftale og noteres i bookingformularen." ++ nl ++
        "Ind- og udtjek sker som udgangspunkt efter aftale for at sikre ro i huset.");
     conditionsText := Some
       ("Her kan du skrive dine egne betingelser for ophold i Annisse Kattepension. For eksempel betalingsbetingelser, afbestillingsregler, krav til vaccination, medicin, forsinket afhentning og andet praktisk." ++ nl ++ nl ++
        "Den tekst du skriver her, vises direkte på siden “Betingelser” på hjemmesiden.") |}.

(** One optional property of [{ ...d, ...s }]: the one of [s] when [s] has
    it, the one of [d] otherwise. *)
Definition spread_opt {A} (d s : option A) : option A :=
  match s with
  | Some _ => s
  | None => d
  end.

(** [{ ...d, ...s }] on profiles; [id] and [name] are always present in [s]. *)
Definition spread_profile (d s : KennelProfile) : KennelProfile :=
  {| p_id := p_id s;
     p_name := p_name s;
     tagline := spread_opt (tagline d) (tagline s);
     nightlyRate := spread_opt (nightlyRate d) (nightlyRate s);
     addressLine1 := spread_opt (addressLine1 d) (addressLine1 s);
     postalCode := spread_opt (postalCode d) (postalCode s);
     city := spread_opt (city d) (city s);
     phone := spread_opt (phone d) (phone s);
     email := spread_opt (email d) (email s);
     website := spread_opt (website d) (website s);
     shortDescription := spread_opt (shortDescription d) (shortDescription s);
     sellingPoints := spread_opt (sellingPoints d) (sellingPoints s);
     practicalInfo := spread_opt (practicalInfo d) (practicalInfo s);
     conditionsText := spread_opt (conditionsText d) (conditionsText s) |}.

(** [!stored || stored.id !== kennelId] decides on the parsed value: [null]
    and falsy scalars fail the first test, arrays and other scalars have no
    [id] and fail the second. *)
Definition loadKennelProfile (kennelId_ : string) (w : World) : KennelProfile :=
  let stored := loadObject PROFILE_KEY JNull w in
  match stored with
  | JObject stored =>
      if negb (String.eqb (p_id stored) kennelId_) then DEFAULT_PROFILE
      else spread_profile DEFAULT_PROFILE stored
  | _ => DEFAULT_PROFILE
  end.

Definition saveKennelProfile (profile : KennelProfile) : M unit :=
  saveObject PROFILE_KEY profile.

(* ------------------------------------------------------------------ *)
(** * The owner's booking request                                       *)
(* ------------------------------------------------------------------ *)

Section BookingRequest.

(** The host's [Number(s)] on a string, [None] for [NaN].  Counts are
    integers in this development, so the reading covers the strings that
    coerce to an integer or to [NaN]. *)
Variable Number : string -> option Z.

(** [Number(s || "1") || 1] *)
Definition coerceCount (s : string) : Z :=
  JS.or_one (Number (if String.eqb s "" then "1" else s)).

(** [kennelId] is [None] when the caller leaves it out. *)
Definition createBookingRequest (payload : OwnerBookingRequestPayload)
    (kennelId_ : option string) : M BookingRecord :=
  let kennelId_ := default KENNEL_ID kennelId_ in
  all ← gets (loadArray BOOKING_KEY);
  let catCount_ := coerceCount (r_catCount payload) in
  let roomCount_ := coerceCount (r_roomCount payload) in
  id_ ← newId "b";
  now ← Date_now;
  let record :=
    {| id := id_;
       kennelId := kennelId_;
       createdAt := JS.toISOString now;
       status := Some "pending";
       source := Some owner;
       checkIn := Some (r_checkIn payload);
       checkOut := Some (r_checkOut payload);
       petName := Some (r_petNames payload);
       petNames := Some (r_petNames payload);
       catCount := Some catCount_;
       roomCount := Some roomCount_;
       ownerName := Some (r_ownerName payload);
       ownerPhone := Some (r_ownerPhone payload);
       ownerEmail := Some (r_ownerEmail payload);
       note := Some (r_note payload);
       indoorPet := Some (r_indoorPet payload);
       food := Some (r_food payload);
       medicine := Some (r_medicine payload);
       allowSocialMedia := Some (r_allowSocialMedia payload) |} in
  let all := (all ++ [record])%list in
  _ ← saveArray BOOKING_KEY all;
  mret record.

End BookingRequest.

(** One admissible [Number]: optional sign and decimal digits; the empty
    string coerces to 0, anything else to [NaN]. *)
Definition Number_integer (s : string) : option Z :=
  match s with
  | "" => Some 0%Z
  | String "-" ("" as s') | String "+" ("" as s') => None
  | String "-" s' => Z.opp <$> JS.number_of_digits 0 s'
  | String "+" s' => JS.number_of_digits 0 s'
  | _ => JS.number_of_digits 0 s
  end.

(* ------------------------------------------------------------------ *)
(** * Capacity                                                          *)
(* ------------------------------------------------------------------ *)

Section Capacity.

(** The host's [Date.parse], [None] for [NaN]. *)
Variable Date_parse : string -> option Z.

(** The host's time zone, [LocalTZA(t, isUTC)]. *)
Variable LocalTZA : Z -> bool -> Z.

(** [new Date(iso)] *)
Definition new_Date (iso : string) : option Z := Date_parse iso ≫= JS.TimeClip.

(** The loop [while (d <= end) { res.push(...); d.setDate(d.getDate() + 1); }]
    on its two variables [d] and [res]: its test, where an invalid [d]
    compares false, and its body. *)
Definition eachDay_test (end_ : Z) (d : option Z) : bool :=
  match d with
  | Some t => (t <=? end_)%Z
  | None => false
  end.

Definition eachDay_body (st : option Z * list string) : option Z * list string :=
  match st.1 with
  | Some t => (JS.setDate_next LocalTZA t, (st.2 ++ [JS.toISOString_slice10 t])%list)
  | None => st
  end.

(** [n] rounds of the loop, fewer when the test fails before. *)
Fixpoint eachDay_steps (n : nat) (end_ : Z) (st : option Z * list string)
  : option Z * list string :=
  match n with
  | O => st
  | S n' => if eachDay_test end_ st.1 then eachDay_steps n' end_ (eachDay_body st) else st
  end.

(** The loop run until its test fails, for [2 ^ k] rounds at most: one
    round, or twice the rounds of [k - 1]. *)
Fixpoint eachDay_loop (k : nat) (end_ : Z) (st : option Z * list string)
  : option Z * list string :=
  match k with
  | O => if eachDay_test end_ st.1 then eachDay_body st else st
  | S k' =>
      let st' := eachDay_loop k' end_ st in
      if eachDay_test end_ st'.1 then eachDay_loop k' end_ st' else st'
  end.

(** Time values lie between -8.64e15 and 8.64e15, fewer than [2 ^ 54] of
    them: a loop whose [d] advances at each round leaves before that many
    rounds, in every time zone. *)
Definition eachDay_rounds : nat := 54.

Definition eachDay (startIso endIso : string) : list string :=
  match new_Date startIso, new_Date endIso with
  | Some start, Some end_ => (eachDay_loop eachDay_rounds end_ (Some start, [])).2
  | _, _ => []
  end.

Definition overlapsDay (startIso endIso : option string) (dayIso : string) : bool :=
  if JS.falsy_string startIso || JS.falsy_string endIso then false
  else String.leb (JS.nullish startIso "") dayIso
       && String.ltb dayIso (JS.nullish endIso "").

Definition isCheckedOut (status_ : option string) : bool :=
  JS.strict_eq status_ "checked_out" || JS.strict_eq status_ "checkedOut".

(** [for (const stay of checkins) { ... booked += count; }] *)
Fixpoint countStays (checkins : list CheckinRecord) (date_ : string) (booked_ : Z) : Z :=
  match checkins with
  | [] => booked_
  | stay :: rest =>
      if isCheckedOut (status stay) then countStays rest date_ booked_
      else if overlapsDay (checkIn stay) (checkOut stay) date_
      then countStays rest date_ (booked_ + JS.or_one (catCount stay))
      else countStays rest date_ booked_
  end.

(** [for (const b of bookings) { ... booked += count; }] *)
Fixpoint countBookings (bookings : list BookingRecord) (date_ : string) (booked_ : Z) : Z :=
  match bookings with
  | [] => booked_
  | b :: rest =>
      if negb (String.eqb (JS.or_string (status b) "pending") "precheck")
      then countBookings rest date_ booked_
      else if overlapsDay (checkIn b) (checkOut b) date_
      then countBookings rest date_ (booked_ + JS.or_one (catCount b))
      else countBookings rest date_ booked_
  end.

(** The value of [booked] after both loops, before capping. *)
Definition bookedOn (bookings : list BookingRecord) (checkins : list CheckinRecord)
    (date_ : string) : Z :=
  countBookings bookings date_ (countStays checkins date_ 0).

Definition capacityDay (bookings : list BookingRecord) (checkins : list CheckinRecord)
    (date_ : string) : CapacityDay :=
  let capacityPerDay := FIXED_DAILY_CAPACITY in
  let booked_ := bookedOn bookings checkins date_ in
  let cappedBooked := Z.min booked_ capacityPerDay in
  let free_ := Z.max 0 (capacityPerDay - cappedBooked) in
  {| date := date_; booked := cappedBooked; capacity := capacityPerDay; free := free_ |}.

Definition getCapacityForRange (kennelId_ startDateIso endDateIso : string) (w : World)
  : list CapacityDay :=
  let bookings := listBookingsForKennel kennelId_ w in
  let checkins := listCheckinsForKennel kennelId_ w in
  let dates := eachDay startDateIso endDateIso in
  List.map (capacityDay bookings checkins) dates.

Definition hasCapacityForBooking (kennelId_ : string) (booking : BookingRecord) (w : World)
  : bool :=
  if JS.falsy_string (checkIn booking) || JS.falsy_string (checkOut booking) then false
  else
    let days :=
      getCapacityForRange kennelId_ (JS.nullish (checkIn booking) "")
        (JS.nullish (checkOut booking) "") w in
    let needed := JS.or_one (catCount booking) in
    forallb (fun d => (booked d + needed <=? capacity d)%Z) days.

End Capacity.

(* ------------------------------------------------------------------ *)
(** * The capacity rule in the words of the specification              *)
(* ------------------------------------------------------------------ *)

(** The pet count of a record: its [catCount], 1 when absent or zero. *)
Definition petCount (r : BookingRecord) : Z :=
  match catCount r with
  | None => 1%Z
  | Some n => if decide (n = 0%Z) then 1%Z else n
  end.

(** The half-open interval [checkIn, checkOut) of a record holds a day when
    both dates are present and [checkIn <= day < checkOut]. *)
Definition intervalContains (r : BookingRecord) (day : string) : bool :=
  match checkIn r, checkOut r with
  | Some ci, Some co =>
      negb (String.eqb ci "") && negb (String.eqb co "")
      && String.leb ci day && String.ltb day co
  | _, _ => false
  end.

Definition hasStatus (r : BookingRecord) (s : string) : bool :=
  match status r with
  | Some s' => String.eqb s' s
  | None => false
  end.

(** The records a tenant sees: its own, or all of them for the empty id. *)
Definition ofTenant (tenant : string) (r : BookingRecord) : bool :=
  String.eqb tenant "" || String.eqb (kennelId r) tenant.

Definition sumZ (l : list Z) : Z := fold_right Z.add 0%Z l.

(** As worded: stays whose status is not "checked_out". *)
Definition staysSum_as_stated (tenant : string) (stays : list CheckinRecord) (day : string) : Z :=
  sumZ (List.map (fun s : CheckinRecord => petCount s)
          (List.filter
             (fun s : CheckinRecord =>
                ofTenant tenant s && negb (hasStatus s "checked_out") && intervalContains s day)
             stays)).

(** As the code has it: neither "checked_out" nor "checkedOut". *)
Definition staysSum (tenant : string) (stays : list CheckinRecord) (day : string) : Z :=
  sumZ (List.map (fun s : CheckinRecord => petCount s)
          (List.filter
             (fun s : CheckinRecord =>
                ofTenant tenant s && negb (hasStatus s "checked_out")
                && negb (hasStatus s "checkedOut") && intervalContains s day)
             stays)).

(** Bookings whose status is exactly "precheck". *)
Definition bookingsSum (tenant : string) (bookings : list BookingRecord) (day : string) : Z :=
  sumZ (List.map petCount
          (List.filter
             (fun b => ofTenant tenant b && hasStatus b "precheck" && intervalContains b day)
             bookings)).

(** No clock change bears on the days from [start] to [end_]: the next
    local day is read back with the offset in force the day before, so each
    round of [eachDay] advances by 24 hours. *)
Definition no_clock_change (LocalTZA : Z -> bool -> Z) (start end_ : Z) : Prop :=
  forall t, (start <= t <= end_)%Z ->
    LocalTZA (JS.LocalTime LocalTZA t + JS.msPerDay)%Z false = LocalTZA t true.

(** Normal operation: a browser whose localStorage can be read and accepts
    writes. *)
Definition storage_ok (w : World) : Prop :=
  window w = true /\ getItem_throws w = false /\ forall k, setItem_throws w k = false.

(** Each optional property of [r] is the one of [p] when [p] sets it and
    the one of [d] otherwise; [id] and [name] are those of [p]. *)
Definition set_or_default {A} (d p r : option A) : Prop :=
  match p with
  | Some v => r = Some v
  | None => r = d
  end.

Definition filledFrom (d p r : KennelProfile) : Prop :=
  p_id r = p_id p /\ p_name r = p_name p
  /\ set_or_default (tagline d) (tagline p) (tagline r)
  /\ set_or_default (nightlyRate d) (nightlyRate p) (nightlyRate r)
  /\ set_or_default (addressLine1 d) (addressLine1 p) (addressLine1 r)
  /\ set_or_default (postalCode d) (postalCode p) (postalCode r)
  /\ set_or_default (city d) (city p) (city r)
  /\ set_or_default (phone d) (phone p) (phone r)
  /\ set_or_default (email d) (email p) (email r)
  /\ set_or_default (website d) (website p) (website r)
  /\ set_or_default (shortDescription d) (shortDescription p) (shortDescription r)
  /\ set_or_default (sellingPoints d) (sellingPoints p) (sellingPoints r)
  /\ set_or_default (practicalInfo d) (practicalInfo p) (practicalInfo r)
  /\ set_or_default (conditionsText d) (conditionsText p) (conditionsText r).

(* ------------------------------------------------------------------ *)
(** * Sample data                                                       *)
(* ------------------------------------------------------------------ *)

Definition demoBooking (id_ : string) (status_ : option string)
    (checkIn_ checkOut_ : string) (cats : option Z) : BookingRecord :=
  {| id := id_; kennelId := KENNEL_ID; status := status_;
     createdAt := "2024-01-05T09:30:00.000Z"; source := Some internal;
     checkIn := Some checkIn_; checkOut := Some checkOut_;
     petName := Some "Mis"; petNames := Some "Mis"; catCount := cats;
     roomCount := Some 1%Z; ownerName := Some "Karen Holm";
     ownerPhone := None; ownerEmail := None; note := None; indoorPet := Some inde;
     food := None; medicine := None; allowSocialMedia := Some false |}.

Definition demoStay (id_ : string) (status_ : option string)
    (checkIn_ checkOut_ : string) (cats : option Z) : CheckinRecord :=
  {| base := demoBooking id_ status_ checkIn_ checkOut_ cats; cageId := Some None |}.

(** A browser with the two collections stored and no profile; [full] names
    the keys whose writes are refused. *)
Definition demoWorld (bookings : list BookingRecord) (checkins : list CheckinRecord)
    (full : string -> bool) : World :=
  {| window := true; getItem_throws := false; setItem_throws := full;
     localStorage :=
       {| bookings_v2 := Some (raw_json (JArray bookings));
          checkins_v2 := Some (raw_json (JArray checkins));
          profile_v1 := None |};
     setItem_calls := [];
     clock := fun n => (1700000000000 + Z.of_nat n)%Z; ticks := 0;
     random := fun _ => "k3j9x2abcd"; draws := 0 |}.

(** A server-side render: no [window]. *)
Definition serverWorld : World :=
  {| window := false; getItem_throws := false; setItem_throws := fun _ => false;
     localStorage := {| bookings_v2 := None; checkins_v2 := None; profile_v1 := None |};
     setItem_calls := []; clock := fun _ => 0%Z; ticks := 0;
     random := fun _ => ""; draws := 0 |}.

Definition demoPayload (cats rooms : string) : OwnerBookingRequestPayload :=
  {| r_checkIn := "2024-03-01"; r_checkOut := "2024-03-04"; r_catCount := cats;
     r_roomCount := rooms; r_ownerName := "Karen Holm"; r_ownerPhone := "20 20 20 20";
     r_ownerEmail := "karen@example.dk"; r_petNames := "Mis"; r_indoorPet := inde;
     r_food := ""; r_medicine := ""; r_allowSocialMedia := false; r_note := "" |}.

Definition demoProfile : KennelProfile :=
  {| p_id := "kennel-7"; p_name := "Pension Pote"; tagline := None;
     nightlyRate := Some 290%Z; addressLine1 := None; postalCode := None;
     city := Some "Helsinge"; phone := None; email := None; website := None;
     shortDescription := None; sellingPoints := None; practicalInfo := None;
     conditionsText := None |}.

(** A stay and a booking covering 1 and 2 February 2024, two cats each. *)
Definition febStay (status_ : option string) : CheckinRecord :=
  demoStay "c_1" status_ "2024-02-01" "2024-02-03" (Some 2%Z).

Definition febBooking (status_ : option string) (cats : option Z) : BookingRecord :=
  demoBooking "b_1" status_ "2024-02-01" "2024-02-03" cats.

(** A store whose only record is a stay spelled "checkedOut". *)
Definition camelCaseWorld : World :=
  demoWorld [] [febStay (Some "checkedOut")] (fun _ => false).

(** A store with one pending and one accepted booking. *)
Definition twoBookingsWorld : World :=
  demoWorld [febBooking (Some "pending") None;
             demoBooking "b_2" (Some "precheck") "2024-02-01" "2024-02-03" (Some 2%Z)]
            [] (fun _ => false).

Definition emptyWorld : World := demoWorld [] [] (fun _ => false).

Definition oneRecordWorld : World :=
  demoWorld [febBooking (Some "pending") None] [febStay (Some "checked_in")] (fun _ => false).

(** The store of the specification's example: one accepted booking of four
    cats from 1 to 3 February 2024. *)
Definition fourCatsWorld : World :=
  demoWorld [febBooking (Some "precheck") (Some 4%Z)] [] (fun _ => false).

(** A stay and an accepted booking from 10 to 12 January 2024. *)
Definition janStay : CheckinRecord :=
  demoStay "c_7" (Some "checked_in") "2024-01-10" "2024-01-12" (Some 3%Z).

Definition janBooking : BookingRecord :=
  demoBooking "b_7" (Some "precheck") "2024-01-10" "2024-01-12" None.

(** The owner's form submitted with "-2" cats from 1 to 4 March 2024, and
    the store after the kennel accepts that request. *)
Definition negativeRequest : BookingRecord * World :=
  createBookingRequest Number_integer (demoPayload "-2" "1") None emptyWorld.

Definition negativeWorld : World :=
  (acceptBooking (id negativeRequest.1) negativeRequest.2).2.

(** Six cats arriving on 3 February 2024, and a candidate leaving that day. *)
Definition fullOnCheckoutWorld : World :=
  demoWorld [demoBooking "b_3" (Some "precheck") "2024-02-03" "2024-02-05" (Some 6%Z)]
            [] (fun _ => false).

Definition candidate : BookingRecord :=
  demoBooking "b_4" (Some "pending") "2024-02-01" "2024-02-03" (Some 1%Z).

(** A full house on 1 and 2 February 2024. *)
Definition fullWorld : World :=
  demoWorld [demoBooking "b_5" (Some "precheck") "2024-02-01" "2024-02-03" (Some 6%Z)]
            [] (fun _ => false).

(** The same store once the candidate is accepted. *)
Definition candidateAcceptedWorld : World :=
  demoWorld [demoBooking "b_3" (Some "precheck") "2024-02-03" "2024-02-05" (Some 6%Z);
             with_status candidate (Some "precheck")]
            [] (fun _ => false).

(** Bookings whose dates the host cannot read, or reads in reverse order. *)
Definition unreadableBooking : BookingRecord :=
  demoBooking "b_6" (Some "pending") "next friday" "2024-02-03" (Some 9%Z).

Definition reversedBooking : BookingRecord :=
  demoBooking "b_8" (Some "pending") "2024-02-03" "2024-02-01" (Some 9%Z).

Definition undatedBooking : BookingRecord :=
  demoBooking "b_9" (Some "pending") "" "2024-02-03" (Some 1%Z).

(* ------------------------------------------------------------------ *)
(** * The rest of the booking and check-in API                          *)
(* ------------------------------------------------------------------ *)

(** The [data] of [createBooking]: a booking without [id], [createdAt] and
    [kennelId], whose [status] and [source] may be left out.  For these two
    the spread [...data] comes after the defaults, so a key that is present
    wins even when its value is [undefined]: [None] is a key left out,
    [Some None] a key holding [undefined]. *)
Record BookingData := {
  d_status : option (option string);
  d_source : option (option BookingSource);
  d_checkIn : string;
  d_checkOut : string;
  d_petName : option string;
  d_petNames : option string;
  d_catCount : option Z;
  d_roomCount : option Z;
  d_ownerName : option string;
  d_ownerPhone : option string;
  d_ownerEmail : option string;
  d_note : option string;
  d_indoorPet : option IndoorPet;
  d_food : option string;
  d_medicine : option string;
  d_allowSocialMedia : option bool
}.

Definition createBooking (kennelId_ : string) (data : BookingData) : M BookingRecord :=
  all ← gets (loadArray BOOKING_KEY);
  id_ ← newId "b";
  now ← Date_now;
  let record :=
    {| id := id_;
       kennelId := kennelId_;
       createdAt := JS.toISOString now;
       status := over (d_status data) (Some (JS.nullish (mjoin (d_status data)) "pending"));
       source := over (d_source data) (Some (default internal (mjoin (d_source data))));
       checkIn := Some (d_checkIn data);
       checkOut := Some (d_checkOut data);
       petName := d_petName data;
       petNames := d_petNames data;
       catCount := d_catCount data;
       roomCount := d_roomCount data;
       ownerName := d_ownerName data;
       ownerPhone := d_ownerPhone data;
       ownerEmail := d_ownerEmail data;
       note := d_note data;
       indoorPet := d_indoorPet data;
       food := d_food data;
       medicine := d_medicine data;
       allowSocialMedia := d_allowSocialMedia data |} in
  let all := (all ++ [record])%list in
  _ ← saveArray BOOKING_KEY all;
  mret record.

(** A [BookingRecord] as an object in memory, the argument of
    [updateBooking].  A property that may be missing is [None] when the
    object has no such key, [Some None] when the key holds [undefined] and
    [Some (Some v)] when it holds [v]: only a key that is there takes part
    in a spread. *)
Record BookingObject := {
  m_id : string;
  m_kennelId : string;
  m_status : option (option string);
  m_createdAt : string;
  m_source : option (option BookingSource);
  m_checkIn : option (option string);
  m_checkOut : option (option string);
  m_petName : option (option string);
  m_petNames : option (option string);
  m_catCount : option (option Z);
  m_roomCount : option (option Z);
  m_ownerName : option (option string);
  m_ownerPhone : option (option string);
  m_ownerEmail : option (option string);
  m_note : option (option string);
  m_indoorPet : option (option IndoorPet);
  m_food : option (option string);
  m_medicine : option (option string);
  m_allowSocialMedia : option (option bool)
}.

(** [CheckinRecord] in memory; [cageId] may also hold [null]. *)
Record CheckinObject := {
  m_base :> BookingObject;
  m_cageId : option (option (option string))
}.

(** What reading the properties of the object gives, which is also what
    [JSON.stringify] keeps of it: a key holding [undefined] is left out. *)
Definition read_booking (r : BookingObject) : BookingRecord :=
  {| id := m_id r; kennelId := m_kennelId r; status := mjoin (m_status r);
     createdAt := m_createdAt r; source := mjoin (m_source r);
     checkIn := mjoin (m_checkIn r); checkOut := mjoin (m_checkOut r);
     petName := mjoin (m_petName r); petNames := mjoin (m_petNames r);
     catCount := mjoin (m_catCount r); roomCount := mjoin (m_roomCount r);
     ownerName := mjoin (m_ownerName r); ownerPhone := mjoin (m_ownerPhone r);
     ownerEmail := mjoin (m_ownerEmail r); note := mjoin (m_note r);
     indoorPet := mjoin (m_indoorPet r); food := mjoin (m_food r);
     medicine := mjoin (m_medicine r); allowSocialMedia := mjoin (m_allowSocialMedia r) |}.

Definition read_checkin (r : CheckinObject) : CheckinRecord :=
  {| base := read_booking r; cageId := mjoin (m_cageId r) |}.

(** [{ ...x, ...r }] as it is stored: each key of [r] overwrites the
    property of [x], also when it holds [undefined], and the property is
    then left out of the stored text. *)
Definition spread_booking (x : BookingRecord) (r : BookingObject) : BookingRecord :=
  {| id := m_id r; kennelId := m_kennelId r; status := over (m_status r) (status x);
     createdAt := m_createdAt r; source := over (m_source r) (source x);
     checkIn := over (m_checkIn r) (checkIn x);
     checkOut := over (m_checkOut r) (checkOut x);
     petName := over (m_petName r) (petName x);
     petNames := over (m_petNames r) (petNames x);
     catCount := over (m_catCount r) (catCount x);
     roomCount := over (m_roomCount r) (roomCount x);
     ownerName := over (m_ownerName r) (ownerName x);
     ownerPhone := over (m_ownerPhone r) (ownerPhone x);
     ownerEmail := over (m_ownerEmail r) (ownerEmail x);
     note := over (m_note r) (note x); indoorPet := over (m_indoorPet r) (indoorPet x);
     food := over (m_food r) (food x); medicine := over (m_medicine r) (medicine x);
     allowSocialMedia := over (m_allowSocialMedia r) (allowSocialMedia x) |}.

(** [{ ...x, ...r }] on check-ins. *)
Definition spread_checkin (x : CheckinRecord) (r : CheckinObject) : CheckinRecord :=
  {| base := spread_booking x r; cageId := over (m_cageId r) (cageId x) |}.

(** The collections hold what the store keeps of each element: the pushed
    [record] is stored as [read_booking record]. *)
Definition updateBooking (record : BookingObject) : M BookingObject :=
  all ← gets (loadArray BOOKING_KEY);
  let all :=
    match findIndex (fun b => String.eqb (id b) (m_id record)) all with
    | Some idx => alter (fun x => spread_booking x record) idx all
    | None => (all ++ [read_booking record])%list
    end in
  _ ← saveArray BOOKING_KEY all;
  mret record.

Definition updateCheckin (record : CheckinObject) : M CheckinObject :=
  all ← gets (loadArray CHECKIN_KEY);
  let all :=
    match findIndex (fun c : CheckinRecord => String.eqb (id c) (m_id record)) all with
    | Some idx => alter (fun x => spread_checkin x record) idx all
    | None => (all ++ [read_checkin record])%list
    end in
  _ ← saveArray CHECKIN_KEY all;
  mret record.

(** One property after the merge of an object into a stored record: the
    stored value when the object has no such key, what the key holds
    otherwise ([undefined], that is [None], included). *)
Definition kept_or_set {A} (stored : option A) (key : option (option A)) (result : option A)
  : Prop :=
  match key with
  | None => result = stored
  | Some v => result = v
  end.

Definition mergedFrom (x : BookingRecord) (r : BookingObject) (m : BookingRecord) : Prop :=
  id m = m_id r /\ kennelId m = m_kennelId r /\ createdAt m = m_createdAt r
  /\ kept_or_set (status x) (m_status r) (status m)
  /\ kept_or_set (source x) (m_source r) (source m)
  /\ kept_or_set (checkIn x) (m_checkIn r) (checkIn m)
  /\ kept_or_set (checkOut x) (m_checkOut r) (checkOut m)
  /\ kept_or_set (petName x) (m_petName r) (petName m)
  /\ kept_or_set (petNames x) (m_petNames r) (petNames m)
  /\ kept_or_set (catCount x) (m_catCount r) (catCount m)
  /\ kept_or_set (roomCount x) (m_roomCount r) (roomCount m)
  /\ kept_or_set (ownerName x) (m_ownerName r) (ownerName m)
  /\ kept_or_set (ownerPhone x) (m_ownerPhone r) (ownerPhone m)
  /\ kept_or_set (ownerEmail x) (m_ownerEmail r) (ownerEmail m)
  /\ kept_or_set (note x) (m_note r) (note m)
  /\ kept_or_set (indoorPet x) (m_indoorPet r) (indoorPet m)
  /\ kept_or_set (food x) (m_food r) (food m)
  /\ kept_or_set (medicine x) (m_medicine r) (medicine m)
  /\ kept_or_set (allowSocialMedia x) (m_allowSocialMedia r) (allowSocialMedia m).

(** The object with a key for each property that [b] has. *)
Definition objectOf (b : BookingRecord) : BookingObject :=
  {| m_id := id b; m_kennelId := kennelId b; m_status := Some <$> status b;
     m_createdAt := createdAt b; m_source := Some <$> source b;
     m_checkIn := Some <$> checkIn b; m_checkOut := Some <$> checkOut b;
     m_petName := Some <$> petName b; m_petNames := Some <$> petNames b;
     m_catCount := Some <$> catCount b; m_roomCount := Some <$> roomCount b;
     m_ownerName := Some <$> ownerName b; m_ownerPhone := Some <$> ownerPhone b;
     m_ownerEmail := Some <$> ownerEmail b; m_note := Some <$> note b;
     m_indoorPet := Some <$> indoorPet b; m_food := Some <$> food b;
     m_medicine := Some <$> medicine b;
     m_allowSocialMedia := Some <$> allowSocialMedia b |}.

(* ------------------------------------------------------------------ *)
(** * Cage API                                                          *)
(* ------------------------------------------------------------------ *)

Record KennelCage := {
  g_id : string;
  g_kennelId : string;
  g_name : string;
  g_size : option string;
  g_location : option string;
  g_note : option string
}.

(** The [cage] of [upsertCage]: a cage without [kennelId], whose [id] may
    be left out.  For the optional properties [None] is a key left out and
    [Some None] a key holding [undefined]: the spread [...cage] lets the
    second overwrite, not the first. *)
Record CageInput := {
  i_id : option string;
  i_name : string;
  i_size : option (option string);
  i_location : option (option string);
  i_note : option (option string)
}.

Definition CAGE_KEY_name : string := STORAGE_PREFIX ++ "cages_v1".

(** The host together with the text under [annisse_cages_v1]. *)
Record CageWorld := {
  host : World;
  cages_v1 : option (Raw KennelCage)
}.

(** [loadArray] on the text found under the key. *)
Definition loadArray_text {T} (w : World) (text : option (Raw T)) : list T :=
  if negb (isBrowser w) then []
  else
    try_catch
      (raw ← (if getItem_throws w then Throw else Normal text);
       if falsy_raw raw then Normal []
       else
         parsed ← JSON_parse (default raw_empty raw);
         Normal (match parsed with JArray xs => xs | _ => [] end))
      [].

(** [loadArray<KennelCage>(CAGE_KEY)] *)
Definition loadCages (cw : CageWorld) : list KennelCage :=
  loadArray_text (host cw) (cages_v1 cw).

(** [saveArray(CAGE_KEY, value)] *)
Definition saveCages (value : list KennelCage) (cw : CageWorld) : CageWorld :=
  if negb (isBrowser (host cw)) then cw
  else if setItem_throws (host cw) CAGE_KEY_name then cw
  else {| host := host cw; cages_v1 := Some (raw_json (JArray value)) |}.

Definition listCagesForKennel (kennelId_ : string) (cw : CageWorld) : list KennelCage :=
  let all := loadCages cw in
  List.filter (fun c => String.eqb (g_kennelId c) kennelId_) all.

Definition upsertCage (kennelId_ : string) (cage : CageInput) (cw : CageWorld)
  : KennelCage * CageWorld :=
  let all := loadCages cw in
  if negb (JS.falsy_string (i_id cage)) then
    let id_ := JS.nullish (i_id cage) "" in
    let idx := findIndex (fun c => String.eqb (g_id c) id_) all in
    let base_ := idx ≫= (fun i => all !! i) in
    let start :=
      default {| g_id := id_; g_kennelId := kennelId_; g_name := i_name cage;
                 g_size := None; g_location := None; g_note := None |} base_ in
    let updated :=
      {| g_id := id_;
         g_kennelId := kennelId_;
         g_name := i_name cage;
         g_size := over (i_size cage) (g_size start);
         g_location := over (i_location cage) (g_location start);
         g_note := over (i_note cage) (g_note start) |} in
    let all :=
      match idx with
      | Some i => <[i := updated]> all
      | None => (all ++ [updated])%list
      end in
    (updated, saveCages all cw)
  else
    let '(id_, w') := newId "g" (host cw) in
    let created :=
      {| g_id := id_; g_kennelId := kennelId_; g_name := i_name cage;
         g_size := mjoin (i_size cage); g_location := mjoin (i_location cage);
         g_note := mjoin (i_note cage) |} in
    let all := (all ++ [created])%list in
    (created, saveCages all {| host := w'; cages_v1 := cages_v1 cw |}).

Definition deleteCage (kennelId_ cageId_ : string) (cw : CageWorld) : CageWorld :=
  let all :=
    List.filter
      (fun c => negb (String.eqb (g_kennelId c) kennelId_ && String.eqb (g_id c) cageId_))
      (loadCages cw) in
  saveCages all cw.

(** A store that holds a profile for "kennel-7". *)
Definition profileWorld : World := (saveKennelProfile demoProfile emptyWorld).2.

Definition otherProfile : KennelProfile :=
  {| p_id := KENNEL_ID; p_name := "Annisse"; tagline := None; nightlyRate := None;
     addressLine1 := None; postalCode := None; city := None; phone := None;
     email := None; website := None; shortDescription := None; sellingPoints := None;
     practicalInfo := None; conditionsText := None |}.

(** A browser whose quota is used up: every write is refused. *)
Definition quotaWorld : World :=
  demoWorld [febBooking (Some "pending") None] [febStay (Some "checked_in")] (fun _ => true).

(** A stored booking without a status, as old records are. *)
Definition legacyWorld : World :=
  demoWorld [febBooking None None;
             demoBooking "b_2" (Some "precheck") "2024-02-01" "2024-02-03" (Some 2%Z)]
            [] (fun _ => false).

(** The [data] of an internal booking form: two cats from 1 to 3 February
    2024, with the status and source given. *)
Definition demoData (status_ : option (option string))
    (source_ : option (option BookingSource)) : BookingData :=
  {| d_status := status_; d_source := source_;
     d_checkIn := "2024-02-01"; d_checkOut := "2024-02-03";
     d_petName := Some "Mis"; d_petNames := None; d_catCount := Some 2%Z;
     d_roomCount := None; d_ownerName := Some "Karen Holm"; d_ownerPhone := None;
     d_ownerEmail := None; d_note := None; d_indoorPet := None; d_food := None;
     d_medicine := None; d_allowSocialMedia := None |}.

(** A change to the stored booking "b_1": a note and three cats, the other
    optional properties left out; and one whose [catCount] and [note] keys
    hold [undefined]. *)
Definition changeOf (cats : option (option Z)) (note_ : option (option string))
  : BookingObject :=
  {| m_id := "b_1"; m_kennelId := KENNEL_ID; m_status := None;
     m_createdAt := "2024-01-05T09:30:00.000Z"; m_source := None;
     m_checkIn := None; m_checkOut := None; m_petName := None; m_petNames := None;
     m_catCount := cats; m_roomCount := None; m_ownerName := None; m_ownerPhone := None;
     m_ownerEmail := None; m_note := note_; m_indoorPet := None; m_food := None;
     m_medicine := None; m_allowSocialMedia := None |}.

Definition notedBooking : BookingObject :=
  changeOf (Some (Some 3%Z)) (Some (Some "kommer sent")).

Definition erasingBooking : BookingObject := changeOf (Some None) (Some None).

(** The stored booking "b_1" with four cats and a note. *)
Definition allergicWorld : World :=
  demoWorld [read_booking (changeOf (Some (Some 4%Z)) (Some (Some "allergisk")))] []
    (fun _ => false).

(** The stay "c_1" in cage "g_2", and three changes to it: one that says
    nothing about the cage, one whose [cageId] holds [undefined] and one
    that empties the cage. *)
Definition cagedWorld : World :=
  demoWorld []
    [{| base := febStay (Some "checked_in"); cageId := Some (Some "g_2") |}]
    (fun _ => false).

Definition stayChange (cage : option (option (option string))) : CheckinObject :=
  {| m_base :=
       {| m_id := "c_1"; m_kennelId := KENNEL_ID; m_status := None;
          m_createdAt := "2024-01-05T09:30:00.000Z"; m_source := None;
          m_checkIn := None; m_checkOut := None; m_petName := None; m_petNames := None;
          m_catCount := Some (Some 3%Z); m_roomCount := None; m_ownerName := None;
          m_ownerPhone := None; m_ownerEmail := None; m_note := Some (Some "kommer sent");
          m_indoorPet := None; m_food := None; m_medicine := None;
          m_allowSocialMedia := None |};
     m_cageId := cage |}.

Definition stayWithoutCage : CheckinObject := stayChange None.

Definition stayWithUndefinedCage : CheckinObject := stayChange (Some None).

Definition stayWithNullCage : CheckinObject := stayChange (Some (Some None)).

(** What a record that counts adds to a day of a tenant: its pet count when
    the tenant sees it and its interval holds the day. *)
Definition contribution (tenant : string) (r : BookingRecord) (day : string) : Z :=
  if ofTenant tenant r && intervalContains r day then petCount r else 0%Z.

(** The uncapped count of a day as [getCapacityForRange] computes it from
    the store. *)
Definition countOn (tenant : string) (w : World) (day : string) : Z :=
  bookedOn (listBookingsForKennel tenant w) (listCheckinsForKennel tenant w) day.

(** Two stays from 1 to 3 February 2024, three cats in all. *)
Definition twoStaysWorld : World :=
  demoWorld []
    [febStay (Some "checked_in");
     demoStay "c_2" (Some "checked_in") "2024-02-01" "2024-02-03" None]
    (fun _ => false).

(** A booking that was never stored. *)
Definition walkIn : BookingRecord :=
  demoBooking "b_77" (Some "pending") "2024-02-01" "2024-02-03" (Some 2%Z).

(** Two cages of this kennel and one of another kennel. *)
Definition demoCage (id_ kennelId_ name_ : string) (size_ : option string) : KennelCage :=
  {| g_id := id_; g_kennelId := kennelId_; g_name := name_; g_size := size_;
     g_location := None; g_note := None |}.

Definition cagesWorld : CageWorld :=
  {| host := emptyWorld;
     cages_v1 :=
       Some (raw_json (JArray [demoCage "g_1" KENNEL_ID "Bur 1" (Some "stor");
                               demoCage "g_2" "kennel-7" "Box A" None;
                               demoCage "g_3" KENNEL_ID "Bur 3" None])) |}.

Definition renamedCage : CageInput :=
  {| i_id := Some "g_2"; i_name := "Bur 2"; i_size := None; i_location := None;
     i_note := Some (Some "ved vinduet") |}.

Definition newCage : CageInput :=
  {| i_id := None; i_name := "Bur 4"; i_size := Some (Some "lille"); i_location := None;
     i_note := None |}.

(** A browser that denies access to localStorage. *)
Definition deniedWorld : World :=
  {| window := true; getItem_throws := true; setItem_throws := fun _ => true;
     localStorage :=
       {| bookings_v2 :=
            Some (raw_json (JArray [demoBooking "b_5" (Some "precheck") "2024-02-01"
                                      "2024-02-03" (Some 6%Z)]));
          checkins_v2 := None; profile_v1 := None |};
     setItem_calls := []; clock := fun _ => 0%Z; ticks := 0;
     random := fun _ => ""; draws := 0 |}.

(** Four cats accepted and a pending request for two more on the same
    nights. *)
Definition fourPlusTwoWorld : World :=
  demoWorld [febBooking (Some "precheck") (Some 4%Z);
             demoBooking "b_2" (Some "pending") "2024-02-01" "2024-02-03" (Some 2%Z)]
            [] (fun _ => false).

(** A request for two cats from 1 to 4 March 2024 in the store of the
    specification's example, then accepted, converted and checked out. *)
Definition marchRequest : BookingRecord * World :=
  createBookingRequest Number_integer (demoPayload "2" "1") None fourCatsWorld.

Definition marchAccepted : option BookingRecord * World :=
  acceptBooking (id marchRequest.1) marchRequest.2.

Definition marchStay : CheckinRecord * World :=
  createCheckinFromBooking (with_status marchRequest.1 (Some "precheck")) no_overrides
    marchAccepted.2.

Definition marchCheckedOut : unit * World :=
  checkOutCheckin (id marchStay.1) marchStay.2.


(** A day reported with the uncapped count [n]. *)
Definition reportedDay (day : string) (n : Z) : CapacityDay :=
  {| date := day; booked := Z.min n 6; capacity := 6; free := Z.max 0 (6 - Z.min n 6) |}.

(** Two records agree on every property other than [id] and [status]. *)
Definition sameData (a b : BookingRecord) : Prop :=
  kennelId a = kennelId b /\ createdAt a = createdAt b /\ source a = source b
  /\ checkIn a = checkIn b /\ checkOut a = checkOut b
  /\ petName a = petName b /\ petNames a = petNames b
  /\ catCount a = catCount b /\ roomCount a = roomCount b
  /\ ownerName a = ownerName b /\ ownerPhone a = ownerPhone b
  /\ ownerEmail a = ownerEmail b /\ note a = note b /\ indoorPet a = indoorPet b
  /\ food a = food b /\ medicine a = medicine b
  /\ allowSocialMedia a = allowSocialMedia b.

(** The stay and the accepted booking of January stored together, and a
    store whose only record is the same stay spelled "checkedOut". *)
Definition janWorld : World := demoWorld [janBooking] [janStay] (fun _ => false).

Definition janCamelStay : CheckinRecord :=
  demoStay "c_8" (Some "checkedOut") "2024-01-10" "2024-01-12" (Some 3%Z).

Definition janCamelWorld : World := demoWorld [] [janCamelStay] (fun _ => false).

(** Two stored bookings that carry the same id, the second one accepted. *)
Definition twin : BookingRecord := febBooking (Some "precheck") (Some 2%Z).

Definition twinsWorld : World :=
  demoWorld [febBooking (Some "pending") None; twin] [] (fun _ => false).

(** The store of the specification's example in a browser that refuses
    writes under the bookings' key only. *)
Definition bookingsFullWorld : World :=
  demoWorld [febBooking (Some "precheck") (Some 4%Z)] []
    (fun k => String.eqb k (key_name BOOKING_KEY)).


(** A cage of another kennel with every optional property set, and two
    changes to it: one that moves it and whose [note] key holds
    [undefined], and one that only renames it. *)
Definition locatedWorld : CageWorld :=
  {| host := emptyWorld;
     cages_v1 :=
       Some (raw_json (JArray [{| g_id := "g_9"; g_kennelId := "kennel-7";
                                  g_name := "Box B"; g_size := Some "stor";
                                  g_location := Some "gangen";
                                  g_note := Some "gammel" |}])) |}.

Definition movedCage : CageInput :=
  {| i_id := Some "g_9"; i_name := "Bur 9"; i_size := None;
     i_location := Some (Some "stuen"); i_note := Some None |}.

Definition plainCage : CageInput :=
  {| i_id := Some "g_9"; i_name := "Bur 9"; i_size := None; i_location := None;
     i_note := None |}.


(* ------------------------------------------------------------------ *)
(** * Properties                                                        *)
(* ------------------------------------------------------------------ *)

Local Open Scope list_scope.

(** ** The host functions on known values *)

Example iso_date_leap : JS.toISOString_slice10 1709164800000 = "2024-02-29".
Proof. reflexivity. Qed.

Example iso_date_epoch : JS.toISOString_slice10 0 = "1970-01-01".
Proof. reflexivity. Qed.

Example iso_date_before_epoch : JS.toISOString_slice10 (-1) = "1969-12-31".
Proof. reflexivity. Qed.

Example iso_date_year_zero : JS.toISOString_slice10 (-62167219200000) = "0000-01-01".
Proof. reflexivity. Qed.

Example iso_date_extended_year : JS.toISOString_slice10 253402300800000 = "+010000-01".
Proof. reflexivity. Qed.

Example toISOString_known : JS.toISOString 1700000000123 = "2023-11-14T22:13:20.123Z".
Proof. reflexivity. Qed.

Example toString36_known : JS.toString36 1700000000000 = "loyw3v28".
Proof. reflexivity. Qed.

Example parse_date_only_ok : JS.parse_date_only "2024-02-29" = Some 1709164800000%Z.
Proof. reflexivity. Qed.

Example parse_date_only_bad : JS.parse_date_only "2023-02-29" = None.
Proof. reflexivity. Qed.

Example eachDay_over_leap_day :
  eachDay JS.parse_date_only JS.Europe_Copenhagen "2024-02-27" "2024-03-02"
  = ["2024-02-27"; "2024-02-28"; "2024-02-29"; "2024-03-01"; "2024-03-02"].
Proof. reflexivity. Qed.

(** ** The enumeration of days *)

Section EachDay.

Variable Date_parse : string -> option Z.
Variable LocalTZA : Z -> bool -> Z.

Lemma TimeClip_Some (t t' : Z) :
  JS.TimeClip t = Some t' -> t' = t /\ (Z.abs t <= 8640000000000000)%Z.
Proof.
  unfold JS.TimeClip. destruct (Z.leb_spec (Z.abs t) 8640000000000000); [|done].
  by intros [= <-].
Qed.

Lemma new_Date_clipped (iso : string) (t : Z) :
  new_Date Date_parse iso = Some t -> (Z.abs t <= 8640000000000000)%Z.
Proof.
  unfold new_Date. destruct (Date_parse iso) as [t'|]; simpl; [|done].
  intros Hclip. by apply TimeClip_Some in Hclip as [-> ?].
Qed.

(** A loop whose test fails makes no further round. *)
Lemma eachDay_steps_ended (n : nat) (end_ : Z) (st : option Z * list string) :
  eachDay_test end_ st.1 = false -> eachDay_steps LocalTZA n end_ st = st.
Proof. intros Htest. destruct n; simpl; [done|]. by rewrite Htest. Qed.

Lemma eachDay_steps_add (n m : nat) (end_ : Z) (st : option Z * list string) :
  eachDay_steps LocalTZA (n + m) end_ st
  = eachDay_steps LocalTZA m end_ (eachDay_steps LocalTZA n end_ st).
Proof.
  revert st. induction n as [|n IH]; intros st; simpl; [done|].
  destruct (eachDay_test end_ st.1) eqn:Htest; [apply IH|].
  by rewrite eachDay_steps_ended.
Qed.

(** [eachDay_loop k] is [2 ^ k] rounds. *)
Lemma eachDay_loop_steps (k : nat) (end_ : Z) (st : option Z * list string) :
  eachDay_loop LocalTZA k end_ st = eachDay_steps LocalTZA (2 ^ k) end_ st.
Proof.
  revert st. induction k as [|k IH]; intros st.
  - simpl. by destruct (eachDay_test end_ st.1).
  - cbn [eachDay_loop]. rewrite Nat.pow_succ_r', Nat.mul_succ_l, Nat.mul_1_l.
    rewrite eachDay_steps_add, !IH.
    destruct (eachDay_test end_ (eachDay_steps LocalTZA (2 ^ k) end_ st).1) eqn:Htest;
      [done|].
    symmetry. by apply eachDay_steps_ended.
Qed.

(** The loop has left when its allowance is used up, provided each round
    moves [d] forward: the allowance is never what ends the loop. *)
Lemma eachDay_loop_advances (end_ : Z) (k : nat) (t : Z) (res : list string) :
  (forall t t', (t <= end_)%Z -> JS.setDate_next LocalTZA t = Some t' -> (t < t')%Z) ->
  let st' := eachDay_loop LocalTZA k end_ (Some t, res) in
  eachDay_test end_ st'.1 = false
  \/ exists t', st'.1 = Some t' /\ (t + 2 ^ Z.of_nat k <= t')%Z
                /\ (Z.abs t' <= 8640000000000000)%Z.
Proof.
  intros Hadvance. revert t res. induction k as [|k IH]; intros t res; cbn zeta.
  - cbn [eachDay_loop fst]. destruct (eachDay_test end_ (Some t)) eqn:Htest.
    + cbn [eachDay_test] in Htest. apply Z.leb_le in Htest.
      unfold eachDay_body. cbn [fst snd].
      destruct (JS.setDate_next LocalTZA t) as [t'|] eqn:Hnext.
      2:{ left. reflexivity. }
      right. exists t'. split; [reflexivity|]. split.
      * specialize (Hadvance t t' Htest Hnext). change (2 ^ Z.of_nat 0)%Z with 1%Z. lia.
      * unfold JS.setDate_next in Hnext. cbv zeta in Hnext.
        by apply TimeClip_Some in Hnext as [-> ?].
    + by left.
  - cbn [eachDay_loop].
    destruct (IH t res) as [Hended|(t1 & Ht1 & Hle1 & Hclip1)]; cbn zeta in *.
    + left. by rewrite Hended.
    + destruct (eachDay_loop LocalTZA k end_ (Some t, res)) as [d1 res1] eqn:Hst1.
      cbn [fst] in Ht1. subst d1. cbn [fst].
      destruct (eachDay_test end_ (Some t1)) eqn:Htest.
      * destruct (IH t1 res1) as [Hended|(t2 & Ht2 & Hle2 & Hclip2)]; cbn zeta in *;
          [by left|].
        right. exists t2. split; [exact Ht2|]. split; [|done].
        rewrite Nat2Z.inj_succ, Z.pow_succ_r by lia. lia.
      * by left.
Qed.

Lemma eachDay_loop_ends (end_ start : Z) (res : list string) :
  (Z.abs start <= 8640000000000000)%Z ->
  (forall t t', (t <= end_)%Z -> JS.setDate_next LocalTZA t = Some t' -> (t < t')%Z) ->
  eachDay_test end_ (eachDay_loop LocalTZA eachDay_rounds end_ (Some start, res)).1 = false.
Proof.
  intros Hstart Hadvance.
  destruct (eachDay_loop_advances end_ eachDay_rounds start res Hadvance)
    as [Hended|(t' & _ & Hle & Hclip)]; [done|].
  unfold eachDay_rounds in Hle.
  change (2 ^ Z.of_nat 54)%Z with 18014398509481984%Z in Hle. lia.
Qed.

Lemma eachDay_unparsable (startIso endIso : string) :
  new_Date Date_parse startIso = None \/ new_Date Date_parse endIso = None ->
  eachDay Date_parse LocalTZA startIso endIso = [].
Proof.
  unfold eachDay. intros [-> | ->]; [done|]. by destruct (new_Date Date_parse startIso).
Qed.

Lemma eachDay_reversed (startIso endIso : string) (start end_ : Z) :
  new_Date Date_parse startIso = Some start -> new_Date Date_parse endIso = Some end_ ->
  (end_ < start)%Z ->
  eachDay Date_parse LocalTZA startIso endIso = [].
Proof.
  unfold eachDay. intros -> -> Hlt.
  rewrite eachDay_loop_steps, eachDay_steps_ended; [done|].
  cbn [fst eachDay_test]. by apply Z.leb_gt.
Qed.

(** Without a clock change a round advances by 24 hours. *)
Lemma setDate_next_no_clock_change (start end_ t : Z) :
  no_clock_change LocalTZA start end_ -> (start <= t <= end_)%Z ->
  JS.setDate_next LocalTZA t = JS.TimeClip (t + JS.msPerDay).
Proof.
  intros Hsame Ht. unfold JS.setDate_next, JS.UTC. cbn zeta.
  rewrite (Hsame t Ht). unfold JS.LocalTime. f_equal. lia.
Qed.

(** The rounds from [t] on when no clock change bears on them: the day of
    [t] and of every 24 hours after it up to [end_]; the loop has then left. *)
Lemma eachDay_steps_exact (start end_ : Z) (n f : nat) (t : Z) (res : list string) :
  no_clock_change LocalTZA start end_ ->
  (Z.abs start <= 8640000000000000)%Z -> (Z.abs end_ <= 8640000000000000)%Z ->
  (start <= t)%Z ->
  (t + Z.of_nat f * JS.msPerDay <= end_ < t + Z.of_nat (S f) * JS.msPerDay)%Z ->
  (f < n)%nat ->
  (eachDay_steps LocalTZA n end_ (Some t, res)).2
  = res ++ List.map (fun k => JS.toISOString_slice10 (t + Z.of_nat k * JS.msPerDay))
             (seq 0 (S f)).
Proof.
  intros Hsame Hstart Hend. revert n t res.
  induction f as [|f IH]; intros n t res Ht Hle Hn.
  - destruct n as [|n]; [lia|]. cbn [eachDay_steps fst eachDay_test].
    assert (t <= end_)%Z as Hguard by lia.
    apply Z.leb_le in Hguard as Hguard'. rewrite Hguard'.
    unfold eachDay_body. cbn [fst snd].
    rewrite (setDate_next_no_clock_change start end_) by (done || lia).
    rewrite eachDay_steps_ended.
    + cbn [snd seq List.map]. do 3 f_equal. lia.
    + cbn [fst]. destruct (JS.TimeClip (t + JS.msPerDay)) as [t'|] eqn:Hclip; [|done].
      apply TimeClip_Some in Hclip as [-> _]. cbn [eachDay_test].
      apply Z.leb_gt. lia.
  - destruct n as [|n]; [lia|]. cbn [eachDay_steps fst eachDay_test].
    assert (t <= end_)%Z as Hguard by (unfold JS.msPerDay in *; lia).
    apply Z.leb_le in Hguard as Hguard'. rewrite Hguard'.
    unfold eachDay_body. cbn [fst snd].
    rewrite (setDate_next_no_clock_change start end_) by (done || lia).
    assert (JS.TimeClip (t + JS.msPerDay) = Some (t + JS.msPerDay)%Z) as ->.
    { unfold JS.TimeClip, JS.msPerDay in *.
      assert (Z.abs (t + 86400000) <= 8640000000000000)%Z as Hclip by lia.
      by apply Z.leb_le in Hclip as ->. }
    rewrite IH by (unfold JS.msPerDay in *; lia).
    rewrite <- app_assoc. f_equal.
    change (seq 0 (S (S f))) with (0%nat :: seq 1 (S f)).
    cbn [List.map]. rewrite <- List.seq_shift, List.map_map. cbn [app]. f_equal.
    + f_equal. lia.
    + apply map_ext. intros k. unfold JS.msPerDay. f_equal. lia.
Qed.

(** The days of a range of valid dates in order, when no clock change
    bears on it. *)
Lemma eachDay_exact (startIso endIso : string) (start end_ : Z) :
  new_Date Date_parse startIso = Some start -> new_Date Date_parse endIso = Some end_ ->
  (start <= end_)%Z ->
  no_clock_change LocalTZA start end_ ->
  eachDay Date_parse LocalTZA startIso endIso
  = List.map (fun k => JS.toISOString_slice10 (start + Z.of_nat k * JS.msPerDay))
      (seq 0 (S (Z.to_nat ((end_ - start) / JS.msPerDay)))).
Proof.
  intros Hstart Hend Hle Hsame. unfold eachDay. rewrite Hstart, Hend.
  rewrite eachDay_loop_steps.
  assert (0 <= (end_ - start) / JS.msPerDay)%Z as Hpos
    by (apply Z.div_pos; unfold JS.msPerDay; lia).
  pose proof (new_Date_clipped _ _ Hstart) as Hclip_start.
  pose proof (new_Date_clipped _ _ Hend) as Hclip_end.
  set (n := Z.to_nat ((end_ - start) / JS.msPerDay)).
  assert (Z.of_nat n = (end_ - start) / JS.msPerDay)%Z as Hn by (subst n; lia).
  pose proof (Z.mul_div_le (end_ - start) JS.msPerDay) as Hdiv.
  pose proof (Z.mul_succ_div_gt (end_ - start) JS.msPerDay) as Hdiv'.
  rewrite (eachDay_steps_exact start end_ _ n start []); [done|done|done|done|lia| |].
  - rewrite Nat2Z.inj_succ, Hn. unfold JS.msPerDay in *. lia.
  - apply Nat2Z.inj_lt. rewrite Hn, Nat2Z.inj_pow. unfold eachDay_rounds.
    change (Z.of_nat 2 ^ Z.of_nat 54)%Z with 18014398509481984%Z.
    assert ((end_ - start) / JS.msPerDay <= end_ - start)%Z.
    { apply Z.div_le_upper_bound; unfold JS.msPerDay; lia. }
    lia.
Qed.

(** With valid dates a whole number of days apart and no clock change
    between them, the end day itself is among the enumerated days. *)
Lemma eachDay_includes_end (startIso endIso : string) (start : Z) (n : nat) :
  new_Date Date_parse startIso = Some start ->
  new_Date Date_parse endIso = Some (start + Z.of_nat n * JS.msPerDay)%Z ->
  no_clock_change LocalTZA start (start + Z.of_nat n * JS.msPerDay) ->
  JS.toISOString_slice10 (start + Z.of_nat n * JS.msPerDay)
  ∈ eachDay Date_parse LocalTZA startIso endIso.
Proof.
  intros Hstart Hend Hsame.
  rewrite (eachDay_exact _ _ _ _ Hstart Hend) by (done || (unfold JS.msPerDay; lia)).
  replace (start + Z.of_nat n * JS.msPerDay - start)%Z
    with (Z.of_nat n * JS.msPerDay)%Z by lia.
  rewrite Z.div_mul by (unfold JS.msPerDay; lia). rewrite Nat2Z.id.
  apply list_elem_of_In, in_map_iff. exists n. split; [done|].
  apply in_seq. lia.
Qed.

End EachDay.

(** A zone with one offset has no clock change. *)
Lemma fixed_zone_no_clock_change (offset start end_ : Z) :
  no_clock_change (JS.fixed_zone offset) start end_.
Proof. by intros t _. Qed.

(** ** Copenhagen time across its two clock changes

    The last day of March 2024 has 23 hours: it is listed twice and the end
    day is not reached.  The last Sunday of October has 25 hours: the days
    after it are read an hour late and the end day is not listed. *)
Example eachDay_spring_forward :
  eachDay JS.parse_date_only JS.Europe_Copenhagen "2024-03-30" "2024-04-02"
  = ["2024-03-30"; "2024-03-31"; "2024-03-31"; "2024-04-01"].
Proof. vm_compute. reflexivity. Qed.

Example eachDay_fall_back :
  eachDay JS.parse_date_only JS.Europe_Copenhagen "2024-10-26" "2024-10-29"
  = ["2024-10-26"; "2024-10-27"; "2024-10-28"].
Proof. vm_compute. reflexivity. Qed.

Example eachDay_winter :
  eachDay JS.parse_date_only JS.Europe_Copenhagen "2024-02-01" "2024-02-03"
  = ["2024-02-01"; "2024-02-02"; "2024-02-03"]
  /\ eachDay JS.parse_date_only (JS.fixed_zone 0) "2024-03-30" "2024-04-02"
     = ["2024-03-30"; "2024-03-31"; "2024-04-01"; "2024-04-02"].
Proof. split; vm_compute; reflexivity. Qed.

(** ** [findIndex] *)

Lemma findIndex_None {A} (p : A -> bool) (all : list A) :
  findIndex p all = None <-> forall x, x ∈ all -> p x = false.
Proof.
  induction all as [|y all IH]; simpl.
  - split; [intros _ x Hx; inversion Hx | done].
  - destruct (p y) eqn:Hy.
    + split; [done|]. intros H. specialize (H y (list_elem_of_here _ _)). congruence.
    + split.
      * intros Hf x Hx. apply elem_of_cons in Hx as [->|Hx]; [done|].
        apply IH; [|done]. by destruct (findIndex p all).
      * intros H. rewrite (proj2 IH); [done|].
        intros x Hx. apply H. by apply list_elem_of_further.
Qed.

Lemma findIndex_Some {A} (p : A -> bool) (all : list A) (idx : nat) :
  findIndex p all = Some idx <->
  exists x, all !! idx = Some x /\ p x = true
            /\ forall j y, (j < idx)%nat -> all !! j = Some y -> p y = false.
Proof.
  revert idx. induction all as [|y all IH]; intros idx; simpl.
  - split; [done|]. by intros (x & Hx & _).
  - destruct (p y) eqn:Hy.
    + split.
      * intros [= <-]. exists y. split_and!; [done|done|]. intros j z Hj. lia.
      * intros (x & Hx & Hpx & Hfirst). destruct idx as [|idx]; [done|].
        specialize (Hfirst O y). rewrite Hfirst in Hy; [done|lia|done].
    + split.
      * destruct (findIndex p all) as [i|] eqn:Hf; [|done]. simpl. intros [= <-].
        destruct (proj1 (IH i) eq_refl) as (x & Hx & Hpx & Hfirst).
        exists x. split_and!; [done|done|].
        intros [|j] z Hj Hz; simpl in Hz; [congruence|].
        apply (Hfirst j); [lia|done].
      * intros (x & Hx & Hpx & Hfirst). destruct idx as [|idx]; simpl in Hx.
        { congruence. }
        assert (findIndex p all = Some idx) as ->; [|done].
        apply IH. exists x. split_and!; [done|done|].
        intros j z Hj Hz. apply (Hfirst (S j)); [lia|done].
Qed.

(** ** Reading and writing the store *)

Lemma getItem_setItem_same {T} (k : Key T) (v : Raw T) (ls : Storage) :
  getItem k (setItem k v ls) = Some v.
Proof. by destruct k. Qed.

Lemma loadArray_nonempty_readable {T} (key : Key T) (w : World) (x : T) :
  x ∈ loadArray key w -> window w = true /\ getItem_throws w = false.
Proof.
  unfold loadArray, isBrowser, localStorage_getItem.
  destruct (window w); simpl; [|by intros ?%elem_of_nil].
  destruct (getItem_throws w); simpl; [by intros ?%elem_of_nil|done].
Qed.

Lemma loadArray_saveArray_same {T} (key : Key T) (value : list T) (w : World) :
  storage_ok w -> loadArray key (saveArray key value w).2 = value.
Proof.
  intros (Hw & Hg & Hs).
  unfold saveArray, loadArray, isBrowser, localStorage_setItem, localStorage_getItem.
  rewrite Hw. simpl. rewrite Hs. simpl. rewrite Hw, Hg. simpl.
  by rewrite getItem_setItem_same.
Qed.

Lemma storage_ok_saveArray {T} (key : Key T) (value : list T) (w : World) :
  storage_ok w -> storage_ok (saveArray key value w).2.
Proof.
  intros (Hw & Hg & Hs).
  unfold saveArray, isBrowser, localStorage_setItem. rewrite Hw. simpl.
  rewrite Hs. simpl. by split_and!.
Qed.

(** C8: a read of the store whose window is missing, whose localStorage
    refuses access, whose key is missing, or whose text is empty or is not
    JSON, gives the empty array ([loadArray]) or the fallback
    ([loadObject]).  Both helpers return a plain value in every world:
    whatever [getItem] or [JSON.parse] throws is caught inside them. *)
Theorem storage_read_failures_degrade {T} (key : Key T) (fallback : Json T) (w : World) :
  window w = false
  \/ getItem_throws w = true
  \/ getItem key (localStorage w) = None
  \/ getItem key (localStorage w) = Some raw_empty
  \/ getItem key (localStorage w) = Some raw_garbage ->
  loadArray key w = [] /\ loadObject key fallback w = fallback.
Proof.
  unfold loadArray, loadObject, isBrowser, localStorage_getItem.
  intros [H|[H|[H|[H|H]]]].
  - by rewrite H.
  - rewrite H. by destruct (window w).
  - rewrite H. by destruct (window w), (getItem_throws w).
  - rewrite H. by destruct (window w), (getItem_throws w).
  - rewrite H. by destruct (window w), (getItem_throws w).
Qed.

Lemma storage_read_failures_degrade_witness :
  loadArray BOOKING_KEY serverWorld = []
  /\ loadObject BOOKING_KEY JOther serverWorld = JOther.
Proof.
  apply (storage_read_failures_degrade BOOKING_KEY JOther serverWorld).
  left. reflexivity.
Defined.

(** Text that parses to something other than an array is an empty
    collection too. *)
Lemma loadArray_not_array {T} (key : Key T) (w : World) (v : Json T) :
  getItem key (localStorage w) = Some (raw_json v) ->
  (forall xs, v <> JArray xs) ->
  loadArray key w = [].
Proof.
  unfold loadArray, isBrowser, localStorage_getItem. intros -> Hv.
  destruct (window w), (getItem_throws w); simpl; try done.
  destruct v; try done. by destruct (Hv xs).
Qed.

(** C9: an id that no stored record carries makes [setBookingStatus] and
    [assignCageToCheckin] return [null] and [checkOutCheckin] return, each
    leaving the world as it was: nothing is written. *)
Theorem missing_id_is_noop (id_ status_ : string) (cageId_ : option string) (w : World) :
  ((forall b : BookingRecord, b ∈ loadArray BOOKING_KEY w -> id b <> id_) ->
   setBookingStatus id_ status_ w = (None, w))
  /\ ((forall c : CheckinRecord, c ∈ loadArray CHECKIN_KEY w -> id c <> id_) ->
      assignCageToCheckin id_ cageId_ w = (None, w)
      /\ checkOutCheckin id_ w = (tt, w)).
Proof.
  split.
  - intros Hmiss. unfold setBookingStatus, gets, mbind, M_bind.
    assert (findIndex (fun b => String.eqb (id b) id_) (loadArray BOOKING_KEY w) = None) as ->.
    { apply findIndex_None. intros b Hb. apply String.eqb_neq. by apply Hmiss. }
    done.
  - intros Hmiss.
    assert (findIndex (fun c : CheckinRecord => String.eqb (id c) id_)
              (loadArray CHECKIN_KEY w) = None) as Hnone.
    { apply findIndex_None. intros c Hc. apply String.eqb_neq. by apply Hmiss. }
    unfold assignCageToCheckin, checkOutCheckin, gets, mbind, M_bind.
    by rewrite Hnone.
Qed.

Lemma missing_id_is_noop_witness :
  setBookingStatus "b_9" "precheck" oneRecordWorld = (None, oneRecordWorld)
  /\ assignCageToCheckin "b_9" (Some "g_1") oneRecordWorld = (None, oneRecordWorld)
  /\ checkOutCheckin "b_9" oneRecordWorld = (tt, oneRecordWorld).
Proof.
  destruct (missing_id_is_noop "b_9" "precheck" (Some "g_1") oneRecordWorld) as [Hb Hc].
  split.
  - apply Hb. intros b Hin. vm_compute in Hin.
    apply list_elem_of_singleton in Hin. subst b. discriminate.
  - apply Hc. intros c Hin. vm_compute in Hin.
    apply list_elem_of_singleton in Hin. subst c. discriminate.
Defined.

(** ** How the operations change the world *)

Lemma loadArray_ext {T} (key : Key T) (w w' : World) :
  window w' = window w -> getItem_throws w' = getItem_throws w ->
  localStorage w' = localStorage w ->
  loadArray key w' = loadArray key w.
Proof.
  unfold loadArray, isBrowser, localStorage_getItem. by intros -> -> ->.
Qed.

Lemma newId_value (prefix : string) (w : World) :
  (newId prefix w).1
  = (prefix ++ "_" ++ JS.toString36 (clock w (ticks w)) ++ "_"
     ++ String.substring 0 6 (random w (draws w)))%string.
Proof. reflexivity. Qed.

Lemma newId_world (prefix : string) (w : World) :
  let w' := (newId prefix w).2 in
  window w' = window w /\ getItem_throws w' = getItem_throws w
  /\ setItem_throws w' = setItem_throws w /\ localStorage w' = localStorage w
  /\ setItem_calls w' = setItem_calls w.
Proof. by split_and!. Qed.

(** Ids of stays and ids of bookings come from different prefixes. *)
Lemma newId_prefixes_differ (w w' : World) : (newId "c" w).1 <> (newId "b" w').1.
Proof. rewrite !newId_value. discriminate. Qed.

Lemma saveArray_world {T} (key : Key T) (value : list T) (w : World) :
  let w' := (saveArray key value w).2 in
  window w' = window w /\ getItem_throws w' = getItem_throws w
  /\ setItem_throws w' = setItem_throws w
  /\ setItem_calls w'
     = (if window w then setItem_calls w ++ [set_item key (JArray value)] else setItem_calls w)
  /\ localStorage w'
     = (if window w && negb (setItem_throws w (key_name key))
        then setItem key (raw_json (JArray value)) (localStorage w)
        else localStorage w).
Proof.
  unfold saveArray, isBrowser, localStorage_setItem.
  destruct (window w) eqn:Hw; simpl; [|done].
  by destruct (setItem_throws w (key_name key)).
Qed.

(** A write under one key leaves the collection under the other as it
    was, whether or not the write is accepted. *)
Lemma loadArray_bookings_saveArray_checkins (value : list CheckinRecord) (w : World) :
  loadArray BOOKING_KEY (saveArray CHECKIN_KEY value w).2 = loadArray BOOKING_KEY w.
Proof.
  destruct (saveArray_world CHECKIN_KEY value w) as (Hw & Hg & _ & _ & Hls).
  unfold loadArray, isBrowser, localStorage_getItem. rewrite Hw, Hg, Hls.
  by destruct (window w), (setItem_throws w (key_name CHECKIN_KEY)).
Qed.

Lemma loadArray_checkins_saveArray_bookings (value : list BookingRecord) (w : World) :
  loadArray CHECKIN_KEY (saveArray BOOKING_KEY value w).2 = loadArray CHECKIN_KEY w.
Proof.
  destruct (saveArray_world BOOKING_KEY value w) as (Hw & Hg & _ & _ & Hls).
  unfold loadArray, isBrowser, localStorage_getItem. rewrite Hw, Hg, Hls.
  by destruct (window w), (setItem_throws w (key_name BOOKING_KEY)).
Qed.

Lemma alter_lookup_insert {A} (f : A -> A) (l : list A) (i : nat) (x : A) :
  l !! i = Some x -> alter f i l = <[i := f x]> l.
Proof.
  revert i. induction l as [|y l IH]; intros [|i] Hx; simpl in *; try done.
  - by injection Hx as ->.
  - f_equal. by apply IH.
Qed.

(** The steps of [setBookingStatus] when the id is found at [idx]. *)
Lemma setBookingStatus_found (id_ status_ : string) (idx : nat) (w : World) :
  findIndex (fun b => String.eqb (id b) id_) (loadArray BOOKING_KEY w) = Some idx ->
  let all := alter (fun b => with_status b (Some status_)) idx (loadArray BOOKING_KEY w) in
  setBookingStatus id_ status_ w = (all !! idx, (saveArray BOOKING_KEY all w).2).
Proof.
  intros Hidx. unfold setBookingStatus, gets, mbind, M_bind, mret, M_ret.
  rewrite Hidx. by destruct (saveArray BOOKING_KEY _ w).
Qed.

(** The steps of [createCheckinFromBooking]. *)
Lemma createCheckinFromBooking_steps (booking : BookingRecord) (overrides : PartialCheckin)
    (w : World) :
  let record :=
    spread_overrides
      {| base := with_status (with_id booking (newId "c" w).1) (Some "checked_in");
         cageId := Some None |} overrides in
  let w1 := (saveArray CHECKIN_KEY (loadArray CHECKIN_KEY w ++ [record]) (newId "c" w).2).2 in
  createCheckinFromBooking booking overrides w
  = (record, (setBookingStatus (id booking) "converted" w1).2).
Proof.
  intros record w1. unfold createCheckinFromBooking, gets, mbind, M_bind, mret, M_ret.
  destruct (newId "c" w) as [i w0] eqn:Hid. simpl in record, w1.
  destruct (saveArray CHECKIN_KEY _ w0) as [u w1'] eqn:Hsave.
  subst w1. simpl.
  by destruct (setBookingStatus (id booking) "converted" w1').
Qed.

Lemma loadArray_newId {T} (key : Key T) (prefix : string) (w : World) :
  loadArray key (newId prefix w).2 = loadArray key w.
Proof. by apply loadArray_ext. Qed.

Lemma findIndex_first (id_ : string) (all : list BookingRecord) (idx : nat) (b : BookingRecord) :
  all !! idx = Some b -> id b = id_ ->
  (forall j b', (j < idx)%nat -> all !! j = Some b' -> id b' <> id_) ->
  findIndex (fun b => String.eqb (id b) id_) all = Some idx.
Proof.
  intros Hb Hid Hfirst. apply findIndex_Some. exists b. split_and!; [done| |].
  - by apply String.eqb_eq.
  - intros j y Hj Hy. apply String.eqb_neq. by apply (Hfirst j).
Qed.

Lemma sameData_with_status (b : BookingRecord) (s : option string) :
  sameData (with_status b s) b.
Proof. by repeat split. Qed.

(** C5, as the code has it: for a booking stored at [idx], the first
    stored booking that carries its id, [createCheckinFromBooking] with no
    overrides returns a stay with a newly generated id ("c_", the clock in
    base 36, "_", six random digits), status "checked_in", [cageId] null
    and every other property as the booking has it.  It calls [setItem] for
    the stays with that record appended and then, whether or not that write
    was accepted, for the bookings with the booking's status set to
    "converted".  When the store accepts writes, the stored stays are the
    old ones followed by the record, and the stored bookings are the old
    ones except that the booking at [idx] has status "converted", its id
    and every other property unchanged. *)
Theorem createCheckinFromBooking_converts (booking : BookingRecord) (idx : nat) (w : World) :
  loadArray BOOKING_KEY w !! idx = Some booking ->
  (forall j b', (j < idx)%nat -> loadArray BOOKING_KEY w !! j = Some b' -> id b' <> id booking) ->
  let result := createCheckinFromBooking booking no_overrides w in
  let record := result.1 in
  let w' := result.2 in
  let converted := <[idx := with_status booking (Some "converted")]> (loadArray BOOKING_KEY w) in
  (id record = ("c_" ++ JS.toString36 (clock w (ticks w)) ++ "_"
                ++ String.substring 0 6 (random w (draws w)))%string
   /\ status record = Some "checked_in"
   /\ cageId record = Some None
   /\ sameData record booking)
  /\ setItem_calls w'
     = setItem_calls w
       ++ [set_item CHECKIN_KEY (JArray (loadArray CHECKIN_KEY w ++ [record]));
           set_item BOOKING_KEY (JArray converted)]
  /\ ((forall k, setItem_throws w k = false) ->
      loadArray CHECKIN_KEY w' = loadArray CHECKIN_KEY w ++ [record]
      /\ (exists b',
            loadArray BOOKING_KEY w' !! idx = Some b'
            /\ id b' = id booking /\ status b' = Some "converted" /\ sameData b' booking)
      /\ length (loadArray BOOKING_KEY w') = length (loadArray BOOKING_KEY w)
      /\ (forall j, j <> idx ->
            loadArray BOOKING_KEY w' !! j = loadArray BOOKING_KEY w !! j)).
Proof.
  intros Hidx Hfirst result record w' converted.
  assert (window w = true /\ getItem_throws w = false) as [Hw Hg].
  { apply (loadArray_nonempty_readable BOOKING_KEY w booking).
    apply list_elem_of_lookup. by exists idx. }
  subst result record w'. rewrite createCheckinFromBooking_steps. simpl.
  set (record := {| base := with_status (with_id booking (newId "c" w).1) (Some "checked_in");
                    cageId := Some None |}).
  set (w0 := (newId "c" w).2).
  set (w1 := (saveArray CHECKIN_KEY (loadArray CHECKIN_KEY w ++ [record]) w0).2).
  assert (loadArray BOOKING_KEY w1 = loadArray BOOKING_KEY w) as Hsame.
  { subst w1 w0. by rewrite loadArray_bookings_saveArray_checkins, loadArray_newId. }
  assert (findIndex (fun b => String.eqb (id b) (id booking)) (loadArray BOOKING_KEY w1)
          = Some idx) as Hfind.
  { rewrite Hsame. by apply (findIndex_first _ _ _ booking). }
  rewrite (setBookingStatus_found _ _ _ _ Hfind). cbn [snd].
  rewrite Hsame, (alter_lookup_insert _ _ _ _ Hidx). fold converted.
  destruct (saveArray_world CHECKIN_KEY (loadArray CHECKIN_KEY w ++ [record]) w0)
    as (Hw1 & Hg1 & Hs1 & Hc1 & Hl1).
  fold w1 in Hw1, Hg1, Hs1, Hc1, Hl1.
  destruct (saveArray_world BOOKING_KEY converted w1) as (Hw2 & Hg2 & Hs2 & Hc2 & Hl2).
  assert (window w0 = true) as Hw0 by done.
  rewrite Hw0 in *. rewrite Hw1 in *.
  split_and!.
  - done.
  - done.
  - done.
  - by repeat split.
  - rewrite Hc2, Hc1. subst w0. simpl. by rewrite <- app_assoc.
  - intros Hs.
    assert (storage_ok w0) as Hok0 by (by split_and!).
    assert (storage_ok w1) as Hok1 by (by apply storage_ok_saveArray).
    assert (loadArray BOOKING_KEY (saveArray BOOKING_KEY converted w1).2 = converted)
      as -> by (by apply loadArray_saveArray_same).
    assert (idx < length (loadArray BOOKING_KEY w))%nat as Hlt
      by (by eapply lookup_lt_Some).
    split_and!.
    + rewrite loadArray_checkins_saveArray_bookings. fold w1.
      subst w1. by rewrite (loadArray_saveArray_same _ _ _ Hok0).
    + exists (with_status booking (Some "converted")).
      subst converted. rewrite list_lookup_insert_eq by done.
      split_and!; first [done | apply sameData_with_status].
    + subst converted. by rewrite length_insert.
    + intros j Hj. subst converted. by rewrite list_lookup_insert_ne.
Qed.

Lemma createCheckinFromBooking_converts_witness :
  let b2 := demoBooking "b_2" (Some "precheck") "2024-02-01" "2024-02-03" (Some 2%Z) in
  let result := createCheckinFromBooking b2 no_overrides twoBookingsWorld in
  id result.1 = "c_loyw3v28_k3j9x2"
  /\ status result.1 = Some "checked_in"
  /\ cageId result.1 = Some None
  /\ (kennelId result.1 = KENNEL_ID /\ createdAt result.1 = "2024-01-05T09:30:00.000Z"
      /\ checkIn result.1 = Some "2024-02-01" /\ checkOut result.1 = Some "2024-02-03"
      /\ catCount result.1 = Some 2%Z /\ ownerName result.1 = Some "Karen Holm"
      /\ petName result.1 = Some "Mis" /\ note result.1 = None)
  /\ loadArray CHECKIN_KEY result.2 = [result.1]
  /\ loadArray BOOKING_KEY result.2
     = [febBooking (Some "pending") None;
        demoBooking "b_2" (Some "converted") "2024-02-01" "2024-02-03" (Some 2%Z)].
Proof.
  intros b2 result.
  destruct (createCheckinFromBooking_converts b2 1 twoBookingsWorld)
    as ((Hid & Hstatus & Hcage & Hdata) & Hcalls & Hstored).
  - reflexivity.
  - intros j b' Hj Hb'. destruct j as [|j]; [|lia].
    vm_compute in Hb'. injection Hb' as <-. discriminate.
  - destruct (Hstored (fun _ => eq_refl)) as (Hstays & _ & _ & _).
    destruct Hdata as (Hk & Hc & _ & Hin & Hout & Hpet & _ & Hcats & _ & Howner & _ & _
                       & Hnote & _).
    split_and!.
    + exact Hid.
    + exact Hstatus.
    + exact Hcage.
    + exact Hk.
    + exact Hc.
    + exact Hin.
    + exact Hout.
    + exact Hcats.
    + exact Howner.
    + exact Hpet.
    + exact Hnote.
    + exact Hstays.
    + vm_compute. reflexivity.
Defined.

(** C5 as worded fails when an earlier stored booking carries the same id:
    the accepted booking handed in is stored, but it is the other one that
    becomes "converted"; the booking stays in status "precheck" beside its
    new stay and the count of its nights doubles. *)
Lemma converted_twin_stays_precheck :
  loadArray BOOKING_KEY twinsWorld !! 1%nat = Some twin
  /\ loadArray BOOKING_KEY (createCheckinFromBooking twin no_overrides twinsWorld).2
     = [febBooking (Some "converted") None; twin]
  /\ status twin = Some "precheck"
  /\ countOn KENNEL_ID twinsWorld "2024-02-01" = 2%Z
  /\ countOn KENNEL_ID (createCheckinFromBooking twin no_overrides twinsWorld).2
       "2024-02-01" = 4%Z.
Proof. split_and!; vm_compute; reflexivity. Qed.

(** ** The profile *)

Lemma spread_profile_filledFrom (d p : KennelProfile) :
  filledFrom d p (spread_profile d p).
Proof.
  unfold filledFrom, spread_profile, set_or_default, spread_opt. simpl.
  split_and!; try done;
    match goal with |- match ?x with _ => _ end => by destruct x end.
Qed.

Lemma loadObject_saveObject_same {T} (key : Key T) (fallback : Json T) (value : T) (w : World) :
  storage_ok w -> loadObject key fallback (saveObject key value w).2 = JObject value.
Proof.
  intros (Hw & Hg & Hs).
  unfold saveObject, loadObject, isBrowser, localStorage_setItem, localStorage_getItem.
  rewrite Hw. simpl. rewrite Hs. simpl. rewrite Hw, Hg. simpl.
  by rewrite getItem_setItem_same.
Qed.

Lemma loadObject_missing {T} (key : Key T) (fallback : Json T) (w : World) :
  getItem key (localStorage w) = None -> loadObject key fallback w = fallback.
Proof.
  unfold loadObject, isBrowser, localStorage_getItem. intros ->.
  by destruct (window w), (getItem_throws w).
Qed.

(** C6, as the code has it: in a browser whose store can be read and
    accepts the write, saving [p] and loading under [p]'s id gives
    [{ ...DEFAULT_PROFILE, ...p }]: [id], [name] and every property [p]
    sets are those of [p], every property [p] leaves unset is the
    default's.  Without a window, or when the store cannot be read, the
    load after the save gives [DEFAULT_PROFILE]; when the write is refused
    it gives what it gave before the save.  For every kennel id, loading
    gives [DEFAULT_PROFILE] itself when the key is missing and when the
    stored profile carries another id. *)
Theorem profile_save_load (p : KennelProfile) (kennelId_ : string) (w : World) :
  (storage_ok w ->
   let r := loadKennelProfile (p_id p) (saveKennelProfile p w).2 in
   r = spread_profile DEFAULT_PROFILE p /\ filledFrom DEFAULT_PROFILE p r)
  /\ (window w = false \/ getItem_throws w = true ->
      loadKennelProfile kennelId_ (saveKennelProfile p w).2 = DEFAULT_PROFILE)
  /\ (window w = true -> setItem_throws w (key_name PROFILE_KEY) = true ->
      loadKennelProfile kennelId_ (saveKennelProfile p w).2 = loadKennelProfile kennelId_ w)
  /\ (getItem PROFILE_KEY (localStorage w) = None ->
      loadKennelProfile kennelId_ w = DEFAULT_PROFILE)
  /\ (forall stored,
        getItem PROFILE_KEY (localStorage w) = Some (raw_json (JObject stored)) ->
        p_id stored <> kennelId_ ->
        loadKennelProfile kennelId_ w = DEFAULT_PROFILE).
Proof.
  split_and!.
  - intros Hok r.
    assert (r = spread_profile DEFAULT_PROFILE p) as ->.
    { subst r. unfold loadKennelProfile, saveKennelProfile.
      rewrite (loadObject_saveObject_same _ _ _ _ Hok).
      by rewrite String.eqb_refl. }
    split; [done|]. apply spread_profile_filledFrom.
  - unfold loadKennelProfile, saveKennelProfile, saveObject, loadObject, isBrowser,
      localStorage_setItem, localStorage_getItem.
    intros [Hw|Hg].
    + rewrite Hw. cbn [negb snd]. by rewrite Hw.
    + destruct (window w) eqn:Hw; cbn [negb]; [|cbn [snd]; by rewrite Hw].
      cbn [log_call setItem_throws].
      destruct (setItem_throws w (key_name PROFILE_KEY)); cbn [snd window getItem_throws
        log_call with_localStorage]; by rewrite Hw, Hg.
  - intros Hw Hs.
    unfold loadKennelProfile, saveKennelProfile, saveObject, loadObject, isBrowser,
      localStorage_setItem, localStorage_getItem.
    rewrite Hw. cbn [negb log_call setItem_throws]. rewrite Hs.
    cbn [snd window getItem_throws localStorage log_call]. by rewrite Hw.
  - intros Hnone. unfold loadKennelProfile.
    by rewrite (loadObject_missing _ _ _ Hnone).
  - intros stored Hstored Hid.
    unfold loadKennelProfile, loadObject, isBrowser, localStorage_getItem.
    rewrite Hstored.
    destruct (window w), (getItem_throws w); simpl; try done.
    by apply String.eqb_neq in Hid as ->.
Qed.

Lemma profile_save_load_witness :
  p_name (loadKennelProfile "kennel-7" (saveKennelProfile demoProfile emptyWorld).2)
  = "Pension Pote"
  /\ city (loadKennelProfile "kennel-7" (saveKennelProfile demoProfile emptyWorld).2)
     = Some "Helsinge"
  /\ postalCode (loadKennelProfile "kennel-7" (saveKennelProfile demoProfile emptyWorld).2)
     = Some "3200"
  /\ loadKennelProfile "kennel-7" emptyWorld = DEFAULT_PROFILE
  /\ loadKennelProfile KENNEL_ID (saveKennelProfile demoProfile emptyWorld).2
     = DEFAULT_PROFILE.
Proof.
  destruct (profile_save_load demoProfile "kennel-7" emptyWorld)
    as (Hround & _ & _ & Hmissing & _).
  destruct (profile_save_load demoProfile KENNEL_ID (saveKennelProfile demoProfile emptyWorld).2)
    as (_ & _ & _ & _ & Hother).
  destruct Hround as [Hr _].
  { by split_and!. }
  change (p_id demoProfile) with "kennel-7" in Hr.
  rewrite Hr.
  split_and!;
    [reflexivity | reflexivity | reflexivity
    | apply Hmissing; reflexivity
    | apply (Hother demoProfile); [reflexivity | discriminate] ].
Defined.

(** C6 as worded fails outside a browser and in a browser that refuses the
    write: the profile saved under "kennel-7" is not stored, and loading
    under that id gives the default profile, whose name and city are not
    the saved ones. *)
Lemma profile_round_trip_needs_the_store :
  p_id demoProfile = "kennel-7" /\ p_name demoProfile = "Pension Pote"
  /\ p_name (loadKennelProfile "kennel-7" (saveKennelProfile demoProfile serverWorld).2)
     = "Annisse Kattepension"
  /\ p_name (loadKennelProfile "kennel-7" (saveKennelProfile demoProfile quotaWorld).2)
     = "Annisse Kattepension"
  /\ ~ filledFrom DEFAULT_PROFILE demoProfile
         (loadKennelProfile "kennel-7" (saveKennelProfile demoProfile serverWorld).2).
Proof.
  split_and!; try reflexivity.
  intros (_ & Hname & _). discriminate Hname.
Qed.

(** ** The owner's booking request *)

Lemma coerceCount_default (Number : string -> option Z) (s : string) :
  Number "1" = Some 1%Z ->
  s = "" \/ Number s = None \/ Number s = Some 0%Z ->
  coerceCount Number s = 1%Z.
Proof.
  intros Hone Hs. unfold coerceCount.
  destruct (String.eqb_spec s "") as [->|Hne].
  - by rewrite Hone.
  - destruct Hs as [?|[->| ->]]; done.
Qed.

Lemma coerceCount_number (Number : string -> option Z) (s : string) (n : Z) :
  s <> "" -> Number s = Some n -> n <> 0%Z -> coerceCount Number s = n.
Proof.
  intros Hne Hn Hnz. unfold coerceCount.
  apply String.eqb_neq in Hne as ->. rewrite Hn. simpl.
  by apply Z.eqb_neq in Hnz as ->.
Qed.

(** C7: for a host [Number] that reads "1" as 1, [createBookingRequest]
    returns a record with status "pending" and source "owner" whose
    [catCount] and [roomCount] are the payload's strings read by [Number]:
    1 when the string is empty or reads as [NaN] (and also when it reads as
    0), the number read otherwise.  The record is what the call appends to
    the stored bookings when the store accepts the write. *)
Theorem createBookingRequest_pending_owner (Number : string -> option Z)
    (payload : OwnerBookingRequestPayload) (kennelId_ : option string) (w : World) :
  Number "1" = Some 1%Z ->
  let result := createBookingRequest Number payload kennelId_ w in
  let record := result.1 in
  let reads (s : string) (count : option Z) :=
    (s = "" \/ Number s = None -> count = Some 1%Z)
    /\ (forall n, s <> "" -> Number s = Some n -> n <> 0%Z -> count = Some n)
    /\ (Number s = Some 0%Z -> count = Some 1%Z) in
  status record = Some "pending"
  /\ source record = Some owner
  /\ reads (r_catCount payload) (catCount record)
  /\ reads (r_roomCount payload) (roomCount record)
  /\ (storage_ok w -> loadArray BOOKING_KEY result.2 = loadArray BOOKING_KEY w ++ [record]).
Proof.
  intros Hone result record reads.
  assert (forall s, reads s (Some (coerceCount Number s))) as Hreads.
  { intros s. unfold reads. split_and!.
    - intros Hs. f_equal. apply coerceCount_default; [done|]. destruct Hs; auto.
    - intros n Hne Hn Hnz. f_equal. by apply coerceCount_number.
    - intros Hz. f_equal. apply coerceCount_default; auto. }
  subst result record.
  unfold createBookingRequest, gets, mbind, M_bind, mret, M_ret.
  destruct (newId "b" w) as [i w0] eqn:Hid.
  destruct (Date_now w0) as [now w1] eqn:Hnow.
  destruct (saveArray BOOKING_KEY _ w1) as [u w2] eqn:Hsave.
  simpl. split_and!; try done; try apply Hreads.
  intros Hok.
  assert (storage_ok w1 /\ loadArray BOOKING_KEY w1 = loadArray BOOKING_KEY w) as [Hok1 Hload].
  { assert (w0 = (newId "b" w).2) as -> by (by rewrite Hid).
    assert (w1 = (Date_now (newId "b" w).2).2) as -> by (by rewrite Hnow).
    split; [exact Hok|]. by apply loadArray_ext. }
  assert (w2 = (saveArray BOOKING_KEY
                  (loadArray BOOKING_KEY w ++
                     [{| id := i; kennelId := default KENNEL_ID kennelId_;
                         status := Some "pending"; createdAt := JS.toISOString now;
                         source := Some owner;
                         checkIn := Some (r_checkIn payload);
                         checkOut := Some (r_checkOut payload);
                         petName := Some (r_petNames payload);
                         petNames := Some (r_petNames payload);
                         catCount := Some (coerceCount Number (r_catCount payload));
                         roomCount := Some (coerceCount Number (r_roomCount payload));
                         ownerName := Some (r_ownerName payload);
                         ownerPhone := Some (r_ownerPhone payload);
                         ownerEmail := Some (r_ownerEmail payload);
                         note := Some (r_note payload);
                         indoorPet := Some (r_indoorPet payload);
                         food := Some (r_food payload);
                         medicine := Some (r_medicine payload);
                         allowSocialMedia := Some (r_allowSocialMedia payload) |}]) w1).2) as ->.
  { by rewrite Hsave. }
  by rewrite (loadArray_saveArray_same _ _ _ Hok1).
Qed.

Lemma createBookingRequest_pending_owner_witness :
  status (createBookingRequest Number_integer (demoPayload "" "3") None emptyWorld).1
  = Some "pending"
  /\ source (createBookingRequest Number_integer (demoPayload "" "3") None emptyWorld).1
     = Some owner
  /\ catCount (createBookingRequest Number_integer (demoPayload "" "3") None emptyWorld).1
     = Some 1%Z
  /\ roomCount (createBookingRequest Number_integer (demoPayload "" "3") None emptyWorld).1
     = Some 3%Z
  /\ loadArray BOOKING_KEY
       (createBookingRequest Number_integer (demoPayload "" "3") None emptyWorld).2
     = [(createBookingRequest Number_integer (demoPayload "" "3") None emptyWorld).1].
Proof.
  pose proof (createBookingRequest_pending_owner Number_integer (demoPayload "" "3") None
                emptyWorld eq_refl) as H.
  cbv beta zeta in H.
  destruct H as (Hstatus & Hsource & (Hcats & _ & _) & (_ & Hrooms & _) & Hstored).
  split_and!.
  - exact Hstatus.
  - exact Hsource.
  - apply Hcats. left. reflexivity.
  - apply Hrooms; [discriminate | reflexivity | discriminate].
  - apply Hstored. by split_and!.
Defined.

Example createBookingRequest_zero_cats :
  catCount (createBookingRequest Number_integer (demoPayload "0" "x") None serverWorld).1
  = Some 1%Z
  /\ roomCount (createBookingRequest Number_integer (demoPayload "0" "x") None serverWorld).1
     = Some 1%Z.
Proof. split; reflexivity. Qed.

Example createBookingRequest_negative_cats :
  catCount (createBookingRequest Number_integer (demoPayload "-2" "1") None serverWorld).1
  = Some (-2)%Z.
Proof. reflexivity. Qed.

(** ** Capacity: the loops against the rule *)

Lemma or_one_petCount (r : BookingRecord) : JS.or_one (catCount r) = petCount r.
Proof.
  unfold JS.or_one, petCount. destruct (catCount r) as [n|]; [|done].
  case_decide as Hn.
  - by rewrite Hn.
  - by apply Z.eqb_neq in Hn as ->.
Qed.

Lemma overlapsDay_intervalContains (r : BookingRecord) (day : string) :
  overlapsDay (checkIn r) (checkOut r) day = intervalContains r day.
Proof.
  unfold overlapsDay, intervalContains, JS.falsy_string, JS.nullish.
  destruct (checkIn r) as [ci|], (checkOut r) as [co|]; simpl; try done.
  - by destruct (String.eqb ci ""), (String.eqb co "").
  - by destruct (String.eqb ci "").
Qed.

Lemma isCheckedOut_hasStatus (r : BookingRecord) :
  isCheckedOut (status r) = hasStatus r "checked_out" || hasStatus r "checkedOut".
Proof. unfold isCheckedOut, hasStatus, JS.strict_eq. by destruct (status r). Qed.

Lemma precheck_after_default (b : BookingRecord) :
  String.eqb (JS.or_string (Some (JS.nullish (status b) "pending")) "pending") "precheck"
  = hasStatus b "precheck".
Proof.
  unfold hasStatus, JS.or_string, JS.falsy_string, JS.nullish.
  destruct (status b) as [s|]; [|done].
  destruct (String.eqb_spec s "") as [->|Hs]; done.
Qed.

Lemma countStays_staysSum (tenant : string) (stays : list CheckinRecord) (day : string)
    (acc : Z) :
  countStays (List.filter (fun c : CheckinRecord => ofKennel tenant c) stays) day acc
  = (acc + staysSum tenant stays day)%Z.
Proof.
  unfold staysSum. revert acc.
  induction stays as [|s stays IH]; intros acc; simpl; [lia|].
  change (ofTenant tenant s) with (ofKennel tenant s).
  destruct (ofKennel tenant s); simpl; [|apply IH].
  rewrite isCheckedOut_hasStatus, overlapsDay_intervalContains, or_one_petCount.
  destruct (hasStatus s "checked_out"); simpl; [apply IH|].
  destruct (hasStatus s "checkedOut"); simpl; [apply IH|].
  destruct (intervalContains s day); simpl; [|apply IH].
  rewrite IH. lia.
Qed.

Lemma countBookings_bookingsSum (tenant : string) (bookings : list BookingRecord)
    (day : string) (acc : Z) :
  countBookings
    (List.filter (ofKennel tenant)
       (List.map (fun b => with_status b (Some (JS.nullish (status b) "pending"))) bookings))
    day acc
  = (acc + bookingsSum tenant bookings day)%Z.
Proof.
  unfold bookingsSum. revert acc.
  induction bookings as [|b bookings IH]; intros acc; simpl; [lia|].
  change (ofKennel tenant (with_status b (Some (JS.nullish (status b) "pending"))))
    with (ofTenant tenant b).
  destruct (ofTenant tenant b); simpl; [|apply IH].
  rewrite precheck_after_default.
  destruct (hasStatus b "precheck"); simpl; [|apply IH].
  rewrite (overlapsDay_intervalContains b), (or_one_petCount b).
  destruct (intervalContains b day); simpl; [|apply IH].
  rewrite IH. lia.
Qed.

(** The uncapped count of a day, from the stored collections. *)
Lemma bookedOn_sums (tenant : string) (w : World) (day : string) :
  bookedOn (listBookingsForKennel tenant w) (listCheckinsForKennel tenant w) day
  = (staysSum tenant (loadArray CHECKIN_KEY w) day
     + bookingsSum tenant (loadArray BOOKING_KEY w) day)%Z.
Proof.
  unfold bookedOn, listBookingsForKennel, listCheckinsForKennel.
  rewrite countBookings_bookingsSum, countStays_staysSum. lia.
Qed.

(** ** Sums over a collection that changes in one place *)

Lemma sum_filter_app {A} (P : A -> bool) (f : A -> Z) (l1 l2 : list A) :
  sumZ (List.map f (List.filter P (l1 ++ l2)))
  = (sumZ (List.map f (List.filter P l1)) + sumZ (List.map f (List.filter P l2)))%Z.
Proof.
  induction l1 as [|x l1 IH]; simpl; [done|].
  destruct (P x); simpl; lia.
Qed.

Lemma sum_filter_one {A} (P : A -> bool) (f : A -> Z) (x : A) :
  sumZ (List.map f (List.filter P [x])) = if P x then f x else 0%Z.
Proof. simpl. destruct (P x); simpl; lia. Qed.

Lemma sum_filter_delete {A} (P : A -> bool) (f : A -> Z) (l : list A) (i : nat) (x : A) :
  l !! i = Some x ->
  sumZ (List.map f (List.filter P l))
  = (sumZ (List.map f (List.filter P (delete i l))) + if P x then f x else 0)%Z.
Proof.
  revert i. induction l as [|y l IH]; intros [|i] Hx; try done.
  - injection Hx as ->. change (delete 0 (x :: l)) with l. simpl.
    destruct (P x); simpl; lia.
  - change (delete (S i) (y :: l)) with (y :: delete i l). simpl.
    specialize (IH i Hx). destruct (P y); simpl; lia.
Qed.

Lemma sum_filter_alter {A} (P : A -> bool) (f : A -> Z) (g : A -> A) (l : list A)
    (i : nat) (x : A) :
  l !! i = Some x ->
  sumZ (List.map f (List.filter P (alter g i l)))
  = (sumZ (List.map f (List.filter P (delete i l))) + if P (g x) then f (g x) else 0)%Z.
Proof.
  revert i. induction l as [|y l IH]; intros [|i] Hx; try done.
  - injection Hx as ->. change (alter g 0 (x :: l)) with (g x :: l).
    change (delete 0 (x :: l)) with l. simpl.
    destruct (P (g x)); simpl; lia.
  - change (alter g (S i) (y :: l)) with (y :: alter g i l).
    change (delete (S i) (y :: l)) with (y :: delete i l). simpl.
    specialize (IH i Hx). destruct (P y); simpl; lia.
Qed.

(** ** What one record adds to the sums *)

Lemma bookingsSum_snoc (tenant : string) (bookings : list BookingRecord) (b : BookingRecord)
    (day : string) :
  bookingsSum tenant (bookings ++ [b]) day
  = (bookingsSum tenant bookings day
     + if hasStatus b "precheck" then contribution tenant b day else 0)%Z.
Proof.
  unfold bookingsSum, contribution. rewrite sum_filter_app, sum_filter_one.
  by destruct (ofTenant tenant b), (hasStatus b "precheck"), (intervalContains b day).
Qed.

Lemma bookingsSum_lookup (tenant : string) (bookings : list BookingRecord) (idx : nat)
    (b : BookingRecord) (day : string) :
  bookings !! idx = Some b ->
  bookingsSum tenant bookings day
  = (bookingsSum tenant (delete idx bookings) day
     + if hasStatus b "precheck" then contribution tenant b day else 0)%Z.
Proof.
  intros Hb. unfold bookingsSum, contribution. rewrite (sum_filter_delete _ _ _ _ _ Hb).
  by destruct (ofTenant tenant b), (hasStatus b "precheck"), (intervalContains b day).
Qed.

Lemma bookingsSum_with_status (tenant : string) (bookings : list BookingRecord) (idx : nat)
    (b : BookingRecord) (s day : string) :
  bookings !! idx = Some b ->
  bookingsSum tenant (alter (fun b => with_status b (Some s)) idx bookings) day
  = (bookingsSum tenant (delete idx bookings) day
     + if String.eqb s "precheck" then contribution tenant b day else 0)%Z.
Proof.
  intros Hb. unfold bookingsSum, contribution.
  rewrite (sum_filter_alter _ _ _ _ _ _ Hb).
  change (ofTenant tenant (with_status b (Some s))) with (ofTenant tenant b).
  change (intervalContains (with_status b (Some s)) day) with (intervalContains b day).
  change (petCount (with_status b (Some s))) with (petCount b).
  change (hasStatus (with_status b (Some s)) "precheck") with (String.eqb s "precheck").
  by destruct (ofTenant tenant b), (String.eqb s "precheck"), (intervalContains b day).
Qed.

Lemma staysSum_snoc (tenant : string) (stays : list CheckinRecord) (c : CheckinRecord)
    (day : string) :
  staysSum tenant (stays ++ [c]) day
  = (staysSum tenant stays day
     + if isCheckedOut (status c) then 0 else contribution tenant c day)%Z.
Proof.
  unfold staysSum, contribution. rewrite sum_filter_app, sum_filter_one.
  rewrite isCheckedOut_hasStatus.
  by destruct (ofTenant tenant c), (hasStatus c "checked_out"), (hasStatus c "checkedOut"),
    (intervalContains c day).
Qed.

Lemma staysSum_lookup (tenant : string) (stays : list CheckinRecord) (idx : nat)
    (c : CheckinRecord) (day : string) :
  stays !! idx = Some c ->
  staysSum tenant stays day
  = (staysSum tenant (delete idx stays) day
     + if isCheckedOut (status c) then 0 else contribution tenant c day)%Z.
Proof.
  intros Hc. unfold staysSum, contribution. rewrite (sum_filter_delete _ _ _ _ _ Hc).
  rewrite isCheckedOut_hasStatus.
  by destruct (ofTenant tenant c), (hasStatus c "checked_out"), (hasStatus c "checkedOut"),
    (intervalContains c day).
Qed.

Lemma staysSum_alter (tenant : string) (stays : list CheckinRecord) (idx : nat)
    (c : CheckinRecord) (g : CheckinRecord -> CheckinRecord) (day : string) :
  stays !! idx = Some c ->
  staysSum tenant (alter g idx stays) day
  = (staysSum tenant (delete idx stays) day
     + if isCheckedOut (status (g c)) then 0 else contribution tenant (g c) day)%Z.
Proof.
  intros Hc. unfold staysSum, contribution. rewrite (sum_filter_alter _ _ _ _ _ _ Hc).
  rewrite isCheckedOut_hasStatus.
  by destruct (ofTenant tenant (g c)), (hasStatus (g c) "checked_out"),
    (hasStatus (g c) "checkedOut"), (intervalContains (g c) day).
Qed.

Lemma countOn_sums (tenant : string) (w : World) (day : string) :
  countOn tenant w day
  = (staysSum tenant (loadArray CHECKIN_KEY w) day
     + bookingsSum tenant (loadArray BOOKING_KEY w) day)%Z.
Proof. apply bookedOn_sums. Qed.

(** Two worlds with the same collections have the same capacity. *)
(** ** Conversion takes a booking out of the bookings' part of the count *)

Lemma filter_alter_rejected {A} (P : A -> bool) (f : A -> A) (l : list A) (idx : nat) :
  (forall x, P (f x) = false) ->
  List.filter P (alter f idx l) = List.filter P (delete idx l).
Proof.
  intros Hf. revert idx.
  induction l as [|x l IH]; intros [|idx]; try done.
  - change (List.filter P (f x :: l) = List.filter P l). simpl. by rewrite Hf.
  - change (List.filter P (x :: alter f idx l) = List.filter P (x :: delete idx l)).
    simpl. by rewrite IH.
Qed.

Lemma bookingsSum_alter_status (tenant : string) (bookings : list BookingRecord)
    (idx : nat) (s day : string) :
  String.eqb s "precheck" = false ->
  bookingsSum tenant (alter (fun b => with_status b (Some s)) idx bookings) day
  = bookingsSum tenant (delete idx bookings) day.
Proof.
  intros Hs. unfold bookingsSum. rewrite filter_alter_rejected; [done|].
  intros b. unfold hasStatus. simpl. rewrite Hs. by rewrite andb_false_r.
Qed.

Lemma createCheckinFromBooking_stored_bookings (booking : BookingRecord)
    (overrides : PartialCheckin) (idx : nat) (w : World) :
  storage_ok w ->
  findIndex (fun b => String.eqb (id b) (id booking)) (loadArray BOOKING_KEY w) = Some idx ->
  loadArray BOOKING_KEY (createCheckinFromBooking booking overrides w).2
  = alter (fun b => with_status b (Some "converted")) idx (loadArray BOOKING_KEY w).
Proof.
  intros Hok Hfind. rewrite createCheckinFromBooking_steps. cbn [snd].
  set (w0 := (newId "c" w).2).
  set (w1 := (saveArray CHECKIN_KEY _ w0).2).
  assert (loadArray BOOKING_KEY w1 = loadArray BOOKING_KEY w) as Hsame.
  { subst w1 w0. by rewrite loadArray_bookings_saveArray_checkins, loadArray_newId. }
  assert (storage_ok w1) as Hok1.
  { subst w1. apply storage_ok_saveArray. exact Hok. }
  rewrite <- Hsame in Hfind.
  rewrite (setBookingStatus_found _ _ _ _ Hfind). cbn [snd].
  rewrite (loadArray_saveArray_same _ _ _ Hok1). by rewrite Hsame.
Qed.

(** Each enumerated day is reported with the capped sum. *)
Lemma getCapacityForRange_sums (Date_parse : string -> option Z) (LocalTZA : Z -> bool -> Z)
    (tenant startIso endIso : string) (w : World) :
  getCapacityForRange Date_parse LocalTZA tenant startIso endIso w
  = List.map
      (fun day =>
         let n := (staysSum tenant (loadArray CHECKIN_KEY w) day
                   + bookingsSum tenant (loadArray BOOKING_KEY w) day)%Z in
         {| date := day; booked := Z.min n 6; capacity := 6;
            free := Z.max 0 (6 - Z.min n 6) |})
      (eachDay Date_parse LocalTZA startIso endIso).
Proof.
  unfold getCapacityForRange. apply map_ext. intros day.
  unfold capacityDay. by rewrite bookedOn_sums.
Qed.

(** C1, as the code has it: for every tenant id and stored collections,
    the count of a day before capping is the sum of the pet counts (1 when
    absent or zero) of the tenant's stays whose status is neither
    "checked_out" nor "checkedOut" and whose [checkIn, checkOut) holds the
    day, plus that of the tenant's bookings whose status is exactly
    "precheck" and whose interval holds the day; [getCapacityForRange]
    reports that sum, capped, for each enumerated day.  Where the store
    accepts writes, [createCheckinFromBooking] leaves the first stored
    booking with the given id "converted", and the bookings' part of every
    day's count is then the one of the collection without that booking. *)
Theorem booked_count_is_sum (Date_parse : string -> option Z) (LocalTZA : Z -> bool -> Z)
    (tenant startIso endIso : string) (w : World) :
  (forall day,
     bookedOn (listBookingsForKennel tenant w) (listCheckinsForKennel tenant w) day
     = (staysSum tenant (loadArray CHECKIN_KEY w) day
        + bookingsSum tenant (loadArray BOOKING_KEY w) day)%Z)
  /\ getCapacityForRange Date_parse LocalTZA tenant startIso endIso w
     = List.map
         (fun day =>
            let n := (staysSum tenant (loadArray CHECKIN_KEY w) day
                      + bookingsSum tenant (loadArray BOOKING_KEY w) day)%Z in
            {| date := day; booked := Z.min n 6; capacity := 6;
               free := Z.max 0 (6 - Z.min n 6) |})
         (eachDay Date_parse LocalTZA startIso endIso)
  /\ (forall booking overrides idx,
        storage_ok w ->
        findIndex (fun b => String.eqb (id b) (id booking)) (loadArray BOOKING_KEY w)
        = Some idx ->
        let w' := (createCheckinFromBooking booking overrides w).2 in
        (exists b, loadArray BOOKING_KEY w' !! idx = Some b /\ status b = Some "converted")
        /\ forall day,
             bookingsSum tenant (loadArray BOOKING_KEY w') day
             = bookingsSum tenant (delete idx (loadArray BOOKING_KEY w)) day).
Proof.
  split_and!.
  - intros day. apply bookedOn_sums.
  - apply getCapacityForRange_sums.
  - intros booking overrides idx Hok Hfind w'. subst w'.
    rewrite (createCheckinFromBooking_stored_bookings _ _ _ _ Hok Hfind).
    split.
    + apply findIndex_Some in Hfind as (b & Hb & _).
      exists (with_status b (Some "converted")).
      by rewrite list_lookup_alter_eq, Hb.
    + intros day. by apply bookingsSum_alter_status.
Qed.

Lemma booked_count_is_sum_witness :
  bookedOn (listBookingsForKennel KENNEL_ID twoBookingsWorld)
    (listCheckinsForKennel KENNEL_ID twoBookingsWorld) "2024-02-02" = 2%Z
  /\ bookingsSum KENNEL_ID
       (loadArray BOOKING_KEY
          (createCheckinFromBooking
             (demoBooking "b_2" (Some "precheck") "2024-02-01" "2024-02-03" (Some 2%Z))
             no_overrides twoBookingsWorld).2)
       "2024-02-02" = 0%Z.
Proof.
  destruct (booked_count_is_sum JS.parse_date_only JS.Europe_Copenhagen
      KENNEL_ID "2024-02-01" "2024-02-03"
              twoBookingsWorld) as (Hsum & _ & Hconv).
  split.
  - rewrite Hsum. reflexivity.
  - destruct (Hconv (demoBooking "b_2" (Some "precheck") "2024-02-01" "2024-02-03" (Some 2%Z))
                no_overrides 1%nat) as [_ Hday].
    + by split_and!.
    + reflexivity.
    + rewrite Hday. reflexivity.
Defined.

(** C1 as worded fails on a stay whose status is spelled "checkedOut": the
    wording counts its two cats on 1 February 2024, the code counts none.
    Nor does conversion always take the booking out of "precheck": where the
    browser refuses the write of the bookings, the accepted booking of four
    cats is converted to a stay and still counted, eight cats in all. *)
Lemma booked_count_as_stated_fails :
  getCapacityForRange JS.parse_date_only JS.Europe_Copenhagen KENNEL_ID
    "2024-02-01" "2024-02-01" camelCaseWorld
  = [{| date := "2024-02-01"; booked := 0; capacity := 6; free := 6 |}]
  /\ bookedOn (listBookingsForKennel KENNEL_ID camelCaseWorld)
       (listCheckinsForKennel KENNEL_ID camelCaseWorld) "2024-02-01" = 0%Z
  /\ (staysSum_as_stated KENNEL_ID (loadArray CHECKIN_KEY camelCaseWorld) "2024-02-01"
      + bookingsSum KENNEL_ID (loadArray BOOKING_KEY camelCaseWorld) "2024-02-01")%Z = 2%Z
  /\ countOn KENNEL_ID bookingsFullWorld "2024-02-01" = 4%Z
  /\ countOn KENNEL_ID
       (createCheckinFromBooking (febBooking (Some "precheck") (Some 4%Z)) no_overrides
          bookingsFullWorld).2 "2024-02-01" = 8%Z
  /\ List.map status
       (loadArray BOOKING_KEY
          (createCheckinFromBooking (febBooking (Some "precheck") (Some 4%Z)) no_overrides
             bookingsFullWorld).2)
     = [Some "precheck"].
Proof. split_and!; vm_compute; reflexivity. Qed.

(** ** What one record adds to a day *)

Lemma petCount_nonzero (r : BookingRecord) : petCount r <> 0%Z.
Proof. unfold petCount. destruct (catCount r); [case_decide|]; done. Qed.

Lemma getCapacityForRange_reported (Date_parse : string -> option Z)
    (LocalTZA : Z -> bool -> Z) (tenant startIso endIso : string) (w : World) :
  getCapacityForRange Date_parse LocalTZA tenant startIso endIso w
  = List.map
      (fun day =>
         reportedDay day (staysSum tenant (loadArray CHECKIN_KEY w) day
                          + bookingsSum tenant (loadArray BOOKING_KEY w) day))
      (eachDay Date_parse LocalTZA startIso endIso).
Proof. apply getCapacityForRange_sums. Qed.

Lemma isCheckedOut_false (s : option string) :
  s <> Some "checked_out" -> s <> Some "checkedOut" -> isCheckedOut s = false.
Proof.
  intros H1 H2. unfold isCheckedOut, JS.strict_eq. destruct s as [s|]; [|done].
  destruct (String.eqb_spec s "checked_out") as [->|_]; [done|].
  destruct (String.eqb_spec s "checkedOut") as [->|_]; done.
Qed.

Lemma reportedDay_eq (day : string) (n m : Z) : n = m -> reportedDay day n = reportedDay day m.
Proof. by intros ->. Qed.

(** Evaluates the closed test of a conditional in the goal. *)
Ltac eval_test :=
  match goal with
  | |- context [if ?c then _ else _] =>
      let v := eval vm_compute in c in
      match v with true => idtac | false => idtac end;
      change c with v; cbv iota
  end.

Ltac same_days :=
  repeat (apply (f_equal2 cons); [apply reportedDay_eq; cbv beta; repeat eval_test; lia|]);
  try reflexivity.

(** C3, as the code has it.  Where the host reads "2024-01-10" and
    "2024-01-12" as midnight UTC and no clock change falls between them: a
    stored stay of the tenant with these two dates whose status is neither
    "checked_out" nor "checkedOut", or a stored booking of the tenant with
    these dates in status "precheck", has a pet count other than 0, and
    [getCapacityForRange] over the two dates reports for "2024-01-10" and
    for "2024-01-11" the count of the other stored records plus that pet
    count, and for "2024-01-12" the count of the other records alone, each
    capped at 6.  And where the tenant's only record is an accepted booking
    of 4 cats from "2024-02-01" to "2024-02-03", [getCapacityForRange] over
    these two dates gives booked 4, free 2 on the first two days and booked
    0, free 6 on the third. *)
Theorem checkout_day_excluded (Date_parse : string -> option Z) (LocalTZA : Z -> bool -> Z)
    (tenant : string) (w : World) (b4 : BookingRecord) :
  (Date_parse "2024-01-10" = Some 1704844800000%Z ->
   Date_parse "2024-01-12" = Some 1705017600000%Z ->
   no_clock_change LocalTZA 1704844800000 1705017600000 ->
   (forall idx (stay : CheckinRecord),
      loadArray CHECKIN_KEY w !! idx = Some stay -> ofTenant tenant stay = true ->
      checkIn stay = Some "2024-01-10" -> checkOut stay = Some "2024-01-12" ->
      status stay <> Some "checked_out" -> status stay <> Some "checkedOut" ->
      let others day :=
        (staysSum tenant (delete idx (loadArray CHECKIN_KEY w)) day
         + bookingsSum tenant (loadArray BOOKING_KEY w) day)%Z in
      petCount stay <> 0%Z
      /\ getCapacityForRange Date_parse LocalTZA tenant "2024-01-10" "2024-01-12" w
         = [reportedDay "2024-01-10" (others "2024-01-10" + petCount stay);
            reportedDay "2024-01-11" (others "2024-01-11" + petCount stay);
            reportedDay "2024-01-12" (others "2024-01-12")])
   /\ (forall idx (b : BookingRecord),
         loadArray BOOKING_KEY w !! idx = Some b -> ofTenant tenant b = true ->
         checkIn b = Some "2024-01-10" -> checkOut b = Some "2024-01-12" ->
         status b = Some "precheck" ->
         let others day :=
           (staysSum tenant (loadArray CHECKIN_KEY w) day
            + bookingsSum tenant (delete idx (loadArray BOOKING_KEY w)) day)%Z in
         petCount b <> 0%Z
         /\ getCapacityForRange Date_parse LocalTZA tenant "2024-01-10" "2024-01-12" w
            = [reportedDay "2024-01-10" (others "2024-01-10" + petCount b);
               reportedDay "2024-01-11" (others "2024-01-11" + petCount b);
               reportedDay "2024-01-12" (others "2024-01-12")]))
  /\ (Date_parse "2024-02-01" = Some 1706745600000%Z ->
      Date_parse "2024-02-03" = Some 1706918400000%Z ->
      no_clock_change LocalTZA 1706745600000 1706918400000 ->
      loadArray BOOKING_KEY w = [b4] -> loadArray CHECKIN_KEY w = [] ->
      kennelId b4 = tenant -> status b4 = Some "precheck" -> catCount b4 = Some 4%Z ->
      checkIn b4 = Some "2024-02-01" -> checkOut b4 = Some "2024-02-03" ->
      getCapacityForRange Date_parse LocalTZA tenant "2024-02-01" "2024-02-03" w
      = [{| date := "2024-02-01"; booked := 4; capacity := 6; free := 2 |};
         {| date := "2024-02-02"; booked := 4; capacity := 6; free := 2 |};
         {| date := "2024-02-03"; booked := 0; capacity := 6; free := 6 |}]).
Proof.
  split.
  - intros Hstart Hend Hsame.
    assert (eachDay Date_parse LocalTZA "2024-01-10" "2024-01-12"
            = ["2024-01-10"; "2024-01-11"; "2024-01-12"]) as Hdays.
    { rewrite (eachDay_exact Date_parse LocalTZA _ _ 1704844800000 1705017600000);
        [vm_compute; reflexivity | unfold new_Date; by rewrite Hstart
        | unfold new_Date; by rewrite Hend | lia | done]. }
    split.
    + intros idx stay Hstay Htenant Hin Hout Hs1 Hs2 others.
      split; [apply petCount_nonzero|].
      rewrite getCapacityForRange_reported, Hdays. cbn [List.map].
      rewrite !(staysSum_lookup tenant _ idx stay _ Hstay).
      rewrite (isCheckedOut_false _ Hs1 Hs2). unfold contribution, intervalContains.
      rewrite Htenant, Hin, Hout. subst others. same_days.
    + intros idx b Hb Htenant Hin Hout Hstatus others.
      split; [apply petCount_nonzero|].
      rewrite getCapacityForRange_reported, Hdays. cbn [List.map].
      rewrite !(bookingsSum_lookup tenant _ idx b _ Hb).
      unfold contribution, intervalContains, hasStatus.
      rewrite Htenant, Hin, Hout, Hstatus. subst others. same_days.
  - intros Hstart Hend Hsame Hbookings Hstays Htenant Hstatus Hcats Hin Hout.
    assert (eachDay Date_parse LocalTZA "2024-02-01" "2024-02-03"
            = ["2024-02-01"; "2024-02-02"; "2024-02-03"]) as Hdays.
    { rewrite (eachDay_exact Date_parse LocalTZA _ _ 1706745600000 1706918400000);
        [vm_compute; reflexivity | unfold new_Date; by rewrite Hstart
        | unfold new_Date; by rewrite Hend | lia | done]. }
    rewrite getCapacityForRange_sums, Hdays, Hbookings, Hstays.
    assert (forall day, bookingsSum tenant [b4] day
                        = if intervalContains b4 day then 4%Z else 0%Z) as Hsum.
    { intros day. unfold bookingsSum. cbn [List.filter].
      unfold ofTenant, hasStatus.
      rewrite Htenant, Hstatus, String.eqb_refl, orb_true_r.
      cbn [andb String.eqb Ascii.eqb Bool.eqb].
      destruct (intervalContains b4 day); [|done].
      cbn [List.map]. unfold petCount. rewrite Hcats. reflexivity. }
    unfold staysSum. cbn [List.map List.filter sumZ fold_right]. rewrite !Hsum.
    unfold intervalContains. rewrite Hin, Hout. reflexivity.
Qed.

Lemma checkout_day_excluded_witness :
  getCapacityForRange JS.parse_date_only (JS.fixed_zone JS.msPerHour) KENNEL_ID
    "2024-01-10" "2024-01-12" janWorld
  = [{| date := "2024-01-10"; booked := 4; capacity := 6; free := 2 |};
     {| date := "2024-01-11"; booked := 4; capacity := 6; free := 2 |};
     {| date := "2024-01-12"; booked := 0; capacity := 6; free := 6 |}]
  /\ getCapacityForRange JS.parse_date_only (JS.fixed_zone JS.msPerHour) KENNEL_ID
       "2024-02-01" "2024-02-03" fourCatsWorld
     = [{| date := "2024-02-01"; booked := 4; capacity := 6; free := 2 |};
        {| date := "2024-02-02"; booked := 4; capacity := 6; free := 2 |};
        {| date := "2024-02-03"; booked := 0; capacity := 6; free := 6 |}].
Proof.
  destruct (checkout_day_excluded JS.parse_date_only (JS.fixed_zone JS.msPerHour) KENNEL_ID
              janWorld janBooking) as [Hjan _].
  destruct (checkout_day_excluded JS.parse_date_only (JS.fixed_zone JS.msPerHour) KENNEL_ID
              fourCatsWorld (febBooking (Some "precheck") (Some 4%Z))) as [_ Hexample].
  destruct Hjan as [Hstay Hbooking];
    [reflexivity | reflexivity | apply fixed_zone_no_clock_change |].
  destruct (Hstay 0%nat janStay) as [_ Hdays];
    [reflexivity | reflexivity | reflexivity | reflexivity | discriminate | discriminate |].
  destruct (Hbooking 0%nat janBooking) as [_ Hdays'];
    [reflexivity | reflexivity | reflexivity | reflexivity | reflexivity |].
  split.
  - rewrite Hdays. reflexivity.
  - apply Hexample; try reflexivity. apply fixed_zone_no_clock_change.
Defined.

(** C3 as worded fails on a stay spelled "checkedOut": it is not
    "checked_out", its dates are "2024-01-10" and "2024-01-12", and it adds
    nothing to any of the three days. *)
Lemma camelCase_stay_adds_nothing :
  status janCamelStay = Some "checkedOut"
  /\ status janCamelStay <> Some "checked_out"
  /\ checkIn janCamelStay = Some "2024-01-10" /\ checkOut janCamelStay = Some "2024-01-12"
  /\ loadArray CHECKIN_KEY janCamelWorld = [janCamelStay]
  /\ getCapacityForRange JS.parse_date_only JS.Europe_Copenhagen KENNEL_ID
       "2024-01-10" "2024-01-12" janCamelWorld
     = [{| date := "2024-01-10"; booked := 0; capacity := 6; free := 6 |};
        {| date := "2024-01-11"; booked := 0; capacity := 6; free := 6 |};
        {| date := "2024-01-12"; booked := 0; capacity := 6; free := 6 |}].
Proof. split_and!; try discriminate; vm_compute; reflexivity. Qed.

(** ** Bounds of a capacity day *)

Lemma sumZ_nonneg (l : list Z) : Forall (fun n => 0 <= n)%Z l -> (0 <= sumZ l)%Z.
Proof. induction 1; simpl; lia. Qed.

Lemma petCount_nonneg (r : BookingRecord) :
  (forall n, catCount r = Some n -> 0 <= n)%Z -> (0 <= petCount r)%Z.
Proof.
  intros H. unfold petCount. destruct (catCount r) as [n|]; [|lia].
  case_decide; [lia|]. by apply H.
Qed.

Lemma sum_petCount_nonneg {A} (proj : A -> BookingRecord) (P : A -> bool) (l : list A) :
  (forall x n, x ∈ l -> catCount (proj x) = Some n -> 0 <= n)%Z ->
  (0 <= sumZ (List.map (fun x => petCount (proj x)) (List.filter P l)))%Z.
Proof.
  intros H. apply sumZ_nonneg, Forall_forall. intros n Hn.
  apply list_elem_of_In, in_map_iff in Hn as (x & <- & Hx).
  apply filter_In in Hx as [Hx _]. apply petCount_nonneg.
  intros m. apply H. by apply list_elem_of_In.
Qed.

(** C4, as the code has it: every [CapacityDay] that [getCapacityForRange]
    returns has capacity [FIXED_DAILY_CAPACITY], which is 6, a booked count
    of at most the capacity, and [free = capacity - booked] with
    [0 <= free].  When no stored record carries a negative [catCount], the
    booked count is not negative either and [free <= capacity]. *)
Theorem capacityDay_bounds (Date_parse : string -> option Z) (LocalTZA : Z -> bool -> Z)
    (tenant startIso endIso : string) (w : World) (d : CapacityDay) :
  d ∈ getCapacityForRange Date_parse LocalTZA tenant startIso endIso w ->
  (capacity d = FIXED_DAILY_CAPACITY /\ FIXED_DAILY_CAPACITY = 6
   /\ booked d <= capacity d /\ 0 <= free d /\ free d = capacity d - booked d)%Z
  /\ ((forall (b : BookingRecord) n,
         b ∈ loadArray BOOKING_KEY w -> catCount b = Some n -> 0 <= n)%Z ->
      (forall (c : CheckinRecord) n,
         c ∈ loadArray CHECKIN_KEY w -> catCount c = Some n -> 0 <= n)%Z ->
      (0 <= booked d /\ free d <= capacity d)%Z).
Proof.
  intros Hd.
  rewrite getCapacityForRange_sums in Hd.
  apply list_elem_of_In, in_map_iff in Hd as (day & <- & _). simpl.
  unfold FIXED_DAILY_CAPACITY. split; [lia|].
  intros Hbookings Hstays.
  assert (0 <= staysSum tenant (loadArray CHECKIN_KEY w) day)%Z.
  { unfold staysSum. by apply (sum_petCount_nonneg base). }
  assert (0 <= bookingsSum tenant (loadArray BOOKING_KEY w) day)%Z.
  { unfold bookingsSum. by apply (sum_petCount_nonneg (fun b => b)). }
  lia.
Qed.

Lemma capacityDay_bounds_witness :
  (booked {| date := "2024-02-01"; booked := 4; capacity := 6; free := 2 |} <= 6
   /\ 0 <= free {| date := "2024-02-01"; booked := 4; capacity := 6; free := 2 |} <= 6)%Z.
Proof.
  destruct (capacityDay_bounds JS.parse_date_only JS.Europe_Copenhagen
      KENNEL_ID "2024-02-01" "2024-02-03"
              fourCatsWorld {| date := "2024-02-01"; booked := 4; capacity := 6; free := 2 |})
    as ((Hcap & _ & Hbooked & Hfree & _) & Hnonneg).
  - vm_compute. apply list_elem_of_here.
  - destruct Hnonneg as [_ Hle].
    + intros b n Hb Hn. vm_compute in Hb. apply list_elem_of_singleton in Hb. subst b.
      vm_compute in Hn. injection Hn as <-. lia.
    + intros c n Hc. vm_compute in Hc. by apply elem_of_nil in Hc.
    + split; [exact Hbooked | split; [exact Hfree | exact Hle]].
Defined.

(** C4 as worded fails once the owner's form is submitted with "-2" cats
    and the request is accepted: the booked count of 1 March 2024 is -2 and
    its free count is 8, above the capacity of 6. *)
Lemma free_above_capacity :
  catCount negativeRequest.1 = Some (-2)%Z
  /\ getCapacityForRange JS.parse_date_only JS.Europe_Copenhagen
      KENNEL_ID "2024-03-01" "2024-03-01" negativeWorld
     = [{| date := "2024-03-01"; booked := -2; capacity := 6; free := 8 |}]
  /\ ~ (forall d,
          d ∈ getCapacityForRange JS.parse_date_only JS.Europe_Copenhagen
              KENNEL_ID "2024-03-01" "2024-03-01"
                negativeWorld ->
          0 <= free d <= capacity d)%Z.
Proof.
  split_and!; [reflexivity | reflexivity |].
  intros H.
  specialize (H {| date := "2024-03-01"; booked := -2; capacity := 6; free := 8 |}).
  simpl in H. assert (0 <= 8 <= 6)%Z as Habs; [|lia].
  apply H. vm_compute. apply list_elem_of_here.
Qed.

(** ** The admission gate *)

Lemma forallb_false_exists {A} (p : A -> bool) (l : list A) :
  forallb p l = false <-> exists x, x ∈ l /\ p x = false.
Proof.
  induction l as [|y l IH]; simpl.
  - split; [done|]. by intros (x & Hx%elem_of_nil & _).
  - rewrite andb_false_iff, IH. split.
    + intros [Hy|(x & Hx & Hp)]; [exists y|exists x]; split; try done.
      * apply list_elem_of_here.
      * by apply list_elem_of_further.
    + intros (x & Hx & Hp). apply elem_of_cons in Hx as [->|Hx]; [by left|].
      right. by exists x.
Qed.

(** What the gate decides: with both dates present, it refuses exactly when
    some day that [eachDay] lists for [checkIn] and [checkOut] has a capped
    count that the candidate's pet count lifts above the capacity. *)
Lemma hasCapacityForBooking_false_iff (Date_parse : string -> option Z)
    (LocalTZA : Z -> bool -> Z) (tenant : string) (booking : BookingRecord)
    (ci co : string) (w : World) :
  checkIn booking = Some ci -> checkOut booking = Some co -> ci <> "" -> co <> "" ->
  hasCapacityForBooking Date_parse LocalTZA tenant booking w = false
  <-> exists day,
        day ∈ eachDay Date_parse LocalTZA ci co
        /\ (FIXED_DAILY_CAPACITY
            < Z.min (staysSum tenant (loadArray CHECKIN_KEY w) day
                     + bookingsSum tenant (loadArray BOOKING_KEY w) day)
                    FIXED_DAILY_CAPACITY
              + petCount booking)%Z.
Proof.
  intros Hci Hco Hci_ne Hco_ne. unfold hasCapacityForBooking, JS.falsy_string.
  rewrite Hci, Hco. apply String.eqb_neq in Hci_ne as ->. apply String.eqb_neq in Hco_ne as ->.
  cbn [orb JS.nullish]. rewrite or_one_petCount, forallb_false_exists.
  unfold getCapacityForRange. split.
  - intros (d & Hd & Hlt).
    apply list_elem_of_In, in_map_iff in Hd as (day & <- & Hday).
    exists day. split; [by apply list_elem_of_In|].
    unfold capacityDay in Hlt. cbn [booked capacity] in Hlt.
    rewrite bookedOn_sums in Hlt. by apply Z.leb_gt in Hlt.
  - intros (day & Hday & Hlt).
    exists (capacityDay (listBookingsForKennel tenant w) (listCheckinsForKennel tenant w) day).
    split.
    + apply list_elem_of_In, in_map. by apply list_elem_of_In.
    + unfold capacityDay. cbn [booked capacity]. rewrite bookedOn_sums. by apply Z.leb_gt.
Qed.

(** C10: a booking whose [checkIn] and [checkOut] are both non-empty, but
    of which one does not give a valid date or whose [checkIn] date is
    after its [checkOut] date, has an empty list of days; so
    [getCapacityForRange] over its dates is empty and
    [hasCapacityForBooking] is true, whatever is stored.  A booking whose
    [checkIn] or [checkOut] is missing or empty is refused. *)
Theorem degenerate_range_passes_gate (Date_parse : string -> option Z)
    (LocalTZA : Z -> bool -> Z) (tenant : string) (booking : BookingRecord) (w : World) :
  (forall ci co,
     checkIn booking = Some ci -> checkOut booking = Some co -> ci <> "" -> co <> "" ->
     new_Date Date_parse ci = None \/ new_Date Date_parse co = None
     \/ (exists start end_,
           new_Date Date_parse ci = Some start /\ new_Date Date_parse co = Some end_
           /\ (end_ < start)%Z) ->
     eachDay Date_parse LocalTZA ci co = []
     /\ getCapacityForRange Date_parse LocalTZA tenant ci co w = []
     /\ hasCapacityForBooking Date_parse LocalTZA tenant booking w = true)
  /\ (checkIn booking = None \/ checkIn booking = Some ""
      \/ checkOut booking = None \/ checkOut booking = Some "" ->
      hasCapacityForBooking Date_parse LocalTZA tenant booking w = false).
Proof.
  split.
  - intros ci co Hci Hco Hci_ne Hco_ne Hdegenerate.
    assert (eachDay Date_parse LocalTZA ci co = []) as Hdays.
    { destruct Hdegenerate as [H|[H|(start & end_ & Hs & He & Hlt)]].
      - apply eachDay_unparsable. by left.
      - apply eachDay_unparsable. by right.
      - by apply (eachDay_reversed _ _ _ _ start end_). }
    assert (getCapacityForRange Date_parse LocalTZA tenant ci co w = []) as Hrange.
    { unfold getCapacityForRange. by rewrite Hdays. }
    split_and!; [done|done|].
    unfold hasCapacityForBooking, JS.falsy_string. rewrite Hci, Hco.
    apply String.eqb_neq in Hci_ne as ->. apply String.eqb_neq in Hco_ne as ->.
    cbn [orb JS.nullish]. by rewrite Hrange.
  - unfold hasCapacityForBooking, JS.falsy_string.
    intros [-> | [-> | [-> | ->]]]; try done.
    + by destruct (checkIn booking) as [ci|]; [destruct (String.eqb ci "")|].
    + by destruct (checkIn booking) as [ci|]; [destruct (String.eqb ci "")|].
Qed.

Lemma degenerate_range_passes_gate_witness :
  hasCapacityForBooking JS.parse_date_only JS.Europe_Copenhagen
      KENNEL_ID unreadableBooking fullWorld = true
  /\ hasCapacityForBooking JS.parse_date_only JS.Europe_Copenhagen
      KENNEL_ID reversedBooking fullWorld = true
  /\ getCapacityForRange JS.parse_date_only JS.Europe_Copenhagen
      KENNEL_ID "2024-02-03" "2024-02-01" fullWorld = []
  /\ hasCapacityForBooking JS.parse_date_only JS.Europe_Copenhagen
      KENNEL_ID undatedBooking emptyWorld = false.
Proof.
  destruct (degenerate_range_passes_gate JS.parse_date_only JS.Europe_Copenhagen
      KENNEL_ID unreadableBooking
              fullWorld) as [Hunreadable _].
  destruct (degenerate_range_passes_gate JS.parse_date_only JS.Europe_Copenhagen
      KENNEL_ID reversedBooking
              fullWorld) as [Hreversed _].
  destruct (degenerate_range_passes_gate JS.parse_date_only JS.Europe_Copenhagen
      KENNEL_ID undatedBooking
              emptyWorld) as [_ Hundated].
  destruct (Hunreadable "next friday" "2024-02-03") as (_ & _ & H1);
    [reflexivity | reflexivity | discriminate | discriminate | by left |].
  destruct (Hreversed "2024-02-03" "2024-02-01") as (_ & H2 & H3);
    [reflexivity | reflexivity | discriminate | discriminate | |].
  { right; right. exists 1706918400000%Z, 1706745600000%Z.
    split_and!; [reflexivity | reflexivity | lia]. }
  split_and!; [exact H1 | exact H3 | exact H2 |].
  apply Hundated. right; left. reflexivity.
Defined.

Lemma getCapacityForRange_dates (Date_parse : string -> option Z)
    (LocalTZA : Z -> bool -> Z) (tenant startIso endIso : string) (w : World) :
  List.map date (getCapacityForRange Date_parse LocalTZA tenant startIso endIso w)
  = eachDay Date_parse LocalTZA startIso endIso.
Proof.
  unfold getCapacityForRange. rewrite List.map_map. cbn [date capacityDay].
  apply List.map_id.
Qed.



(** The range is tested with both ends: six cats arrive on "2024-02-03"
    and the candidate leaves that day with one cat.  The gate lists the
    three days, the departure day included, and refuses because of it; once
    accepted, the counts of the three days are 1, 1 and 6. *)
Example gate_refuses_for_checkout_day :
  hasCapacityForBooking JS.parse_date_only JS.Europe_Copenhagen KENNEL_ID candidate
    fullOnCheckoutWorld = false
  /\ getCapacityForRange JS.parse_date_only JS.Europe_Copenhagen KENNEL_ID
       "2024-02-01" "2024-02-03" fullOnCheckoutWorld
     = [{| date := "2024-02-01"; booked := 0; capacity := 6; free := 6 |};
        {| date := "2024-02-02"; booked := 0; capacity := 6; free := 6 |};
        {| date := "2024-02-03"; booked := 6; capacity := 6; free := 0 |}]
  /\ overlapsDay (checkIn candidate) (checkOut candidate) "2024-02-03" = false
  /\ List.map
       (bookedOn (listBookingsForKennel KENNEL_ID candidateAcceptedWorld)
          (listCheckinsForKennel KENNEL_ID candidateAcceptedWorld))
       ["2024-02-01"; "2024-02-02"; "2024-02-03"]
     = [1; 1; 6]%Z.
Proof. split_and!; vm_compute; reflexivity. Qed.

(** The gate does refuse a candidate whose own nights are full. *)
Example gate_refuses_full_nights :
  hasCapacityForBooking JS.parse_date_only JS.Europe_Copenhagen KENNEL_ID candidate fullWorld
  = false.
Proof. vm_compute. reflexivity. Qed.

Example gate_accepts_free_nights :
  hasCapacityForBooking JS.parse_date_only JS.Europe_Copenhagen KENNEL_ID candidate
    fourCatsWorld = true.
Proof. vm_compute. reflexivity. Qed.

(* ------------------------------------------------------------------ *)
(** * Further properties of the module                                  *)
(* ------------------------------------------------------------------ *)

(** ** The store after a write *)

Lemma loadArray_saveArray_cases {T} (key : Key T) (value : list T) (w : World) :
  loadArray key (saveArray key value w).2
  = if window w && negb (getItem_throws w)
    then (if setItem_throws w (key_name key) then loadArray key w else value)
    else [].
Proof.
  unfold saveArray, loadArray, isBrowser, localStorage_setItem, localStorage_getItem.
  destruct (window w) eqn:Hw; simpl; [|by rewrite Hw].
  destruct (setItem_throws w (key_name key)); simpl; rewrite Hw; simpl;
    destruct (getItem_throws w); simpl; try done.
  by rewrite getItem_setItem_same.
Qed.

Lemma loadObject_saveArray_bookings (value : list BookingRecord)
    (fallback : Json KennelProfile) (w : World) :
  loadObject PROFILE_KEY fallback (saveArray BOOKING_KEY value w).2
  = loadObject PROFILE_KEY fallback w.
Proof.
  destruct (saveArray_world BOOKING_KEY value w) as (Hw & Hg & _ & _ & Hls).
  unfold loadObject, isBrowser, localStorage_getItem. rewrite Hw, Hg, Hls.
  by destruct (window w), (setItem_throws w (key_name BOOKING_KEY)).
Qed.

Lemma loadObject_saveArray_checkins (value : list CheckinRecord)
    (fallback : Json KennelProfile) (w : World) :
  loadObject PROFILE_KEY fallback (saveArray CHECKIN_KEY value w).2
  = loadObject PROFILE_KEY fallback w.
Proof.
  destruct (saveArray_world CHECKIN_KEY value w) as (Hw & Hg & _ & _ & Hls).
  unfold loadObject, isBrowser, localStorage_getItem. rewrite Hw, Hg, Hls.
  by destruct (window w), (setItem_throws w (key_name CHECKIN_KEY)).
Qed.

Lemma saveObject_world (profile : KennelProfile) (w : World) :
  let w' := (saveObject PROFILE_KEY profile w).2 in
  window w' = window w /\ getItem_throws w' = getItem_throws w
  /\ setItem_throws w' = setItem_throws w
  /\ localStorage w'
     = (if window w && negb (setItem_throws w (key_name PROFILE_KEY))
        then setItem PROFILE_KEY (raw_json (JObject profile)) (localStorage w)
        else localStorage w).
Proof.
  unfold saveObject, isBrowser, localStorage_setItem.
  destruct (window w) eqn:Hw; cbn [negb andb]; [|done].
  cbn [log_call setItem_throws].
  by destruct (setItem_throws w (key_name PROFILE_KEY)).
Qed.

(** X1: reading a collection back after [saveArray]: the written value
    where the store is readable and accepts the write, the previous
    collection where the write is refused, and the empty list where the
    store cannot be read. *)
Theorem saveArray_then_loadArray {T} (key : Key T) (value : list T) (w : World) :
  (storage_ok w -> loadArray key (saveArray key value w).2 = value)
  /\ (window w = true -> setItem_throws w (key_name key) = true ->
      loadArray key (saveArray key value w).2 = loadArray key w)
  /\ (window w = false \/ getItem_throws w = true ->
      loadArray key (saveArray key value w).2 = []).
Proof.
  rewrite loadArray_saveArray_cases. split_and!.
  - intros (-> & -> & ->). done.
  - intros -> ->. simpl.
    destruct (getItem_throws w) eqn:Hg; simpl; [|done].
    unfold loadArray, isBrowser, localStorage_getItem. rewrite Hg.
    by destruct (window w).
  - intros [-> | ->]; [done|]. by rewrite andb_false_r.
Qed.

Lemma saveArray_then_loadArray_witness :
  loadArray BOOKING_KEY (saveArray BOOKING_KEY [candidate] emptyWorld).2 = [candidate]
  /\ loadArray BOOKING_KEY (saveArray BOOKING_KEY [candidate] quotaWorld).2
     = [febBooking (Some "pending") None]
  /\ loadArray BOOKING_KEY (saveArray BOOKING_KEY [candidate] serverWorld).2 = [].
Proof.
  destruct (saveArray_then_loadArray BOOKING_KEY [candidate] emptyWorld) as (Hok & _ & _).
  destruct (saveArray_then_loadArray BOOKING_KEY [candidate] quotaWorld) as (_ & Hfull & _).
  destruct (saveArray_then_loadArray BOOKING_KEY [candidate] serverWorld) as (_ & _ & Hnone).
  split_and!.
  - apply Hok. by split_and!.
  - rewrite Hfull; reflexivity.
  - apply Hnone. left. reflexivity.
Defined.

(** X2: a write stays under its key.  Saving the bookings leaves the stays
    and the profile as they were, saving the stays leaves the bookings and
    the profile, and saving the profile leaves both collections, whether or
    not the write is accepted. *)
Theorem writes_stay_under_their_key (bookings : list BookingRecord)
    (checkins : list CheckinRecord) (profile : KennelProfile) (kennelId_ : string)
    (w : World) :
  (loadArray CHECKIN_KEY (saveArray BOOKING_KEY bookings w).2 = loadArray CHECKIN_KEY w
   /\ loadKennelProfile kennelId_ (saveArray BOOKING_KEY bookings w).2
      = loadKennelProfile kennelId_ w)
  /\ (loadArray BOOKING_KEY (saveArray CHECKIN_KEY checkins w).2 = loadArray BOOKING_KEY w
      /\ loadKennelProfile kennelId_ (saveArray CHECKIN_KEY checkins w).2
         = loadKennelProfile kennelId_ w)
  /\ (loadArray BOOKING_KEY (saveKennelProfile profile w).2 = loadArray BOOKING_KEY w
      /\ loadArray CHECKIN_KEY (saveKennelProfile profile w).2 = loadArray CHECKIN_KEY w).
Proof.
  destruct (saveObject_world profile w) as (Hw & Hg & _ & Hls).
  unfold saveKennelProfile.
  split_and!.
  - apply loadArray_checkins_saveArray_bookings.
  - unfold loadKennelProfile. by rewrite loadObject_saveArray_bookings.
  - apply loadArray_bookings_saveArray_checkins.
  - unfold loadKennelProfile. by rewrite loadObject_saveArray_checkins.
  - unfold loadArray, isBrowser, localStorage_getItem. rewrite Hw, Hg, Hls.
    by destruct (window w), (setItem_throws w (key_name PROFILE_KEY)).
  - unfold loadArray, isBrowser, localStorage_getItem. rewrite Hw, Hg, Hls.
    by destruct (window w), (setItem_throws w (key_name PROFILE_KEY)).
Qed.

(** X3: the profile has a single slot.  Once a profile is saved in a
    store that accepts the write, [loadKennelProfile] gives
    [DEFAULT_PROFILE] for every other kennel id, whatever profile was stored
    before; and a save that the store refuses leaves every kennel's profile
    as it was. *)
Theorem saveKennelProfile_single_slot (profile : KennelProfile) (kennelId_ : string)
    (w : World) :
  (storage_ok w -> kennelId_ <> p_id profile ->
   loadKennelProfile kennelId_ (saveKennelProfile profile w).2 = DEFAULT_PROFILE)
  /\ (window w = true -> setItem_throws w (key_name PROFILE_KEY) = true ->
      loadKennelProfile kennelId_ (saveKennelProfile profile w).2
      = loadKennelProfile kennelId_ w).
Proof.
  split.
  - intros Hok Hne. unfold loadKennelProfile, saveKennelProfile.
    rewrite (loadObject_saveObject_same _ _ _ _ Hok).
    assert (String.eqb (p_id profile) kennelId_ = false) as ->; [|done].
    apply String.eqb_neq. congruence.
  - intros Hw Hs. unfold loadKennelProfile, saveKennelProfile.
    destruct (saveObject_world profile w) as (Hw' & Hg' & _ & Hls).
    assert (loadObject PROFILE_KEY JNull (saveObject PROFILE_KEY profile w).2
            = loadObject PROFILE_KEY JNull w) as ->; [|done].
    unfold loadObject, isBrowser, localStorage_getItem.
    by rewrite Hw', Hg', Hls, Hw, Hs.
Qed.

Lemma saveKennelProfile_single_slot_witness :
  p_name (loadKennelProfile "kennel-7" profileWorld) = "Pension Pote"
  /\ loadKennelProfile "kennel-7" (saveKennelProfile otherProfile profileWorld).2
     = DEFAULT_PROFILE
  /\ loadKennelProfile KENNEL_ID (saveKennelProfile demoProfile quotaWorld).2
     = DEFAULT_PROFILE.
Proof.
  destruct (saveKennelProfile_single_slot otherProfile "kennel-7" profileWorld)
    as [Hother _].
  destruct (saveKennelProfile_single_slot demoProfile KENNEL_ID quotaWorld)
    as [_ Hrefused].
  split_and!.
  - reflexivity.
  - apply Hother; [by split_and! | discriminate].
  - rewrite Hrefused; reflexivity.
Defined.

(** X4: what the two listings return.  A booking is listed exactly when it
    is a stored booking of the tenant (any stored booking for the empty
    tenant id) given the status "pending" if it had none, so every listed
    booking has a status; a stay is listed exactly when it is a stored stay
    of the tenant, unchanged. *)
Theorem listings_of_a_tenant (tenant : string) (w : World) :
  (forall b : BookingRecord,
     b ∈ listBookingsForKennel tenant w
     <-> exists b0, b0 ∈ loadArray BOOKING_KEY w
                    /\ (tenant = "" \/ kennelId b0 = tenant)
                    /\ b = with_status b0 (Some (default "pending" (status b0))))
  /\ (forall b : BookingRecord, b ∈ listBookingsForKennel tenant w -> is_Some (status b))
  /\ (forall c : CheckinRecord,
        c ∈ listCheckinsForKennel tenant w
        <-> c ∈ loadArray CHECKIN_KEY w /\ (tenant = "" \/ kennelId c = tenant)).
Proof.
  assert (forall r : BookingRecord,
            ofKennel tenant r = true <-> tenant = "" \/ kennelId r = tenant) as Htenant.
  { intros r. unfold ofKennel. rewrite orb_true_iff, !String.eqb_eq. done. }
  assert (forall b : BookingRecord,
     b ∈ listBookingsForKennel tenant w
     <-> exists b0, b0 ∈ loadArray BOOKING_KEY w
                    /\ (tenant = "" \/ kennelId b0 = tenant)
                    /\ b = with_status b0 (Some (default "pending" (status b0)))) as Hlist.
  { intros b. unfold listBookingsForKennel.
    rewrite list_elem_of_In, filter_In, in_map_iff. split.
    - intros [(b0 & <- & Hb0) Hof]. exists b0. split_and!.
      + by apply list_elem_of_In.
      + by apply Htenant in Hof.
      + by destruct (status b0).
    - intros (b0 & Hb0 & Hof & ->). split.
      + exists b0. split; [by destruct (status b0)|]. by apply list_elem_of_In.
      + by apply Htenant. }
  split_and!.
  - exact Hlist.
  - intros b (b0 & _ & _ & ->)%Hlist. by eexists.
  - intros c. unfold listCheckinsForKennel.
    rewrite list_elem_of_In, filter_In, <- list_elem_of_In. by rewrite Htenant.
Qed.

Example listBookingsForKennel_legacy_status :
  List.map status (listBookingsForKennel KENNEL_ID legacyWorld)
  = [Some "pending"; Some "precheck"].
Proof. reflexivity. Qed.

Lemma listings_of_a_tenant_witness :
  is_Some (status (with_status (febBooking None None) (Some "pending")))
  /\ with_status (febBooking None None) (Some "pending")
     ∈ listBookingsForKennel KENNEL_ID legacyWorld.
Proof.
  destruct (listings_of_a_tenant KENNEL_ID legacyWorld) as (Hlist & Hstatus & _).
  assert (with_status (febBooking None None) (Some "pending")
          ∈ listBookingsForKennel KENNEL_ID legacyWorld) as Hin.
  { apply Hlist. exists (febBooking None None). split_and!.
    - vm_compute. apply list_elem_of_here.
    - right. reflexivity.
    - reflexivity. }
  split; [by apply Hstatus | exact Hin].
Defined.

(** ** Creating and updating bookings *)

Lemma loadArray_Date_now {T} (key : Key T) (w : World) :
  loadArray key (Date_now w).2 = loadArray key w.
Proof. by apply loadArray_ext. Qed.

Lemma storage_ok_newId (prefix : string) (w : World) :
  storage_ok w -> storage_ok (newId prefix w).2.
Proof. done. Qed.

Lemma storage_ok_Date_now (w : World) : storage_ok w -> storage_ok (Date_now w).2.
Proof. done. Qed.

(** The steps of [createBooking]. *)
Lemma createBooking_steps (kennelId_ : string) (data : BookingData) (w : World) :
  let w1 := (Date_now (newId "b" w).2).2 in
  let record :=
    {| id := (newId "b" w).1;
       kennelId := kennelId_;
       createdAt := JS.toISOString (Date_now (newId "b" w).2).1;
       status := over (d_status data) (Some (JS.nullish (mjoin (d_status data)) "pending"));
       source := over (d_source data) (Some (default internal (mjoin (d_source data))));
       checkIn := Some (d_checkIn data);
       checkOut := Some (d_checkOut data);
       petName := d_petName data;
       petNames := d_petNames data;
       catCount := d_catCount data;
       roomCount := d_roomCount data;
       ownerName := d_ownerName data;
       ownerPhone := d_ownerPhone data;
       ownerEmail := d_ownerEmail data;
       note := d_note data;
       indoorPet := d_indoorPet data;
       food := d_food data;
       medicine := d_medicine data;
       allowSocialMedia := d_allowSocialMedia data |} in
  createBooking kennelId_ data w
  = (record, (saveArray BOOKING_KEY (loadArray BOOKING_KEY w ++ [record]) w1).2).
Proof.
  intros w1 record. subst w1 record.
  cbv beta iota zeta delta
    [createBooking newId Date_now Math_random_slice mbind M_bind mret M_ret gets fst snd].
  by destruct (saveArray BOOKING_KEY _ _).
Qed.

(** X5: [createBooking] returns a record for the given kennel with a newly
    generated "b_" id, status "pending" and source "internal" when [data]
    leaves them out, and the status and source of [data] when it has them
    (even [undefined]).  It never touches the stays, and in a store that
    accepts writes the stored bookings are the old ones followed by the
    record. *)
Theorem createBooking_defaults_and_appends (kennelId_ : string) (data : BookingData)
    (w : World) :
  let result := createBooking kennelId_ data w in
  let record := result.1 in
  kennelId record = kennelId_
  /\ id record = ("b_" ++ JS.toString36 (clock w (ticks w)) ++ "_"
                  ++ String.substring 0 6 (random w (draws w)))%string
  /\ (d_status data = None -> status record = Some "pending")
  /\ (forall s, d_status data = Some s -> status record = s)
  /\ (d_source data = None -> source record = Some internal)
  /\ (forall s, d_source data = Some s -> source record = s)
  /\ loadArray CHECKIN_KEY result.2 = loadArray CHECKIN_KEY w
  /\ (storage_ok w -> loadArray BOOKING_KEY result.2 = loadArray BOOKING_KEY w ++ [record]).
Proof.
  intros result record. subst record result. rewrite createBooking_steps. cbn [fst snd].
  split_and!; try done.
  - by intros ->.
  - by intros s ->.
  - by intros ->.
  - by intros s ->.
  - rewrite loadArray_checkins_saveArray_bookings.
    by rewrite loadArray_Date_now, loadArray_newId.
  - intros Hok. apply loadArray_saveArray_same.
    by apply storage_ok_Date_now, storage_ok_newId.
Qed.

Lemma createBooking_defaults_and_appends_witness :
  status (createBooking KENNEL_ID (demoData None None) emptyWorld).1 = Some "pending"
  /\ source (createBooking KENNEL_ID (demoData None None) emptyWorld).1 = Some internal
  /\ status (createBooking KENNEL_ID (demoData (Some (Some "precheck")) (Some (Some other)))
               emptyWorld).1 = Some "precheck"
  /\ status (createBooking KENNEL_ID (demoData (Some None) None) emptyWorld).1 = None
  /\ loadArray BOOKING_KEY (createBooking KENNEL_ID (demoData None None) emptyWorld).2
     = [(createBooking KENNEL_ID (demoData None None) emptyWorld).1].
Proof.
  pose proof (createBooking_defaults_and_appends KENNEL_ID (demoData None None) emptyWorld)
    as H1.
  pose proof (createBooking_defaults_and_appends KENNEL_ID
                (demoData (Some (Some "precheck")) (Some (Some other))) emptyWorld) as H2.
  pose proof (createBooking_defaults_and_appends KENNEL_ID (demoData (Some None) None)
                emptyWorld) as H3.
  cbv zeta in H1, H2, H3.
  destruct H1 as (_ & _ & Hpending & _ & Hinternal & _ & _ & Hstored).
  destruct H2 as (_ & _ & _ & Hgiven & _).
  destruct H3 as (_ & _ & _ & Hundefined & _).
  split_and!.
  - by apply Hpending.
  - by apply Hinternal.
  - by apply Hgiven.
  - by apply Hundefined.
  - apply Hstored. by split_and!.
Defined.

(** Upserting into a list, as [updateBooking] and [updateCheckin] do. *)
Lemma findIndex_app_new {A} (p : A -> bool) (l : list A) (r : A) :
  findIndex p l = None -> p r = true -> findIndex p (l ++ [r]) = Some (length l).
Proof.
  intros Hnone Hr. apply findIndex_Some. exists r. split_and!; [|done|].
  - by rewrite lookup_app_r, Nat.sub_diag.
  - intros j y Hj Hy. rewrite lookup_app_l in Hy by done.
    apply (proj1 (findIndex_None p l) Hnone). by eapply list_elem_of_lookup_2.
Qed.

Lemma findIndex_alter_same {A} (p : A -> bool) (g : A -> A) (l : list A) (idx : nat) :
  findIndex p l = Some idx -> (forall x, p x = true -> p (g x) = true) ->
  findIndex p (alter g idx l) = Some idx.
Proof.
  intros (x & Hx & Hp & Hfirst)%findIndex_Some Hkeeps.
  apply findIndex_Some. exists (g x). split_and!.
  - by rewrite list_lookup_alter_eq, Hx.
  - by apply Hkeeps.
  - intros j y Hj Hy. rewrite list_lookup_alter_ne in Hy by lia. by apply (Hfirst j).
Qed.

Lemma upsert_twice {A} (p : A -> bool) (g : A -> A) (r : A) (l : list A) :
  p r = true -> (forall x, p x = true -> p (g x) = true) ->
  (forall x, g (g x) = g x) -> g r = r ->
  let upsert l :=
    match findIndex p l with
    | Some idx => alter g idx l
    | None => l ++ [r]
    end in
  upsert (upsert l) = upsert l.
Proof.
  intros Hr Hkeeps Hidem Hfix upsert. unfold upsert.
  destruct (findIndex p l) as [idx|] eqn:Hfind.
  - rewrite (findIndex_alter_same _ _ _ _ Hfind Hkeeps).
    rewrite list_alter_alter_eq. apply list_alter_ext; [|done].
    intros x _. simpl. apply Hidem.
  - rewrite (findIndex_app_new _ _ _ Hfind Hr).
    replace (length l) with (length l + 0)%nat by lia.
    rewrite alter_app_r. simpl. by rewrite Hfix.
Qed.

Lemma over_twice {A} (o : option A) (x : A) : over o (over o x) = over o x.
Proof. by destruct o. Qed.

Lemma over_mjoin {A} (o : option (option A)) : over o (mjoin o) = mjoin o.
Proof. by destruct o. Qed.

Lemma kept_or_set_over {A} (stored : option A) (key : option (option A)) :
  kept_or_set stored key (over key stored).
Proof. by destruct key. Qed.

Lemma spread_booking_twice (x : BookingRecord) (r : BookingObject) :
  spread_booking (spread_booking x r) r = spread_booking x r.
Proof. unfold spread_booking. simpl. by rewrite !over_twice. Qed.

Lemma spread_booking_read (r : BookingObject) :
  spread_booking (read_booking r) r = read_booking r.
Proof. unfold spread_booking, read_booking. simpl. by rewrite !over_mjoin. Qed.

Lemma spread_booking_mergedFrom (x : BookingRecord) (r : BookingObject) :
  mergedFrom x r (spread_booking x r).
Proof.
  unfold mergedFrom, spread_booking. simpl.
  split_and!; try done; apply kept_or_set_over.
Qed.

(** The steps of [updateBooking]. *)
Lemma updateBooking_steps (record : BookingObject) (w : World) :
  updateBooking record w
  = (record,
     (saveArray BOOKING_KEY
        (match findIndex (fun b => String.eqb (id b) (m_id record))
                 (loadArray BOOKING_KEY w) with
         | Some idx => alter (fun x => spread_booking x record) idx (loadArray BOOKING_KEY w)
         | None => loadArray BOOKING_KEY w ++ [read_booking record]
         end) w).2).
Proof.
  unfold updateBooking, gets, mbind, M_bind, mret, M_ret.
  by destruct (saveArray BOOKING_KEY _ w).
Qed.

(** X6: [updateBooking] is an upsert by id that returns its argument.  In
    a store that accepts writes, an object whose id is stored is merged
    into the first stored booking with that id, at the same place and with
    every other booking untouched: id, kennel and creation time are the
    object's, and each other property is the stored one when the object has
    no such key and what the key holds otherwise, so a key holding
    [undefined] erases the stored property.  An object whose id is not
    stored is appended, without its keys holding [undefined].  Either way a
    booking with the object's id is stored afterwards. *)
Theorem updateBooking_upserts (record : BookingObject) (w : World) :
  storage_ok w ->
  let result := updateBooking record w in
  let stored := loadArray BOOKING_KEY w in
  let stored' := loadArray BOOKING_KEY result.2 in
  result.1 = record
  /\ (forall idx x,
        stored !! idx = Some x -> id x = m_id record ->
        (forall j y, (j < idx)%nat -> stored !! j = Some y -> id y <> m_id record) ->
        exists merged,
          stored' = <[idx := merged]> stored /\ mergedFrom x record merged)
  /\ ((forall x, x ∈ stored -> id x <> m_id record) ->
      stored' = stored ++ [read_booking record])
  /\ (exists y, y ∈ stored' /\ id y = m_id record /\ kennelId y = m_kennelId record).
Proof.
  intros Hok result stored stored'. subst result stored'.
  rewrite updateBooking_steps. cbn [fst snd].
  rewrite (loadArray_saveArray_same _ _ _ Hok). fold stored.
  split_and!; [done| | |].
  - intros idx x Hx Hid Hfirst.
    rewrite (findIndex_first _ _ _ x Hx Hid Hfirst).
    exists (spread_booking x record). split; [|apply spread_booking_mergedFrom].
    exact (alter_lookup_insert (fun y => spread_booking y record) _ _ _ Hx).
  - intros Hmiss.
    assert (findIndex (fun b => String.eqb (id b) (m_id record)) stored = None) as ->;
      [|done].
    apply findIndex_None. intros x Hx. apply String.eqb_neq. by apply Hmiss.
  - destruct (findIndex _ stored) as [idx|] eqn:Hfind.
    + apply findIndex_Some in Hfind as (x & Hx & _ & _).
      exists (spread_booking x record). split; [|done].
      apply list_elem_of_lookup. exists idx. by rewrite list_lookup_alter_eq, Hx.
    + exists (read_booking record). split; [|done].
      apply elem_of_app. right. apply list_elem_of_here.
Qed.

Lemma updateBooking_upserts_witness :
  (updateBooking notedBooking allergicWorld).1 = notedBooking
  /\ List.map (fun b => (catCount b, note b))
       (loadArray BOOKING_KEY (updateBooking notedBooking allergicWorld).2)
     = [(Some 3%Z, Some "kommer sent")]
  /\ List.map (fun b => (catCount b, note b))
       (loadArray BOOKING_KEY (updateBooking erasingBooking allergicWorld).2)
     = [(None, None)]
  /\ List.map (fun b => (catCount b, note b))
       (loadArray BOOKING_KEY (updateBooking (changeOf None None) allergicWorld).2)
     = [(Some 4%Z, Some "allergisk")]
  /\ loadArray BOOKING_KEY (updateBooking (objectOf candidate) twoBookingsWorld).2
     = loadArray BOOKING_KEY twoBookingsWorld ++ [candidate].
Proof.
  pose proof (updateBooking_upserts notedBooking allergicWorld) as H1.
  pose proof (updateBooking_upserts erasingBooking allergicWorld) as H2.
  pose proof (updateBooking_upserts (changeOf None None) allergicWorld) as H3.
  pose proof (updateBooking_upserts (objectOf candidate) twoBookingsWorld) as H4.
  cbv zeta in H1, H2, H3, H4.
  destruct H1 as (Hret & Hnoted & _); [by split_and!|].
  destruct H2 as (_ & Herased & _); [by split_and!|].
  destruct H3 as (_ & Hkept & _); [by split_and!|].
  destruct H4 as (_ & _ & Hnew & _); [by split_and!|].
  set (x := read_booking (changeOf (Some (Some 4%Z)) (Some (Some "allergisk")))).
  split_and!.
  - exact Hret.
  - destruct (Hnoted 0%nat x) as (m & -> & Hm);
      [reflexivity | reflexivity | intros j y Hj; lia |].
    destruct Hm as (_ & _ & _ & _ & _ & _ & _ & _ & _ & Hcats & _ & _ & _ & _
                    & Hnote & _).
    cbn in Hcats, Hnote. cbn. by rewrite Hcats, Hnote.
  - destruct (Herased 0%nat x) as (m & -> & Hm);
      [reflexivity | reflexivity | intros j y Hj; lia |].
    destruct Hm as (_ & _ & _ & _ & _ & _ & _ & _ & _ & Hcats & _ & _ & _ & _
                    & Hnote & _).
    cbn in Hcats, Hnote. cbn. by rewrite Hcats, Hnote.
  - destruct (Hkept 0%nat x) as (m & -> & Hm);
      [reflexivity | reflexivity | intros j y Hj; lia |].
    destruct Hm as (_ & _ & _ & _ & _ & _ & _ & _ & _ & Hcats & _ & _ & _ & _
                    & Hnote & _).
    cbn in Hcats, Hnote. cbn. by rewrite Hcats, Hnote.
  - rewrite Hnew; [reflexivity|]. intros y Hy. vm_compute in Hy.
    apply elem_of_cons in Hy as [-> | Hy]; [discriminate|].
    apply list_elem_of_singleton in Hy. subst y. discriminate.
Defined.

Lemma spread_checkin_twice (x : CheckinRecord) (r : CheckinObject) :
  spread_checkin (spread_checkin x r) r = spread_checkin x r.
Proof.
  unfold spread_checkin. cbn [base cageId].
  by rewrite spread_booking_twice, over_twice.
Qed.

Lemma spread_checkin_read (r : CheckinObject) :
  spread_checkin (read_checkin r) r = read_checkin r.
Proof.
  unfold spread_checkin, read_checkin. cbn [base cageId].
  by rewrite spread_booking_read, over_mjoin.
Qed.

(** The steps of [updateCheckin]. *)
Lemma updateCheckin_steps (record : CheckinObject) (w : World) :
  updateCheckin record w
  = (record,
     (saveArray CHECKIN_KEY
        (match findIndex (fun c : CheckinRecord => String.eqb (id c) (m_id record))
                 (loadArray CHECKIN_KEY w) with
         | Some idx => alter (fun x => spread_checkin x record) idx (loadArray CHECKIN_KEY w)
         | None => loadArray CHECKIN_KEY w ++ [read_checkin record]
         end) w).2).
Proof.
  unfold updateCheckin, gets, mbind, M_bind, mret, M_ret.
  by destruct (saveArray CHECKIN_KEY _ w).
Qed.

(** X7: an update applied twice stores what it stores applied once, for
    [updateBooking] and for [updateCheckin], in a store that accepts
    writes and whatever keys of the object hold [undefined]. *)
Theorem updates_are_idempotent (booking : BookingObject) (stay : CheckinObject) (w : World) :
  storage_ok w ->
  loadArray BOOKING_KEY (updateBooking booking (updateBooking booking w).2).2
  = loadArray BOOKING_KEY (updateBooking booking w).2
  /\ loadArray CHECKIN_KEY (updateCheckin stay (updateCheckin stay w).2).2
     = loadArray CHECKIN_KEY (updateCheckin stay w).2.
Proof.
  intros Hok. split.
  - rewrite (updateBooking_steps booking (updateBooking booking w).2).
    rewrite (updateBooking_steps booking w). cbn [snd].
    assert (storage_ok (saveArray BOOKING_KEY
              (match findIndex (fun b => String.eqb (id b) (m_id booking))
                       (loadArray BOOKING_KEY w) with
               | Some idx => alter (fun x => spread_booking x booking) idx
                               (loadArray BOOKING_KEY w)
               | None => loadArray BOOKING_KEY w ++ [read_booking booking]
               end) w).2) as Hok' by (by apply storage_ok_saveArray).
    rewrite (loadArray_saveArray_same _ _ _ Hok'), !(loadArray_saveArray_same _ _ _ Hok).
    apply (upsert_twice (fun b => String.eqb (id b) (m_id booking))
             (fun x => spread_booking x booking) (read_booking booking)).
    + apply String.eqb_refl.
    + intros x _. apply String.eqb_refl.
    + intros x. apply spread_booking_twice.
    + apply spread_booking_read.
  - rewrite (updateCheckin_steps stay (updateCheckin stay w).2).
    rewrite (updateCheckin_steps stay w). cbn [snd].
    assert (storage_ok (saveArray CHECKIN_KEY
              (match findIndex (fun c : CheckinRecord => String.eqb (id c) (m_id stay))
                       (loadArray CHECKIN_KEY w) with
               | Some idx => alter (fun x => spread_checkin x stay) idx
                               (loadArray CHECKIN_KEY w)
               | None => loadArray CHECKIN_KEY w ++ [read_checkin stay]
               end) w).2) as Hok' by (by apply storage_ok_saveArray).
    rewrite (loadArray_saveArray_same _ _ _ Hok'), !(loadArray_saveArray_same _ _ _ Hok).
    apply (upsert_twice (fun c : CheckinRecord => String.eqb (id c) (m_id stay))
             (fun x => spread_checkin x stay) (read_checkin stay)).
    + apply String.eqb_refl.
    + intros x _. apply String.eqb_refl.
    + intros x. apply spread_checkin_twice.
    + apply spread_checkin_read.
Qed.

Lemma updates_are_idempotent_witness :
  loadArray BOOKING_KEY (updateBooking erasingBooking (updateBooking erasingBooking
                                                         allergicWorld).2).2
  = loadArray BOOKING_KEY (updateBooking erasingBooking allergicWorld).2
  /\ loadArray CHECKIN_KEY (updateCheckin stayWithNullCage (updateCheckin stayWithNullCage
                                                              emptyWorld).2).2
     = [read_checkin stayWithNullCage].
Proof.
  destruct (updates_are_idempotent erasingBooking stayWithNullCage allergicWorld)
    as [Hbooking _]; [by split_and!|].
  destruct (updates_are_idempotent erasingBooking stayWithNullCage emptyWorld)
    as [_ Hstay]; [by split_and!|].
  split; [exact Hbooking|]. rewrite Hstay. reflexivity.
Defined.

(** X8: [updateCheckin] is an upsert by id that returns its argument: in a
    store that accepts writes an object whose id is not stored is appended,
    and an object whose id is stored is merged into the first stored stay
    with that id, property by property as [updateBooking] does.  In the
    merge an object without a [cageId] key keeps the stored cage; a key
    holding a cage id or [null] replaces it, and a key holding [undefined]
    leaves the stay with no [cageId]. *)
Theorem updateCheckin_upserts (record : CheckinObject) (w : World) :
  storage_ok w ->
  let result := updateCheckin record w in
  let stored := loadArray CHECKIN_KEY w in
  let stored' := loadArray CHECKIN_KEY result.2 in
  result.1 = record
  /\ ((forall x : CheckinRecord, x ∈ stored -> id x <> m_id record) ->
      stored' = stored ++ [read_checkin record])
  /\ (forall idx (x : CheckinRecord),
        stored !! idx = Some x -> id x = m_id record ->
        (forall j (y : CheckinRecord),
           (j < idx)%nat -> stored !! j = Some y -> id y <> m_id record) ->
        exists merged : CheckinRecord,
          stored' = <[idx := merged]> stored
          /\ mergedFrom x record merged
          /\ (m_cageId record = None -> cageId merged = cageId x)
          /\ (forall c, m_cageId record = Some c -> cageId merged = c)).
Proof.
  intros Hok result stored stored'. subst result stored'.
  rewrite updateCheckin_steps. cbn [fst snd].
  rewrite (loadArray_saveArray_same _ _ _ Hok). fold stored.
  split_and!; [done| |].
  - intros Hmiss.
    assert (findIndex (fun c : CheckinRecord => String.eqb (id c) (m_id record)) stored
            = None) as ->; [|done].
    apply findIndex_None. intros x Hx. apply String.eqb_neq. by apply Hmiss.
  - intros idx x Hx Hid Hfirst.
    assert (findIndex (fun c : CheckinRecord => String.eqb (id c) (m_id record)) stored
            = Some idx) as ->.
    { apply findIndex_Some. exists x. split_and!; [done| |].
      - by apply String.eqb_eq.
      - intros j y Hj Hy. apply String.eqb_neq. by apply (Hfirst j). }
    exists (spread_checkin x record). split_and!.
    + exact (alter_lookup_insert (fun y => spread_checkin y record) _ _ _ Hx).
    + apply spread_booking_mergedFrom.
    + intros Hc. unfold spread_checkin. cbn [cageId]. by rewrite Hc.
    + intros c Hc. unfold spread_checkin. cbn [cageId]. by rewrite Hc.
Qed.

Lemma updateCheckin_upserts_witness :
  List.map cageId (loadArray CHECKIN_KEY (updateCheckin stayWithoutCage cagedWorld).2)
  = [Some (Some "g_2")]
  /\ List.map cageId (loadArray CHECKIN_KEY (updateCheckin stayWithNullCage cagedWorld).2)
     = [Some None]
  /\ List.map cageId
       (loadArray CHECKIN_KEY (updateCheckin stayWithUndefinedCage cagedWorld).2)
     = [None]
  /\ loadArray CHECKIN_KEY (updateCheckin stayWithNullCage emptyWorld).2
     = [read_checkin stayWithNullCage].
Proof.
  pose proof (updateCheckin_upserts stayWithoutCage cagedWorld) as H1.
  pose proof (updateCheckin_upserts stayWithNullCage cagedWorld) as H2.
  pose proof (updateCheckin_upserts stayWithUndefinedCage cagedWorld) as H3.
  pose proof (updateCheckin_upserts stayWithNullCage emptyWorld) as H4.
  cbv zeta in H1, H2, H3, H4.
  destruct H1 as (_ & _ & Hkeep); [by split_and!|].
  destruct H2 as (_ & _ & Hreplace); [by split_and!|].
  destruct H3 as (_ & _ & Herase); [by split_and!|].
  destruct H4 as (_ & Hnew & _); [by split_and!|].
  set (x := {| base := febStay (Some "checked_in"); cageId := Some (Some "g_2") |}).
  split_and!.
  - destruct (Hkeep 0%nat x) as (merged & -> & _ & Hcage & _);
      [reflexivity | reflexivity | intros j y Hj; lia |].
    cbn. by rewrite (Hcage eq_refl).
  - destruct (Hreplace 0%nat x) as (merged & -> & _ & _ & Hcage);
      [reflexivity | reflexivity | intros j y Hj; lia |].
    cbn. by rewrite (Hcage (Some None) eq_refl).
  - destruct (Herase 0%nat x) as (merged & -> & _ & _ & Hcage);
      [reflexivity | reflexivity | intros j y Hj; lia |].
    cbn. by rewrite (Hcage None eq_refl).
  - rewrite Hnew; [reflexivity|]. intros y Hy. vm_compute in Hy.
    by apply elem_of_nil in Hy.
Defined.

(** ** Status changes and the count of a day *)

Lemma getCapacityForRange_ext (Date_parse : string -> option Z) (LocalTZA : Z -> bool -> Z)
    (tenant startIso endIso : string) (w w' : World) :
  (forall day, countOn tenant w' day = countOn tenant w day) ->
  getCapacityForRange Date_parse LocalTZA tenant startIso endIso w'
  = getCapacityForRange Date_parse LocalTZA tenant startIso endIso w.
Proof.
  intros Hsame. unfold getCapacityForRange. apply map_ext. intros day.
  unfold capacityDay. fold (countOn tenant w' day) (countOn tenant w day).
  by rewrite Hsame.
Qed.

Lemma loadArray_checkins_setBookingStatus (id_ status_ : string) (w : World) :
  loadArray CHECKIN_KEY (setBookingStatus id_ status_ w).2 = loadArray CHECKIN_KEY w.
Proof.
  destruct (findIndex (fun b => String.eqb (id b) id_) (loadArray BOOKING_KEY w))
    as [idx|] eqn:Hfind.
  - rewrite (setBookingStatus_found _ _ _ _ Hfind). cbn [snd].
    apply loadArray_checkins_saveArray_bookings.
  - unfold setBookingStatus, gets, mbind, M_bind. by rewrite Hfind.
Qed.

Lemma setBookingStatus_stored (id_ status_ : string) (idx : nat) (w : World) :
  storage_ok w ->
  findIndex (fun b => String.eqb (id b) id_) (loadArray BOOKING_KEY w) = Some idx ->
  loadArray BOOKING_KEY (setBookingStatus id_ status_ w).2
  = alter (fun b => with_status b (Some status_)) idx (loadArray BOOKING_KEY w).
Proof.
  intros Hok Hfind. rewrite (setBookingStatus_found _ _ _ _ Hfind). cbn [snd].
  by apply loadArray_saveArray_same.
Qed.

(** The count of a day after the status of the booking at [idx] is set. *)
Lemma countOn_setBookingStatus (status_ : string) (idx : nat) (b : BookingRecord)
    (tenant day : string) (w : World) :
  storage_ok w ->
  loadArray BOOKING_KEY w !! idx = Some b ->
  (forall j b', (j < idx)%nat -> loadArray BOOKING_KEY w !! j = Some b' -> id b' <> id b) ->
  countOn tenant (setBookingStatus (id b) status_ w).2 day
  = (countOn tenant w day
     - (if hasStatus b "precheck" then contribution tenant b day else 0)
     + (if String.eqb status_ "precheck" then contribution tenant b day else 0))%Z.
Proof.
  intros Hok Hb Hfirst.
  assert (findIndex (fun x => String.eqb (id x) (id b)) (loadArray BOOKING_KEY w) = Some idx)
    as Hfind by (by apply (findIndex_first _ _ _ b)).
  rewrite !countOn_sums, loadArray_checkins_setBookingStatus.
  rewrite (setBookingStatus_stored _ _ _ _ Hok Hfind).
  rewrite (bookingsSum_with_status _ _ _ _ _ _ Hb), (bookingsSum_lookup _ _ _ _ day Hb).
  lia.
Qed.

(** X9: when the id is stored, [setBookingStatus] returns the first stored
    booking with that id with only its status changed, whether or not the
    store accepts the write.  Where it does, that booking is replaced in
    place, the ids of the stored bookings and the stays are as before;
    where the write is refused the stored bookings are as before although
    the updated record is returned. *)
Theorem setBookingStatus_changes_only_status (status_ : string) (idx : nat)
    (b : BookingRecord) (w : World) :
  loadArray BOOKING_KEY w !! idx = Some b ->
  (forall j b', (j < idx)%nat -> loadArray BOOKING_KEY w !! j = Some b' -> id b' <> id b) ->
  let result := setBookingStatus (id b) status_ w in
  result.1 = Some (with_status b (Some status_))
  /\ loadArray CHECKIN_KEY result.2 = loadArray CHECKIN_KEY w
  /\ ((forall k, setItem_throws w k = false) ->
      loadArray BOOKING_KEY result.2
      = <[idx := with_status b (Some status_)]> (loadArray BOOKING_KEY w)
      /\ List.map id (loadArray BOOKING_KEY result.2) = List.map id (loadArray BOOKING_KEY w))
  /\ (setItem_throws w (key_name BOOKING_KEY) = true ->
      loadArray BOOKING_KEY result.2 = loadArray BOOKING_KEY w).
Proof.
  intros Hb Hfirst result.
  assert (window w = true /\ getItem_throws w = false) as [Hw Hg].
  { apply (loadArray_nonempty_readable BOOKING_KEY w b).
    apply list_elem_of_lookup. by exists idx. }
  assert (findIndex (fun x => String.eqb (id x) (id b)) (loadArray BOOKING_KEY w) = Some idx)
    as Hfind by (by apply (findIndex_first _ _ _ b)).
  subst result. split_and!.
  - rewrite (setBookingStatus_found _ _ _ _ Hfind). cbn [fst].
    by rewrite list_lookup_alter_eq, Hb.
  - apply loadArray_checkins_setBookingStatus.
  - intros Hs. assert (storage_ok w) as Hok by (by split_and!).
    rewrite (setBookingStatus_stored _ _ _ _ Hok Hfind).
    rewrite (alter_lookup_insert _ _ _ _ Hb). split; [done|].
    apply list_eq. intros j. rewrite !list_lookup_fmap.
    destruct (decide (j = idx)) as [->|Hne].
    + rewrite list_lookup_insert_eq by (by eapply lookup_lt_Some). by rewrite Hb.
    + by rewrite list_lookup_insert_ne.
  - intros Hs. rewrite (setBookingStatus_found _ _ _ _ Hfind). cbn [snd].
    by rewrite loadArray_saveArray_cases, Hw, Hg, Hs.
Qed.

Lemma setBookingStatus_changes_only_status_witness :
  (setBookingStatus "b_1" "archived" quotaWorld).1
  = Some (febBooking (Some "archived") None)
  /\ loadArray BOOKING_KEY (setBookingStatus "b_1" "archived" quotaWorld).2
     = [febBooking (Some "pending") None]
  /\ loadArray BOOKING_KEY (setBookingStatus "b_1" "archived" oneRecordWorld).2
     = [febBooking (Some "archived") None].
Proof.
  pose proof (setBookingStatus_changes_only_status "archived" 0
                (febBooking (Some "pending") None) quotaWorld) as H1.
  pose proof (setBookingStatus_changes_only_status "archived" 0
                (febBooking (Some "pending") None) oneRecordWorld) as H2.
  cbv zeta in H1, H2.
  change (id (febBooking (Some "pending") None)) with "b_1" in H1, H2.
  destruct H1 as (Hret & _ & _ & Hrefused); [reflexivity | intros j y Hj; lia |].
  destruct H2 as (_ & _ & Haccepted & _); [reflexivity | intros j y Hj; lia |].
  split_and!.
  - exact Hret.
  - rewrite Hrefused; reflexivity.
  - destruct Haccepted as [-> _]; reflexivity.
Defined.

(** X10: accepting a stored booking that was not yet in status "precheck"
    raises the count of a day by the booking's pet count exactly on the days
    of its [checkIn, checkOut) that the tenant sees, and leaves every other
    day as it was. *)
Theorem acceptBooking_adds_its_nights (idx : nat) (b : BookingRecord)
    (tenant day : string) (w : World) :
  storage_ok w ->
  loadArray BOOKING_KEY w !! idx = Some b ->
  (forall j b', (j < idx)%nat -> loadArray BOOKING_KEY w !! j = Some b' -> id b' <> id b) ->
  hasStatus b "precheck" = false ->
  countOn tenant (acceptBooking (id b) w).2 day
  = (countOn tenant w day + contribution tenant b day)%Z.
Proof.
  intros Hok Hb Hfirst Hstatus. unfold acceptBooking.
  rewrite (countOn_setBookingStatus _ _ _ _ _ _ Hok Hb Hfirst), Hstatus. simpl. lia.
Qed.

Lemma acceptBooking_adds_its_nights_witness :
  countOn KENNEL_ID (acceptBooking "b_1" twoBookingsWorld).2 "2024-02-02"
  = (countOn KENNEL_ID twoBookingsWorld "2024-02-02" + 1)%Z
  /\ countOn KENNEL_ID (acceptBooking "b_1" twoBookingsWorld).2 "2024-02-03"
     = countOn KENNEL_ID twoBookingsWorld "2024-02-03".
Proof.
  pose proof (acceptBooking_adds_its_nights 0 (febBooking (Some "pending") None) KENNEL_ID
                "2024-02-02" twoBookingsWorld) as H1.
  pose proof (acceptBooking_adds_its_nights 0 (febBooking (Some "pending") None) KENNEL_ID
                "2024-02-03" twoBookingsWorld) as H2.
  change (id (febBooking (Some "pending") None)) with "b_1" in H1, H2.
  split.
  - rewrite H1; [reflexivity | by split_and! | reflexivity | intros j y Hj; lia | reflexivity].
  - rewrite H2; [reflexivity | by split_and! | reflexivity | intros j y Hj; lia | reflexivity].
Defined.

(** X11: cancelling a stored booking takes what it counted out of every
    day: the count of a day falls by its contribution when it was in status
    "precheck" and is unchanged otherwise; afterwards the collection counts
    as if the booking were not stored. *)
Theorem cancelBooking_frees_its_nights (idx : nat) (b : BookingRecord)
    (tenant day : string) (w : World) :
  storage_ok w ->
  loadArray BOOKING_KEY w !! idx = Some b ->
  (forall j b', (j < idx)%nat -> loadArray BOOKING_KEY w !! j = Some b' -> id b' <> id b) ->
  countOn tenant (cancelBooking (id b) w).2 day
  = (countOn tenant w day
     - if hasStatus b "precheck" then contribution tenant b day else 0)%Z
  /\ bookingsSum tenant (loadArray BOOKING_KEY (cancelBooking (id b) w).2) day
     = bookingsSum tenant (delete idx (loadArray BOOKING_KEY w)) day.
Proof.
  intros Hok Hb Hfirst. unfold cancelBooking. split.
  - rewrite (countOn_setBookingStatus _ _ _ _ _ _ Hok Hb Hfirst). simpl. lia.
  - assert (findIndex (fun x => String.eqb (id x) (id b)) (loadArray BOOKING_KEY w)
            = Some idx) as Hfind by (by apply (findIndex_first _ _ _ b)).
    rewrite (setBookingStatus_stored _ _ _ _ Hok Hfind).
    rewrite (bookingsSum_with_status _ _ _ _ _ _ Hb). simpl. lia.
Qed.

Lemma cancelBooking_frees_its_nights_witness :
  countOn KENNEL_ID fourCatsWorld "2024-02-01" = 4%Z
  /\ countOn KENNEL_ID (cancelBooking "b_1" fourCatsWorld).2 "2024-02-01" = 0%Z.
Proof.
  pose proof (cancelBooking_frees_its_nights 0 (febBooking (Some "precheck") (Some 4%Z))
                KENNEL_ID "2024-02-01" fourCatsWorld) as H.
  change (id (febBooking (Some "precheck") (Some 4%Z))) with "b_1" in H.
  destruct H as [Hcount _]; [by split_and! | reflexivity | intros j y Hj; lia |].
  split; [reflexivity|]. rewrite Hcount. reflexivity.
Defined.

(** ** Stays: check-out, cage assignment and conversion *)

Lemma loadArray_saveArray_either {T} (key : Key T) (value : list T) (w : World) :
  loadArray key (saveArray key value w).2 = value
  \/ loadArray key (saveArray key value w).2 = loadArray key w.
Proof.
  rewrite loadArray_saveArray_cases.
  destruct (window w) eqn:Hw, (getItem_throws w) eqn:Hg; simpl.
  - right. unfold loadArray, isBrowser, localStorage_getItem. by rewrite Hw, Hg.
  - destruct (setItem_throws w (key_name key)); auto.
  - right. unfold loadArray, isBrowser. by rewrite Hw.
  - right. unfold loadArray, isBrowser. by rewrite Hw.
Qed.

Lemma findIndex_first_stay (id_ : string) (all : list CheckinRecord) (idx : nat)
    (c : CheckinRecord) :
  all !! idx = Some c -> id c = id_ ->
  (forall j (c' : CheckinRecord), (j < idx)%nat -> all !! j = Some c' -> id c' <> id_) ->
  findIndex (fun c : CheckinRecord => String.eqb (id c) id_) all = Some idx.
Proof.
  intros Hc Hid Hfirst. apply findIndex_Some. exists c. split_and!; [done| |].
  - by apply String.eqb_eq.
  - intros j y Hj Hy. apply String.eqb_neq. by apply (Hfirst j).
Qed.

(** The steps of [checkOutCheckin] and [assignCageToCheckin] when the id is
    found at [idx]. *)
Lemma checkOutCheckin_found (id_ : string) (idx : nat) (w : World) :
  findIndex (fun c : CheckinRecord => String.eqb (id c) id_) (loadArray CHECKIN_KEY w)
  = Some idx ->
  (checkOutCheckin id_ w).2
  = (saveArray CHECKIN_KEY
       (alter (fun c : CheckinRecord =>
                 {| base := with_status c (Some "checked_out"); cageId := cageId c |})
          idx (loadArray CHECKIN_KEY w)) w).2.
Proof.
  intros Hfind. unfold checkOutCheckin, gets, mbind, M_bind. by rewrite Hfind.
Qed.

Lemma assignCageToCheckin_found (checkinId : string) (cageId_ : option string) (idx : nat)
    (w : World) :
  findIndex (fun c : CheckinRecord => String.eqb (id c) checkinId) (loadArray CHECKIN_KEY w)
  = Some idx ->
  let all :=
    alter (fun c : CheckinRecord => {| base := base c; cageId := Some cageId_ |})
      idx (loadArray CHECKIN_KEY w) in
  assignCageToCheckin checkinId cageId_ w = (all !! idx, (saveArray CHECKIN_KEY all w).2).
Proof.
  intros Hfind. unfold assignCageToCheckin, gets, mbind, M_bind, mret, M_ret.
  rewrite Hfind. by destruct (saveArray CHECKIN_KEY _ w).
Qed.

(** X12: checking out a stored stay sets the status of the first stay with
    that id to "checked_out" and leaves its cage and the bookings as they
    were; from then on the stay counts on no day: the count of a day falls
    by what the stay added to it. *)
Theorem checkOutCheckin_frees_its_nights (idx : nat) (c : CheckinRecord)
    (tenant day : string) (w : World) :
  storage_ok w ->
  loadArray CHECKIN_KEY w !! idx = Some c ->
  (forall j (c' : CheckinRecord),
     (j < idx)%nat -> loadArray CHECKIN_KEY w !! j = Some c' -> id c' <> id c) ->
  let w' := (checkOutCheckin (id c) w).2 in
  loadArray CHECKIN_KEY w'
  = <[idx := {| base := with_status c (Some "checked_out"); cageId := cageId c |}]>
      (loadArray CHECKIN_KEY w)
  /\ loadArray BOOKING_KEY w' = loadArray BOOKING_KEY w
  /\ staysSum tenant (loadArray CHECKIN_KEY w') day
     = staysSum tenant (delete idx (loadArray CHECKIN_KEY w)) day
  /\ countOn tenant w' day
     = (countOn tenant w day
        - if isCheckedOut (status c) then 0 else contribution tenant c day)%Z.
Proof.
  intros Hok Hc Hfirst w'.
  assert (findIndex (fun x : CheckinRecord => String.eqb (id x) (id c))
            (loadArray CHECKIN_KEY w) = Some idx) as Hfind
    by (by apply (findIndex_first_stay _ _ _ c)).
  assert (loadArray CHECKIN_KEY w'
          = alter (fun c : CheckinRecord =>
                     {| base := with_status c (Some "checked_out"); cageId := cageId c |})
              idx (loadArray CHECKIN_KEY w)) as Hstays.
  { subst w'. rewrite (checkOutCheckin_found _ _ _ Hfind).
    by apply loadArray_saveArray_same. }
  assert (loadArray BOOKING_KEY w' = loadArray BOOKING_KEY w) as Hbookings.
  { subst w'. rewrite (checkOutCheckin_found _ _ _ Hfind).
    apply loadArray_bookings_saveArray_checkins. }
  assert (staysSum tenant (loadArray CHECKIN_KEY w') day
          = staysSum tenant (delete idx (loadArray CHECKIN_KEY w)) day) as Hsum.
  { rewrite Hstays, (staysSum_alter _ _ _ _ _ _ Hc). cbn [base status with_status].
    unfold isCheckedOut, JS.strict_eq. simpl. lia. }
  split_and!.
  - rewrite Hstays.
    exact (alter_lookup_insert
             (fun c : CheckinRecord =>
                {| base := with_status c (Some "checked_out"); cageId := cageId c |})
             _ _ _ Hc).
  - exact Hbookings.
  - exact Hsum.
  - rewrite !countOn_sums, Hbookings, Hsum, (staysSum_lookup _ _ _ _ day Hc). lia.
Qed.

Lemma checkOutCheckin_frees_its_nights_witness :
  countOn KENNEL_ID twoStaysWorld "2024-02-02" = 3%Z
  /\ countOn KENNEL_ID (checkOutCheckin "c_1" twoStaysWorld).2 "2024-02-02" = 1%Z
  /\ List.map (fun c : CheckinRecord => status c)
       (loadArray CHECKIN_KEY (checkOutCheckin "c_1" twoStaysWorld).2)
     = [Some "checked_out"; Some "checked_in"].
Proof.
  pose proof (checkOutCheckin_frees_its_nights 0 (febStay (Some "checked_in")) KENNEL_ID
                "2024-02-02" twoStaysWorld) as H.
  cbv zeta in H. change (id (febStay (Some "checked_in"))) with "c_1" in H.
  destruct H as (Hstays & _ & _ & Hcount);
    [by split_and! | reflexivity | intros j y Hj; lia |].
  split_and!.
  - reflexivity.
  - rewrite Hcount. reflexivity.
  - rewrite Hstays. reflexivity.
Defined.

(** X13: assigning a cage never changes capacity: in every world, stored
    id or not, accepted write or not, [getCapacityForRange] gives the same
    days before and after, and the bookings are untouched.  When the id is
    stored the call returns the first stay with that id with only its
    [cageId] replaced ([null] to empty the cage). *)
Theorem assignCage_keeps_capacity (Date_parse : string -> option Z) (LocalTZA : Z -> bool -> Z)
    (tenant startIso endIso checkinId : string) (cageId_ : option string) (w : World) :
  let result := assignCageToCheckin checkinId cageId_ w in
  getCapacityForRange Date_parse LocalTZA tenant startIso endIso result.2
  = getCapacityForRange Date_parse LocalTZA tenant startIso endIso w
  /\ loadArray BOOKING_KEY result.2 = loadArray BOOKING_KEY w
  /\ (forall idx (c : CheckinRecord),
        loadArray CHECKIN_KEY w !! idx = Some c -> id c = checkinId ->
        (forall j (c' : CheckinRecord),
           (j < idx)%nat -> loadArray CHECKIN_KEY w !! j = Some c' -> id c' <> checkinId) ->
        result.1 = Some {| base := base c; cageId := Some cageId_ |}).
Proof.
  intros result. subst result.
  destruct (findIndex (fun c : CheckinRecord => String.eqb (id c) checkinId)
              (loadArray CHECKIN_KEY w)) as [idx|] eqn:Hfind.
  - rewrite (assignCageToCheckin_found _ _ _ _ Hfind). cbn [fst snd].
    assert (loadArray BOOKING_KEY
              (saveArray CHECKIN_KEY
                 (alter (fun c : CheckinRecord => {| base := base c; cageId := Some cageId_ |})
                    idx (loadArray CHECKIN_KEY w)) w).2
            = loadArray BOOKING_KEY w) as Hbookings
      by apply loadArray_bookings_saveArray_checkins.
    split_and!.
    + apply getCapacityForRange_ext. intros day.
      rewrite !countOn_sums, Hbookings. f_equal.
      destruct (loadArray_saveArray_either CHECKIN_KEY
                  (alter (fun c : CheckinRecord =>
                            {| base := base c; cageId := Some cageId_ |})
                     idx (loadArray CHECKIN_KEY w)) w) as [-> | ->]; [|done].
      apply findIndex_Some in Hfind as (c & Hc & _ & _).
      by rewrite (staysSum_alter _ _ _ _ _ _ Hc), (staysSum_lookup _ _ _ _ day Hc).
    + exact Hbookings.
    + intros idx' c Hc Hid Hfirst.
      rewrite (findIndex_first_stay _ _ _ c Hc Hid Hfirst) in Hfind.
      injection Hfind as <-. by rewrite list_lookup_alter_eq, Hc.
  - assert (assignCageToCheckin checkinId cageId_ w = (None, w)) as ->.
    { unfold assignCageToCheckin, gets, mbind, M_bind. by rewrite Hfind. }
    split_and!; [done | done |].
    intros idx c Hc Hid Hfirst.
    by rewrite (findIndex_first_stay _ _ _ c Hc Hid Hfirst) in Hfind.
Qed.

Lemma assignCage_keeps_capacity_witness :
  (assignCageToCheckin "c_2" None twoStaysWorld).1
  = Some (demoStay "c_2" (Some "checked_in") "2024-02-01" "2024-02-03" None)
  /\ (assignCageToCheckin "c_2" (Some "g_4") twoStaysWorld).1
     = Some {| base := demoBooking "c_2" (Some "checked_in") "2024-02-01" "2024-02-03" None;
               cageId := Some (Some "g_4") |}.
Proof.
  destruct (assignCage_keeps_capacity JS.parse_date_only JS.Europe_Copenhagen
      KENNEL_ID "2024-02-01" "2024-02-03"
              "c_2" None twoStaysWorld) as (_ & _ & Hnull).
  destruct (assignCage_keeps_capacity JS.parse_date_only JS.Europe_Copenhagen
      KENNEL_ID "2024-02-01" "2024-02-03"
              "c_2" (Some "g_4") twoStaysWorld) as (_ & _ & Hcage).
  split.
  - apply (Hnull 1%nat (demoStay "c_2" (Some "checked_in") "2024-02-01" "2024-02-03" None));
      [reflexivity | reflexivity |].
    intros j c' Hj Hc'. destruct j as [|j]; [|lia].
    vm_compute in Hc'. injection Hc' as <-. discriminate.
  - apply (Hcage 1%nat (demoStay "c_2" (Some "checked_in") "2024-02-01" "2024-02-03" None));
      [reflexivity | reflexivity |].
    intros j c' Hj Hc'. destruct j as [|j]; [|lia].
    vm_compute in Hc'. injection Hc' as <-. discriminate.
Defined.

Lemma createCheckinFromBooking_stored_stays (booking : BookingRecord)
    (overrides : PartialCheckin) (w : World) :
  storage_ok w ->
  loadArray CHECKIN_KEY (createCheckinFromBooking booking overrides w).2
  = loadArray CHECKIN_KEY w ++ [(createCheckinFromBooking booking overrides w).1].
Proof.
  intros Hok. rewrite createCheckinFromBooking_steps. cbn [fst snd].
  rewrite loadArray_checkins_setBookingStatus.
  apply loadArray_saveArray_same. by apply storage_ok_newId.
Qed.

Lemma createCheckinFromBooking_unknown_booking (booking : BookingRecord)
    (overrides : PartialCheckin) (w : World) :
  (forall x, x ∈ loadArray BOOKING_KEY w -> id x <> id booking) ->
  loadArray BOOKING_KEY (createCheckinFromBooking booking overrides w).2
  = loadArray BOOKING_KEY w.
Proof.
  intros Hmiss. rewrite createCheckinFromBooking_steps. cbn [snd].
  set (w1 := (saveArray CHECKIN_KEY _ (newId "c" w).2).2).
  assert (loadArray BOOKING_KEY w1 = loadArray BOOKING_KEY w) as Hsame.
  { subst w1. by rewrite loadArray_bookings_saveArray_checkins, loadArray_newId. }
  assert (setBookingStatus (id booking) "converted" w1 = (None, w1)) as ->; [|done].
  unfold setBookingStatus, gets, mbind, M_bind. rewrite Hsame.
  assert (findIndex (fun b => String.eqb (id b) (id booking)) (loadArray BOOKING_KEY w)
          = None) as ->; [|done].
  apply findIndex_None. intros x Hx. apply String.eqb_neq. by apply Hmiss.
Qed.

(** What the stay made from a booking adds to a day: what the booking
    would add. *)
Lemma converted_stay_counts (booking : BookingRecord) (w : World) (tenant day : string) :
  let record := (createCheckinFromBooking booking no_overrides w).1 in
  (if isCheckedOut (status record) then 0%Z else contribution tenant record day)
  = contribution tenant booking day.
Proof. intros record. subst record. by rewrite createCheckinFromBooking_steps. Qed.

(** The count of a day after the conversion of the booking at [idx]. *)
Lemma countOn_createCheckinFromBooking (idx : nat) (b : BookingRecord) (tenant day : string)
    (w : World) :
  storage_ok w ->
  loadArray BOOKING_KEY w !! idx = Some b ->
  (forall j b', (j < idx)%nat -> loadArray BOOKING_KEY w !! j = Some b' -> id b' <> id b) ->
  countOn tenant (createCheckinFromBooking b no_overrides w).2 day
  = (countOn tenant w day
     + if hasStatus b "precheck" then 0 else contribution tenant b day)%Z.
Proof.
  intros Hok Hb Hfirst.
  assert (findIndex (fun x => String.eqb (id x) (id b)) (loadArray BOOKING_KEY w) = Some idx)
    as Hfind by (by apply (findIndex_first _ _ _ b)).
  rewrite !countOn_sums.
  rewrite (createCheckinFromBooking_stored_stays _ _ _ Hok).
  rewrite (createCheckinFromBooking_stored_bookings _ _ _ _ Hok Hfind).
  rewrite staysSum_snoc, (converted_stay_counts b w tenant day).
  rewrite (bookingsSum_with_status _ _ _ _ _ _ Hb), (bookingsSum_lookup _ _ _ _ day Hb).
  simpl. destruct (hasStatus b "precheck"); lia.
Qed.



(** X15: [createCheckinFromBooking] does not ask that the booking be
    stored.  For a booking whose id no stored booking carries it still
    appends the new stay, leaves the stored bookings as they are, and the
    count of each of the booking's nights rises by its pet count. *)
Theorem conversion_of_unknown_booking (booking : BookingRecord) (tenant day : string)
    (w : World) :
  storage_ok w ->
  (forall x, x ∈ loadArray BOOKING_KEY w -> id x <> id booking) ->
  let result := createCheckinFromBooking booking no_overrides w in
  loadArray CHECKIN_KEY result.2 = loadArray CHECKIN_KEY w ++ [result.1]
  /\ loadArray BOOKING_KEY result.2 = loadArray BOOKING_KEY w
  /\ countOn tenant result.2 day = (countOn tenant w day + contribution tenant booking day)%Z.
Proof.
  intros Hok Hmiss result. subst result.
  split_and!.
  - by apply createCheckinFromBooking_stored_stays.
  - by apply createCheckinFromBooking_unknown_booking.
  - rewrite !countOn_sums.
    rewrite (createCheckinFromBooking_stored_stays _ _ _ Hok).
    rewrite (createCheckinFromBooking_unknown_booking _ _ _ Hmiss).
    rewrite staysSum_snoc, (converted_stay_counts booking w tenant day). lia.
Qed.

Lemma conversion_of_unknown_booking_witness :
  loadArray BOOKING_KEY (createCheckinFromBooking walkIn no_overrides fourCatsWorld).2
  = loadArray BOOKING_KEY fourCatsWorld
  /\ countOn KENNEL_ID (createCheckinFromBooking walkIn no_overrides fourCatsWorld).2
       "2024-02-02" = 6%Z.
Proof.
  pose proof (conversion_of_unknown_booking walkIn KENNEL_ID "2024-02-02" fourCatsWorld) as H.
  cbv zeta in H.
  destruct H as (_ & Hbookings & Hcount).
  - by split_and!.
  - intros x Hx. vm_compute in Hx. apply list_elem_of_singleton in Hx. subst x. discriminate.
  - split; [exact Hbookings|]. rewrite Hcount. reflexivity.
Defined.

(** ** New bookings and capacity *)

(** The steps of [createBookingRequest]. *)
Lemma createBookingRequest_steps (Number : string -> option Z)
    (payload : OwnerBookingRequestPayload) (kennelId_ : option string) (w : World) :
  let result := createBookingRequest Number payload kennelId_ w in
  result.2
  = (saveArray BOOKING_KEY (loadArray BOOKING_KEY w ++ [result.1])
       (Date_now (newId "b" w).2).2).2
  /\ status result.1 = Some "pending".
Proof.
  intros result. subst result.
  cbv beta iota zeta delta
    [createBookingRequest newId Date_now Math_random_slice mbind M_bind mret M_ret gets].
  match goal with
  | |- context [let '(_, _) := ?s in _] => destruct s as [u w2] eqn:Hsave
  end.
  cbn [fst snd]. by rewrite Hsave.
Qed.

Lemma countOn_after_append (tenant day : string) (b : BookingRecord) (w0 w w' : World) :
  loadArray BOOKING_KEY w0 = loadArray BOOKING_KEY w ->
  loadArray CHECKIN_KEY w0 = loadArray CHECKIN_KEY w ->
  w' = (saveArray BOOKING_KEY (loadArray BOOKING_KEY w ++ [b]) w0).2 ->
  hasStatus b "precheck" = false ->
  countOn tenant w' day = countOn tenant w day.
Proof.
  intros Hb Hc -> Hstatus. rewrite !countOn_sums.
  rewrite loadArray_checkins_saveArray_bookings, Hc. f_equal.
  destruct (loadArray_saveArray_either BOOKING_KEY (loadArray BOOKING_KEY w ++ [b]) w0)
    as [-> | ->].
  - rewrite bookingsSum_snoc, Hstatus. lia.
  - by rewrite Hb.
Qed.

(** X16: a new request does not count.  In every world
    [createBookingRequest] leaves [getCapacityForRange] as it was for every
    tenant and range, since the request is "pending"; so does
    [createBooking] unless its data asks for status "precheck". *)
Theorem new_requests_do_not_count (Number Date_parse : string -> option Z)
    (LocalTZA : Z -> bool -> Z)
    (payload : OwnerBookingRequestPayload) (data : BookingData) (kennelId_ : option string)
    (kennel tenant startIso endIso : string) (w : World) :
  getCapacityForRange Date_parse LocalTZA tenant startIso endIso
    (createBookingRequest Number payload kennelId_ w).2
  = getCapacityForRange Date_parse LocalTZA tenant startIso endIso w
  /\ (d_status data <> Some (Some "precheck") ->
      getCapacityForRange Date_parse LocalTZA tenant startIso endIso (createBooking kennel data w).2
      = getCapacityForRange Date_parse LocalTZA tenant startIso endIso w).
Proof.
  split.
  - apply getCapacityForRange_ext. intros day.
    destruct (createBookingRequest_steps Number payload kennelId_ w) as [Hw Hstatus].
    apply (countOn_after_append tenant day
             (createBookingRequest Number payload kennelId_ w).1
             (Date_now (newId "b" w).2).2 w _).
    + by rewrite loadArray_Date_now, loadArray_newId.
    + by rewrite loadArray_Date_now, loadArray_newId.
    + exact Hw.
    + unfold hasStatus. by rewrite Hstatus.
  - intros Hdata. apply getCapacityForRange_ext. intros day.
    apply (countOn_after_append tenant day (createBooking kennel data w).1
             (Date_now (newId "b" w).2).2 w _).
    + by rewrite loadArray_Date_now, loadArray_newId.
    + by rewrite loadArray_Date_now, loadArray_newId.
    + by rewrite createBooking_steps.
    + rewrite createBooking_steps. cbn [fst]. unfold hasStatus. cbn [status].
      destruct (d_status data) as [[s|]|]; simpl; try done.
      apply String.eqb_neq. congruence.
Qed.

Lemma new_requests_do_not_count_witness :
  getCapacityForRange JS.parse_date_only JS.Europe_Copenhagen KENNEL_ID "2024-02-01" "2024-02-03"
    (createBooking KENNEL_ID (demoData None None) fourCatsWorld).2
  = getCapacityForRange JS.parse_date_only JS.Europe_Copenhagen
      KENNEL_ID "2024-02-01" "2024-02-03" fourCatsWorld.
Proof.
  destruct (new_requests_do_not_count Number_integer JS.parse_date_only JS.Europe_Copenhagen
      (demoPayload "2" "1")
              (demoData None None) None KENNEL_ID KENNEL_ID "2024-02-01" "2024-02-03"
              fourCatsWorld) as [_ Hinternal].
  apply Hinternal. discriminate.
Defined.

Example createBooking_as_precheck_counts :
  countOn KENNEL_ID
    (createBooking KENNEL_ID (demoData (Some (Some "precheck")) None) fourCatsWorld).2
    "2024-02-01" = 6%Z.
Proof. reflexivity. Qed.

(** ** Cages *)

Lemma loadCages_saveCages (value : list KennelCage) (cw : CageWorld) :
  storage_ok (host cw) -> loadCages (saveCages value cw) = value.
Proof.
  intros (Hw & Hg & Hs). unfold saveCages, loadCages, loadArray_text, isBrowser.
  rewrite Hw, Hs. cbn [negb host cages_v1]. by rewrite Hw, Hg.
Qed.

Lemma host_saveCages (value : list KennelCage) (cw : CageWorld) :
  host (saveCages value cw) = host cw.
Proof.
  unfold saveCages.
  by destruct (negb (isBrowser (host cw))), (setItem_throws (host cw) CAGE_KEY_name).
Qed.

(** [loadCages] is [loadArray] on the text under the cage key. *)
Lemma loadArray_is_loadArray_text {T} (key : Key T) (w : World) :
  loadArray key w = loadArray_text w (getItem key (localStorage w)).
Proof. reflexivity. Qed.

Lemma filter_filter {A} (P Q : A -> bool) (l : list A) :
  List.filter P (List.filter Q l) = List.filter (fun x => Q x && P x) l.
Proof.
  induction l as [|x l IH]; simpl; [done|].
  destruct (Q x); simpl; [|done]. destruct (P x); by rewrite IH.
Qed.

Lemma filter_delete_rejected {A} (P : A -> bool) (l : list A) (idx : nat) (x : A) :
  l !! idx = Some x -> P x = false -> List.filter P (delete idx l) = List.filter P l.
Proof.
  revert idx. induction l as [|y l IH]; intros [|idx] Hx Hp; try done.
  - injection Hx as ->. change (delete 0 (x :: l)) with l. simpl. by rewrite Hp.
  - change (delete (S idx) (y :: l)) with (y :: delete idx l). simpl.
    by rewrite (IH idx Hx Hp).
Qed.

(** X17: [deleteCage] removes from a kennel's list exactly the cages with
    the given id and leaves the list of every other kennel as it was, also
    when another kennel has a cage with the same id; deleting an id the
    kennel does not have changes nothing. *)
Theorem deleteCage_removes_only_that_cage (kennelId_ cageId_ : string) (cw : CageWorld) :
  storage_ok (host cw) ->
  listCagesForKennel kennelId_ (deleteCage kennelId_ cageId_ cw)
  = List.filter (fun c => negb (String.eqb (g_id c) cageId_)) (listCagesForKennel kennelId_ cw)
  /\ (forall other, other <> kennelId_ ->
        listCagesForKennel other (deleteCage kennelId_ cageId_ cw)
        = listCagesForKennel other cw)
  /\ ((forall c, c ∈ listCagesForKennel kennelId_ cw -> g_id c <> cageId_) ->
      loadCages (deleteCage kennelId_ cageId_ cw) = loadCages cw).
Proof.
  intros Hok. unfold listCagesForKennel, deleteCage.
  rewrite (loadCages_saveCages _ _ Hok). split_and!.
  - rewrite !filter_filter. apply filter_ext. intros c.
    by destruct (String.eqb (g_kennelId c) kennelId_), (String.eqb (g_id c) cageId_).
  - intros other Hother. rewrite filter_filter. apply filter_ext. intros c.
    destruct (String.eqb_spec (g_kennelId c) other) as [->|Hne];
      [|by rewrite andb_false_r].
    apply String.eqb_neq in Hother as ->. done.
  - intros Hmiss. induction (loadCages cw) as [|c l IH]; [done|]. simpl in *.
    destruct (String.eqb_spec (g_kennelId c) kennelId_) as [Hk|Hk]; simpl.
    + assert (g_id c <> cageId_) as Hid by (apply Hmiss; apply list_elem_of_here).
      apply String.eqb_neq in Hid as ->. simpl. f_equal. apply IH.
      intros c' Hc'. apply Hmiss. by apply list_elem_of_further.
    + f_equal. by apply IH.
Qed.

Lemma deleteCage_removes_only_that_cage_witness :
  listCagesForKennel KENNEL_ID (deleteCage KENNEL_ID "g_1" cagesWorld)
  = [demoCage "g_3" KENNEL_ID "Bur 3" None]
  /\ listCagesForKennel "kennel-7" (deleteCage KENNEL_ID "g_2" cagesWorld)
     = [demoCage "g_2" "kennel-7" "Box A" None]
  /\ loadCages (deleteCage KENNEL_ID "g_2" cagesWorld) = loadCages cagesWorld.
Proof.
  destruct (deleteCage_removes_only_that_cage KENNEL_ID "g_1" cagesWorld) as (Hlist & _ & _);
    [by split_and!|].
  destruct (deleteCage_removes_only_that_cage KENNEL_ID "g_2" cagesWorld)
    as (_ & Hother & Hmiss); [by split_and!|].
  split_and!.
  - rewrite Hlist. reflexivity.
  - rewrite Hother; [reflexivity | discriminate].
  - apply Hmiss. intros c Hc. vm_compute in Hc.
    apply elem_of_cons in Hc as [-> | Hc]; [discriminate|].
    apply list_elem_of_singleton in Hc. subst c. discriminate.
Defined.

(** X18: [upsertCage] with an id that no stored cage carries, or with no
    id, appends one cage of the caller's kennel: the given id, or a newly
    generated "g_" id when the id is left out or empty.  The kennel's list
    is the old one followed by the returned cage. *)
Theorem upsertCage_appends_new (kennelId_ : string) (cage : CageInput) (cw : CageWorld) :
  storage_ok (host cw) ->
  (JS.falsy_string (i_id cage) = false ->
   forall c, c ∈ loadCages cw -> g_id c <> JS.nullish (i_id cage) "") ->
  let result := upsertCage kennelId_ cage cw in
  loadCages result.2 = loadCages cw ++ [result.1]
  /\ listCagesForKennel kennelId_ result.2 = listCagesForKennel kennelId_ cw ++ [result.1]
  /\ g_kennelId result.1 = kennelId_ /\ g_name result.1 = i_name cage
  /\ g_size result.1 = mjoin (i_size cage)
  /\ (JS.falsy_string (i_id cage) = false -> g_id result.1 = JS.nullish (i_id cage) "")
  /\ (JS.falsy_string (i_id cage) = true ->
      g_id result.1 = (newId "g" (host cw)).1).
Proof.
  intros Hok Hmiss result.
  assert (loadCages result.2 = loadCages cw ++ [result.1]
          /\ g_kennelId result.1 = kennelId_ /\ g_name result.1 = i_name cage
          /\ g_size result.1 = mjoin (i_size cage)
          /\ (JS.falsy_string (i_id cage) = false
              -> g_id result.1 = JS.nullish (i_id cage) "")
          /\ (JS.falsy_string (i_id cage) = true
              -> g_id result.1 = (newId "g" (host cw)).1)) as (Hall & Hk & Hn & Hs & Hi & Hg).
  { subst result. unfold upsertCage.
    destruct (JS.falsy_string (i_id cage)) eqn:Hfalsy; cbn [negb].
    - cbv beta iota zeta delta [newId Date_now Math_random_slice mbind M_bind mret M_ret].
      cbn [fst snd g_kennelId g_name g_size g_id].
      split_and!; try done.
      rewrite loadCages_saveCages; [done | exact Hok].
    - assert (findIndex (fun c => String.eqb (g_id c) (JS.nullish (i_id cage) ""))
                (loadCages cw) = None) as ->.
      { apply findIndex_None. intros c Hc. apply String.eqb_neq. by apply Hmiss. }
      cbn [mbind option_bind default fst snd g_kennelId g_name g_size g_id over].
      split_and!; try done.
      by rewrite (loadCages_saveCages _ _ Hok). }
  split_and!; try done.
  unfold listCagesForKennel. rewrite Hall, List.filter_app. simpl.
  by rewrite Hk, String.eqb_refl.
Qed.

Lemma upsertCage_appends_new_witness :
  List.map g_name (listCagesForKennel KENNEL_ID (upsertCage KENNEL_ID newCage cagesWorld).2)
  = ["Bur 1"; "Bur 3"; "Bur 4"]
  /\ g_id (upsertCage KENNEL_ID newCage cagesWorld).1 = "g_loyw3v28_k3j9x2".
Proof.
  pose proof (upsertCage_appends_new KENNEL_ID newCage cagesWorld) as H.
  cbv zeta in H.
  destruct H as (_ & Hlist & _ & Hname & _ & _ & Hid); [by split_and! | discriminate |].
  split.
  - rewrite Hlist, map_app. cbn [List.map]. rewrite Hname. reflexivity.
  - rewrite Hid; reflexivity.
Defined.

(** X19: [upsertCage] with a stored id replaces the first cage with that
    id in place, whichever kennel it belonged to: the cage gets the
    caller's kennel and the given name, and each of [size], [location] and
    [note] is the stored one when the input has no such key and what the
    key holds otherwise ([undefined] erases it).  A cage that was another
    kennel's is then listed for the caller and the number of stored cages
    is unchanged. *)
Theorem upsertCage_replaces_in_place (kennelId_ id_ : string) (cage : CageInput)
    (idx : nat) (c0 : KennelCage) (cw : CageWorld) :
  storage_ok (host cw) ->
  i_id cage = Some id_ -> id_ <> "" ->
  loadCages cw !! idx = Some c0 -> g_id c0 = id_ ->
  (forall j c, (j < idx)%nat -> loadCages cw !! j = Some c -> g_id c <> id_) ->
  let result := upsertCage kennelId_ cage cw in
  loadCages result.2 = <[idx := result.1]> (loadCages cw)
  /\ length (loadCages result.2) = length (loadCages cw)
  /\ result.1 ∈ listCagesForKennel kennelId_ result.2
  /\ g_id result.1 = id_ /\ g_kennelId result.1 = kennelId_ /\ g_name result.1 = i_name cage
  /\ (i_size cage = None -> g_size result.1 = g_size c0)
  /\ (forall v, i_size cage = Some v -> g_size result.1 = v)
  /\ (i_location cage = None -> g_location result.1 = g_location c0)
  /\ (forall v, i_location cage = Some v -> g_location result.1 = v)
  /\ (i_note cage = None -> g_note result.1 = g_note c0)
  /\ (forall v, i_note cage = Some v -> g_note result.1 = v).
Proof.
  intros Hok Hid Hne Hc0 Hg Hfirst result.
  assert (findIndex (fun c => String.eqb (g_id c) id_) (loadCages cw) = Some idx) as Hfind.
  { apply findIndex_Some. exists c0. split_and!; [done| |].
    - by apply String.eqb_eq.
    - intros j c Hj Hc. apply String.eqb_neq. by apply (Hfirst j). }
  assert (result
          = ({| g_id := id_; g_kennelId := kennelId_; g_name := i_name cage;
                g_size := over (i_size cage) (g_size c0);
                g_location := over (i_location cage) (g_location c0);
                g_note := over (i_note cage) (g_note c0) |},
             saveCages
               (<[idx := {| g_id := id_; g_kennelId := kennelId_; g_name := i_name cage;
                            g_size := over (i_size cage) (g_size c0);
                            g_location := over (i_location cage) (g_location c0);
                            g_note := over (i_note cage) (g_note c0) |}]> (loadCages cw))
               cw)) as ->.
  { subst result. unfold upsertCage, JS.falsy_string, JS.nullish. rewrite Hid.
    apply String.eqb_neq in Hne as ->. cbn [negb]. rewrite Hfind.
    cbn [mbind option_bind]. by rewrite Hc0. }
  cbn [fst snd]. rewrite (loadCages_saveCages _ _ Hok).
  split_and!; try done.
  - by rewrite length_insert.
  - unfold listCagesForKennel. rewrite (loadCages_saveCages _ _ Hok).
    apply list_elem_of_In, filter_In. split.
    + apply list_elem_of_In, list_elem_of_lookup. exists idx.
      apply list_lookup_insert_eq. by eapply lookup_lt_Some.
    + apply String.eqb_refl.
  - by intros ->.
  - by intros v ->.
  - by intros ->.
  - by intros v ->.
  - by intros ->.
  - by intros v ->.
Qed.

Lemma upsertCage_replaces_in_place_witness :
  loadCages (upsertCage KENNEL_ID movedCage locatedWorld).2
  = [(upsertCage KENNEL_ID movedCage locatedWorld).1]
  /\ g_kennelId (upsertCage KENNEL_ID movedCage locatedWorld).1 = KENNEL_ID
  /\ g_name (upsertCage KENNEL_ID movedCage locatedWorld).1 = "Bur 9"
  /\ g_size (upsertCage KENNEL_ID movedCage locatedWorld).1 = Some "stor"
  /\ g_location (upsertCage KENNEL_ID movedCage locatedWorld).1 = Some "stuen"
  /\ g_note (upsertCage KENNEL_ID movedCage locatedWorld).1 = None
  /\ g_location (upsertCage KENNEL_ID plainCage locatedWorld).1 = Some "gangen"
  /\ g_note (upsertCage KENNEL_ID plainCage locatedWorld).1 = Some "gammel".
Proof.
  set (c0 := {| g_id := "g_9"; g_kennelId := "kennel-7"; g_name := "Box B";
                g_size := Some "stor"; g_location := Some "gangen";
                g_note := Some "gammel" |}).
  pose proof (upsertCage_replaces_in_place KENNEL_ID "g_9" movedCage 0 c0 locatedWorld) as H.
  pose proof (upsertCage_replaces_in_place KENNEL_ID "g_9" plainCage 0 c0 locatedWorld) as H'.
  cbv zeta in H, H'.
  destruct H as (Hstored & _ & _ & _ & Hkennel & Hname & Hsize & _ & _ & Hloc & _ & Hnote);
    [by split_and! | reflexivity | discriminate | reflexivity | reflexivity
    | intros j c Hj; lia |].
  destruct H' as (_ & _ & _ & _ & _ & _ & _ & _ & Hloc' & _ & Hnote' & _);
    [by split_and! | reflexivity | discriminate | reflexivity | reflexivity
    | intros j c Hj; lia |].
  split_and!.
  - exact Hstored.
  - exact Hkennel.
  - exact Hname.
  - exact (Hsize eq_refl).
  - exact (Hloc (Some "stuen") eq_refl).
  - exact (Hnote None eq_refl).
  - exact (Hloc' eq_refl).
  - exact (Hnote' eq_refl).
Defined.

(** The cage of kennel-7 is taken over by the caller's kennel. *)
Example upsertCage_takes_over :
  listCagesForKennel "kennel-7" cagesWorld = [demoCage "g_2" "kennel-7" "Box A" None]
  /\ listCagesForKennel "kennel-7" (upsertCage KENNEL_ID renamedCage cagesWorld).2 = []
  /\ List.map g_name
       (listCagesForKennel KENNEL_ID (upsertCage KENNEL_ID renamedCage cagesWorld).2)
     = ["Bur 1"; "Bur 2"; "Bur 3"].
Proof. split_and!; reflexivity. Qed.

(** What [upsertCage] stores for a non-empty id. *)
Lemma upsertCage_stored (kennelId_ id_ : string) (cage : CageInput) (cw : CageWorld) :
  storage_ok (host cw) -> i_id cage = Some id_ -> id_ <> "" ->
  exists u,
    g_id u = id_ /\ g_kennelId u = kennelId_
    /\ host (upsertCage kennelId_ cage cw).2 = host cw
    /\ loadCages (upsertCage kennelId_ cage cw).2
       = match findIndex (fun c => String.eqb (g_id c) id_) (loadCages cw) with
         | Some idx => <[idx := u]> (loadCages cw)
         | None => loadCages cw ++ [u]
         end.
Proof.
  intros Hok Hid Hne. unfold upsertCage, JS.falsy_string, JS.nullish. rewrite Hid.
  apply String.eqb_neq in Hne as ->. cbn [negb].
  destruct (findIndex (fun c => String.eqb (g_id c) id_) (loadCages cw)) as [idx|];
    cbn [fst snd]; eexists; (split_and!; [| |apply host_saveCages
                                        |by rewrite (loadCages_saveCages _ _ Hok)]);
    reflexivity.
Qed.

(** X20: an upsert followed by the deletion of the same id leaves the
    caller's list as it was, less the cages with that id; and when no
    other kennel had a cage with that id, the lists of the other kennels
    are as they were. *)
Theorem upsertCage_then_deleteCage (kennelId_ id_ : string) (cage : CageInput)
    (cw : CageWorld) :
  storage_ok (host cw) ->
  i_id cage = Some id_ -> id_ <> "" ->
  let cw' := deleteCage kennelId_ id_ (upsertCage kennelId_ cage cw).2 in
  listCagesForKennel kennelId_ cw'
  = List.filter (fun c => negb (String.eqb (g_id c) id_)) (listCagesForKennel kennelId_ cw)
  /\ ((forall c, c ∈ loadCages cw -> g_id c = id_ -> g_kennelId c = kennelId_) ->
      forall other, other <> kennelId_ ->
        listCagesForKennel other cw' = listCagesForKennel other cw).
Proof.
  intros Hok Hid Hne cw'.
  destruct (upsertCage_stored kennelId_ id_ cage cw Hok Hid Hne)
    as (u & Hu & Hk & Hhost & Hstored).
  assert (storage_ok (host (upsertCage kennelId_ cage cw).2)) as Hok' by (by rewrite Hhost).
  assert (forall P : KennelCage -> bool,
            P u = false ->
            (forall c, g_id c = id_ -> c ∈ loadCages cw -> P c = false) ->
            List.filter P (loadCages (upsertCage kennelId_ cage cw).2)
            = List.filter P (loadCages cw)) as Hfilter.
  { intros P Hpu Hpc. rewrite Hstored.
    destruct (findIndex _ (loadCages cw)) as [idx|] eqn:Hfind.
    - apply findIndex_Some in Hfind as (c0 & Hc0 & Hid0%String.eqb_eq & _).
      rewrite list_insert_alter, filter_alter_rejected by done.
      apply (filter_delete_rejected _ _ _ c0 Hc0).
      apply Hpc; [done|]. by eapply list_elem_of_lookup_2.
    - rewrite List.filter_app. simpl. by rewrite Hpu, app_nil_r. }
  subst cw'. unfold listCagesForKennel, deleteCage.
  rewrite (loadCages_saveCages _ _ Hok'). rewrite !filter_filter. split.
  - rewrite Hfilter.
    + apply filter_ext. intros c.
      by destruct (String.eqb (g_kennelId c) kennelId_), (String.eqb (g_id c) id_).
    + by rewrite Hu, Hk, !String.eqb_refl.
    + intros c Hc _. rewrite Hc, String.eqb_refl.
      by destruct (String.eqb (g_kennelId c) kennelId_).
  - intros Honly other Hother. rewrite filter_filter, Hfilter.
    + apply filter_ext. intros c.
      destruct (String.eqb_spec (g_kennelId c) other) as [->|Hc];
        [|by rewrite andb_false_r].
      by apply String.eqb_neq in Hother as ->.
    + by rewrite Hk, Hu, !String.eqb_refl.
    + intros c Hc Hin. by rewrite (Honly c Hin Hc), Hc, !String.eqb_refl.
Qed.

Lemma upsertCage_then_deleteCage_witness :
  List.map g_name
    (listCagesForKennel KENNEL_ID
       (deleteCage KENNEL_ID "g_2" (upsertCage KENNEL_ID renamedCage cagesWorld).2))
  = ["Bur 1"; "Bur 3"].
Proof.
  pose proof (upsertCage_then_deleteCage KENNEL_ID "g_2" renamedCage cagesWorld) as H.
  cbv zeta in H.
  destruct H as [Hlist _]; [by split_and! | reflexivity | discriminate |].
  rewrite Hlist. reflexivity.
Defined.

(** ** The days of a range and the gate *)

(** X21: for two valid dates in order and a time zone in which no clock
    change bears on the range, [eachDay] lists the day of the start date
    and then every following day, 24 hours apart, up to the end date: one
    more day than there are whole days between the two, so the end day is
    listed when the dates are a whole number of days apart.
    [getCapacityForRange] returns these dates in this order. *)
Theorem eachDay_lists_every_day (Date_parse : string -> option Z)
    (LocalTZA : Z -> bool -> Z) (tenant startIso endIso : string) (start end_ : Z)
    (w : World) :
  new_Date Date_parse startIso = Some start ->
  new_Date Date_parse endIso = Some end_ ->
  (start <= end_)%Z ->
  no_clock_change LocalTZA start end_ ->
  let n := Z.to_nat ((end_ - start) / JS.msPerDay) in
  eachDay Date_parse LocalTZA startIso endIso
  = List.map (fun k => JS.toISOString_slice10 (start + Z.of_nat k * JS.msPerDay))
      (seq 0 (S n))
  /\ length (eachDay Date_parse LocalTZA startIso endIso) = S n
  /\ List.map date (getCapacityForRange Date_parse LocalTZA tenant startIso endIso w)
     = eachDay Date_parse LocalTZA startIso endIso.
Proof.
  intros Hstart Hend Hle Hsame n.
  pose proof (eachDay_exact Date_parse LocalTZA _ _ _ _ Hstart Hend Hle Hsame) as Hdays.
  fold n in Hdays.
  split_and!.
  - exact Hdays.
  - by rewrite Hdays, length_map, length_seq.
  - apply getCapacityForRange_dates.
Qed.

Lemma eachDay_lists_every_day_witness :
  eachDay JS.parse_date_only (JS.fixed_zone JS.msPerHour) "2024-02-27" "2024-03-01"
  = ["2024-02-27"; "2024-02-28"; "2024-02-29"; "2024-03-01"]
  /\ length (eachDay JS.parse_date_only (JS.fixed_zone JS.msPerHour)
               "2024-02-27" "2024-03-01") = 4%nat.
Proof.
  pose proof (eachDay_lists_every_day JS.parse_date_only (JS.fixed_zone JS.msPerHour)
                KENNEL_ID "2024-02-27" "2024-03-01" 1708992000000 1709251200000
                emptyWorld) as H.
  cbv zeta in H.
  destruct H as (Hdays & Hlength & _);
    [reflexivity | reflexivity | lia | apply fixed_zone_no_clock_change |].
  split; [|exact Hlength].
  rewrite Hdays. vm_compute. reflexivity.
Defined.

Lemma ltb_irrefl (s : string) : String.ltb s s = false.
Proof.
  unfold String.ltb. pose proof (String.compare_antisym s s) as H.
  by destruct (String.compare s s).
Qed.

(** X22: the gate tests the departure day.  With valid dates a whole
    number of days apart and no clock change between them, the departure
    day is one of the tested days: when its capped count leaves no room for
    the candidate's pets the gate refuses, whatever the other days hold,
    although by the interval rule the candidate does not count on it. *)
Theorem gate_tests_departure_day (Date_parse : string -> option Z)
    (LocalTZA : Z -> bool -> Z) (tenant : string) (booking : BookingRecord)
    (ci co : string) (start : Z) (n : nat) (w : World) :
  checkIn booking = Some ci -> checkOut booking = Some co -> ci <> "" -> co <> "" ->
  new_Date Date_parse ci = Some start ->
  new_Date Date_parse co = Some (start + Z.of_nat n * JS.msPerDay)%Z ->
  no_clock_change LocalTZA start (start + Z.of_nat n * JS.msPerDay) ->
  let departure := JS.toISOString_slice10 (start + Z.of_nat n * JS.msPerDay) in
  departure ∈ eachDay Date_parse LocalTZA ci co
  /\ ((FIXED_DAILY_CAPACITY
       < Z.min (countOn tenant w departure) FIXED_DAILY_CAPACITY + petCount booking)%Z ->
      hasCapacityForBooking Date_parse LocalTZA tenant booking w = false)
  /\ intervalContains booking co = false.
Proof.
  intros Hci Hco Hci_ne Hco_ne Hstart Hend Hsame departure.
  assert (departure ∈ eachDay Date_parse LocalTZA ci co) as Hday
    by (by apply eachDay_includes_end).
  split_and!.
  - exact Hday.
  - intros Hfull. rewrite countOn_sums in Hfull.
    apply (hasCapacityForBooking_false_iff _ _ _ _ ci co); try done.
    by exists departure.
  - unfold intervalContains. rewrite Hci, Hco, ltb_irrefl.
    by rewrite andb_false_r.
Qed.

Lemma gate_tests_departure_day_witness :
  "2024-02-03" ∈ eachDay JS.parse_date_only (JS.fixed_zone JS.msPerHour)
                   "2024-02-01" "2024-02-03"
  /\ hasCapacityForBooking JS.parse_date_only (JS.fixed_zone JS.msPerHour) KENNEL_ID
       candidate fullOnCheckoutWorld = false
  /\ intervalContains candidate "2024-02-03" = false.
Proof.
  pose proof (gate_tests_departure_day JS.parse_date_only (JS.fixed_zone JS.msPerHour)
                KENNEL_ID candidate "2024-02-01" "2024-02-03" 1706745600000 2
                fullOnCheckoutWorld) as H.
  cbv zeta in H.
  destruct H as (Hday & Hgate & Hout);
    [reflexivity | reflexivity | discriminate | discriminate | reflexivity | reflexivity
    | apply fixed_zone_no_clock_change |].
  split_and!.
  - exact Hday.
  - apply Hgate. vm_compute. reflexivity.
  - exact Hout.
Defined.

(** X23: the gate followed by acceptance never overbooks a tested day.  If
    [hasCapacityForBooking] accepts a stored booking with a positive pet
    count that is not yet in status "precheck", then after [acceptBooking]
    the uncapped count of every day from its [checkIn] to its [checkOut] is
    at most the capacity. *)
Theorem gate_then_accept_never_overbooks (Date_parse : string -> option Z)
    (LocalTZA : Z -> bool -> Z) (tenant ci co day : string) (idx : nat)
    (b : BookingRecord) (w : World) :
  storage_ok w ->
  loadArray BOOKING_KEY w !! idx = Some b ->
  (forall j b', (j < idx)%nat -> loadArray BOOKING_KEY w !! j = Some b' -> id b' <> id b) ->
  hasStatus b "precheck" = false ->
  checkIn b = Some ci -> checkOut b = Some co ->
  (0 < petCount b)%Z ->
  hasCapacityForBooking Date_parse LocalTZA tenant b w = true ->
  day ∈ eachDay Date_parse LocalTZA ci co ->
  (countOn tenant (acceptBooking (id b) w).2 day <= FIXED_DAILY_CAPACITY)%Z.
Proof.
  intros Hok Hb Hfirst Hstatus Hci Hco Hpos Hgate Hday.
  assert (ci <> "" /\ co <> "") as [Hci_ne Hco_ne].
  { unfold hasCapacityForBooking, JS.falsy_string in Hgate. rewrite Hci, Hco in Hgate.
    destruct (String.eqb_spec ci ""), (String.eqb_spec co ""); try done. }
  assert (~ (FIXED_DAILY_CAPACITY
             < Z.min (staysSum tenant (loadArray CHECKIN_KEY w) day
                      + bookingsSum tenant (loadArray BOOKING_KEY w) day)
                     FIXED_DAILY_CAPACITY + petCount b)%Z) as Hroom.
  { intros Hlt.
    assert (hasCapacityForBooking Date_parse LocalTZA tenant b w = false) as Hfalse; [|congruence].
    apply (hasCapacityForBooking_false_iff _ _ _ _ ci co); try done. by exists day. }
  unfold acceptBooking.
  rewrite (countOn_setBookingStatus _ _ _ _ _ _ Hok Hb Hfirst), Hstatus, countOn_sums.
  cbn [String.eqb Ascii.eqb Bool.eqb]. unfold contribution, FIXED_DAILY_CAPACITY in *.
  destruct (ofTenant tenant b && intervalContains b day); lia.
Qed.

Lemma gate_then_accept_never_overbooks_witness :
  (countOn KENNEL_ID (acceptBooking "b_2" fourPlusTwoWorld).2 "2024-02-02" <= 6)%Z.
Proof.
  pose proof (gate_then_accept_never_overbooks JS.parse_date_only JS.Europe_Copenhagen
      KENNEL_ID "2024-02-01"
                "2024-02-03" "2024-02-02" 1
                (demoBooking "b_2" (Some "pending") "2024-02-01" "2024-02-03" (Some 2%Z))
                fourPlusTwoWorld) as H.
  change (id (demoBooking "b_2" (Some "pending") "2024-02-01" "2024-02-03" (Some 2%Z)))
    with "b_2" in H.
  apply H.
  - by split_and!.
  - reflexivity.
  - intros j b' Hj Hb'. destruct j as [|j]; [|lia].
    vm_compute in Hb'. injection Hb' as <-. discriminate.
  - reflexivity.
  - reflexivity.
  - reflexivity.
  - reflexivity.
  - reflexivity.
  - vm_compute. apply list_elem_of_further, list_elem_of_here.
Defined.

(** X24: an unreadable store looks empty.  Without a window, or when
    localStorage denies access, every enumerated day is reported with
    booked 0 and free 6, and the gate accepts every booking that has both
    dates and at most 6 pets, whatever the store holds. *)
Theorem unreadable_store_is_all_free (Date_parse : string -> option Z) (LocalTZA : Z -> bool -> Z)
    (tenant startIso endIso : string) (booking : BookingRecord) (w : World) :
  window w = false \/ getItem_throws w = true ->
  getCapacityForRange Date_parse LocalTZA tenant startIso endIso w
  = List.map (fun day => {| date := day; booked := 0; capacity := 6; free := 6 |})
      (eachDay Date_parse LocalTZA startIso endIso)
  /\ (JS.falsy_string (checkIn booking) = false -> JS.falsy_string (checkOut booking) = false ->
      (petCount booking <= 6)%Z ->
      hasCapacityForBooking Date_parse LocalTZA tenant booking w = true).
Proof.
  intros Hunreadable.
  assert (forall T (key : Key T), loadArray key w = []) as Hempty.
  { intros T key. unfold loadArray, isBrowser, localStorage_getItem.
    destruct Hunreadable as [-> | ->]; [done|]. by destruct (window w). }
  assert (forall s e,
            getCapacityForRange Date_parse LocalTZA tenant s e w
            = List.map (fun day => {| date := day; booked := 0; capacity := 6; free := 6 |})
                (eachDay Date_parse LocalTZA s e)) as Hfree.
  { intros s e. rewrite getCapacityForRange_sums. apply map_ext. intros day.
    by rewrite !Hempty. }
  split; [apply Hfree|].
  intros Hci Hco Hpets. unfold hasCapacityForBooking. rewrite Hci, Hco. cbn [orb].
  rewrite Hfree, or_one_petCount, forallb_forall. intros d Hd.
  apply in_map_iff in Hd as (day & <- & _). cbn [booked capacity]. by apply Z.leb_le.
Qed.

Lemma unreadable_store_is_all_free_witness :
  getCapacityForRange JS.parse_date_only JS.Europe_Copenhagen
      KENNEL_ID "2024-02-01" "2024-02-02" deniedWorld
  = [{| date := "2024-02-01"; booked := 0; capacity := 6; free := 6 |};
     {| date := "2024-02-02"; booked := 0; capacity := 6; free := 6 |}]
  /\ hasCapacityForBooking JS.parse_date_only JS.Europe_Copenhagen
      KENNEL_ID candidate deniedWorld = true.
Proof.
  destruct (unreadable_store_is_all_free JS.parse_date_only JS.Europe_Copenhagen
      KENNEL_ID "2024-02-01"
              "2024-02-02" candidate deniedWorld) as [Hfree Hgate].
  - right. reflexivity.
  - split.
    + rewrite Hfree. reflexivity.
    + apply Hgate; [reflexivity | reflexivity | vm_compute; discriminate].
Defined.

(** ** The profile is always complete *)

(** X25: whatever the store holds, [loadKennelProfile] returns a profile
    in which every optional property has a value, the stored one or the
    default one.  Its id is the requested id exactly when a profile with
    that id is stored and readable; otherwise it is the default profile,
    whose id is [KENNEL_ID]. *)
Theorem loadKennelProfile_is_complete (kennelId_ : string) (w : World) :
  let r := loadKennelProfile kennelId_ w in
  (is_Some (tagline r) /\ is_Some (nightlyRate r) /\ is_Some (addressLine1 r)
   /\ is_Some (postalCode r) /\ is_Some (city r) /\ is_Some (phone r)
   /\ is_Some (email r) /\ is_Some (website r) /\ is_Some (shortDescription r)
   /\ is_Some (sellingPoints r) /\ is_Some (practicalInfo r)
   /\ is_Some (conditionsText r))
  /\ (r = DEFAULT_PROFILE
      \/ exists stored,
           loadObject PROFILE_KEY JNull w = JObject stored /\ p_id stored = kennelId_
           /\ r = spread_profile DEFAULT_PROFILE stored /\ p_id r = kennelId_).
Proof.
  intros r. subst r. unfold loadKennelProfile.
  destruct (loadObject PROFILE_KEY JNull w) as [xs|stored| |];
    try (split; [by split_and!; eexists | by left]).
  destruct (String.eqb_spec (p_id stored) kennelId_) as [Hid|Hid]; cbn [negb].
  - split.
    + unfold spread_profile, spread_opt. cbn.
      split_and!;
        match goal with |- is_Some (match ?x with _ => _ end) => by destruct x; eexists end.
    + right. by exists stored.
  - split; [by split_and!; eexists | by left].
Qed.

Example loadKennelProfile_other_id :
  p_id (loadKennelProfile "kennel-8" profileWorld) = KENNEL_ID
  /\ city (loadKennelProfile "kennel-7" profileWorld) = Some "Helsinge"
  /\ phone (loadKennelProfile "kennel-7" profileWorld) = Some "12 34 56 78".
Proof. split_and!; reflexivity. Qed.

(** ** A booking from request to check-out *)

Lemma storage_ok_setBookingStatus (id_ status_ : string) (w : World) :
  storage_ok w -> storage_ok (setBookingStatus id_ status_ w).2.
Proof.
  intros Hok.
  destruct (findIndex (fun b => String.eqb (id b) id_) (loadArray BOOKING_KEY w))
    as [idx|] eqn:Hfind.
  - rewrite (setBookingStatus_found _ _ _ _ Hfind). cbn [snd].
    by apply storage_ok_saveArray.
  - unfold setBookingStatus, gets, mbind, M_bind. by rewrite Hfind.
Qed.

Lemma storage_ok_createCheckinFromBooking (booking : BookingRecord)
    (overrides : PartialCheckin) (w : World) :
  storage_ok w -> storage_ok (createCheckinFromBooking booking overrides w).2.
Proof.
  intros Hok. rewrite createCheckinFromBooking_steps. cbn [snd].
  by apply storage_ok_setBookingStatus, storage_ok_saveArray, storage_ok_newId.
Qed.

Lemma createBookingRequest_stored (Number : string -> option Z)
    (payload : OwnerBookingRequestPayload) (kennelId_ : option string) (w : World) :
  storage_ok w ->
  let result := createBookingRequest Number payload kennelId_ w in
  storage_ok result.2
  /\ loadArray BOOKING_KEY result.2 = loadArray BOOKING_KEY w ++ [result.1]
  /\ loadArray CHECKIN_KEY result.2 = loadArray CHECKIN_KEY w.
Proof.
  intros Hok result.
  destruct (createBookingRequest_steps Number payload kennelId_ w) as [Hw _].
  fold result in Hw. rewrite Hw.
  assert (storage_ok (Date_now (newId "b" w).2).2) as Hok1
    by (by apply storage_ok_Date_now, storage_ok_newId).
  split_and!.
  - by apply storage_ok_saveArray.
  - by apply loadArray_saveArray_same.
  - rewrite loadArray_checkins_saveArray_bookings.
    by rewrite loadArray_Date_now, loadArray_newId.
Qed.

Lemma lookup_snoc_fresh {A} (l : list A) (x : A) (proj : A -> string) :
  (forall y, y ∈ l -> proj y <> proj x) ->
  (l ++ [x]) !! length l = Some x
  /\ forall j y, (j < length l)%nat -> (l ++ [x]) !! j = Some y -> proj y <> proj x.
Proof.
  intros Hfresh. split.
  - by rewrite lookup_app_r, Nat.sub_diag.
  - intros j y Hj Hy. rewrite lookup_app_l in Hy by done.
    apply Hfresh. by eapply list_elem_of_lookup_2.
Qed.

(** The count of a day after the check-out of the stay at [idx]. *)
Lemma countOn_checkOutCheckin (idx : nat) (c : CheckinRecord) (tenant day : string)
    (w : World) :
  storage_ok w ->
  loadArray CHECKIN_KEY w !! idx = Some c ->
  (forall j (c' : CheckinRecord),
     (j < idx)%nat -> loadArray CHECKIN_KEY w !! j = Some c' -> id c' <> id c) ->
  countOn tenant (checkOutCheckin (id c) w).2 day
  = (countOn tenant w day
     - if isCheckedOut (status c) then 0 else contribution tenant c day)%Z.
Proof.
  intros Hok Hc Hfirst.
  assert (findIndex (fun x : CheckinRecord => String.eqb (id x) (id c))
            (loadArray CHECKIN_KEY w) = Some idx) as Hfind
    by (by apply (findIndex_first_stay _ _ _ c)).
  rewrite !countOn_sums, (checkOutCheckin_found _ _ _ Hfind).
  rewrite loadArray_bookings_saveArray_checkins, (loadArray_saveArray_same _ _ _ Hok).
  rewrite (staysSum_alter _ _ _ _ _ _ Hc), (staysSum_lookup _ _ _ _ day Hc).
  cbn [base status with_status]. unfold isCheckedOut at 1, JS.strict_eq. simpl. lia.
Qed.

(** X26: a booking from request to check-out.  In a store that accepts
    writes, with ids that are not yet in use: the owner's request leaves the
    count of every day as it was; accepting it adds its pet count on its
    nights; converting the accepted booking to a stay changes nothing; and
    checking the stay out brings every day back to the count it had before
    the request. *)
Theorem booking_lifecycle_returns_capacity (Number : string -> option Z)
    (payload : OwnerBookingRequestPayload) (kennelId_ : option string)
    (tenant day : string) (w : World) :
  let requested := createBookingRequest Number payload kennelId_ w in
  let accepted := acceptBooking (id requested.1) requested.2 in
  let converted :=
    createCheckinFromBooking (with_status requested.1 (Some "precheck")) no_overrides
      accepted.2 in
  let checkedOut := checkOutCheckin (id converted.1) converted.2 in
  storage_ok w ->
  (forall x : BookingRecord, x ∈ loadArray BOOKING_KEY w -> id x <> id requested.1) ->
  (forall x : CheckinRecord, x ∈ loadArray CHECKIN_KEY w -> id x <> id converted.1) ->
  accepted.1 = Some (with_status requested.1 (Some "precheck"))
  /\ countOn tenant requested.2 day = countOn tenant w day
  /\ countOn tenant accepted.2 day
     = (countOn tenant w day + contribution tenant requested.1 day)%Z
  /\ countOn tenant converted.2 day = countOn tenant accepted.2 day
  /\ countOn tenant checkedOut.2 day = countOn tenant w day.
Proof.
  intros requested accepted converted checkedOut Hok Hfresh_b Hfresh_c.
  destruct (createBookingRequest_stored Number payload kennelId_ w Hok)
    as (Hok1 & Hbookings1 & Hstays1).
  fold requested in Hok1, Hbookings1, Hstays1.
  destruct (createBookingRequest_steps Number payload kennelId_ w) as [_ Hpending].
  fold requested in Hpending.
  set (r := requested.1) in *. set (w1 := requested.2) in *.
  set (idx := length (loadArray BOOKING_KEY w)).
  destruct (lookup_snoc_fresh (loadArray BOOKING_KEY w) r id Hfresh_b) as [Hr Hfirst_r].
  rewrite <- Hbookings1 in Hr, Hfirst_r. fold idx in Hr, Hfirst_r.
  assert (hasStatus r "precheck" = false) as Hnot by (unfold hasStatus; by rewrite Hpending).
  (* the request *)
  assert (countOn tenant w1 day = countOn tenant w day) as Hcount1.
  { rewrite !countOn_sums, Hbookings1, Hstays1, bookingsSum_snoc, Hnot. lia. }
  (* acceptance *)
  assert (findIndex (fun x => String.eqb (id x) (id r)) (loadArray BOOKING_KEY w1) = Some idx)
    as Hfind by (by apply (findIndex_first _ _ _ r)).
  assert (countOn tenant accepted.2 day = (countOn tenant w day + contribution tenant r day)%Z)
    as Hcount2.
  { subst accepted. unfold acceptBooking.
    rewrite (countOn_setBookingStatus _ _ _ _ _ _ Hok1 Hr Hfirst_r), Hnot, Hcount1.
    simpl. lia. }
  assert (storage_ok accepted.2) as Hok2 by (by apply storage_ok_setBookingStatus).
  assert (loadArray BOOKING_KEY accepted.2
          = alter (fun b => with_status b (Some "precheck")) idx (loadArray BOOKING_KEY w1))
    as Hbookings2 by (by apply setBookingStatus_stored).
  assert (loadArray CHECKIN_KEY accepted.2 = loadArray CHECKIN_KEY w) as Hstays2.
  { subst accepted. unfold acceptBooking.
    by rewrite loadArray_checkins_setBookingStatus. }
  set (r' := with_status r (Some "precheck")) in *.
  assert (loadArray BOOKING_KEY accepted.2 !! idx = Some r') as Hr'.
  { by rewrite Hbookings2, list_lookup_alter_eq, Hr. }
  assert (forall j b', (j < idx)%nat -> loadArray BOOKING_KEY accepted.2 !! j = Some b'
                       -> id b' <> id r') as Hfirst_r'.
  { intros j b' Hj Hb'. rewrite Hbookings2, list_lookup_alter_ne in Hb' by lia.
    by apply (Hfirst_r j). }
  (* conversion *)
  assert (countOn tenant converted.2 day = countOn tenant accepted.2 day) as Hcount3.
  { subst converted.
    rewrite (countOn_createCheckinFromBooking idx r' tenant day _ Hok2 Hr' Hfirst_r').
    change (hasStatus r' "precheck") with true. cbv iota. lia. }
  assert (storage_ok converted.2) as Hok3 by (by apply storage_ok_createCheckinFromBooking).
  assert (loadArray CHECKIN_KEY converted.2 = loadArray CHECKIN_KEY w ++ [converted.1])
    as Hstays3.
  { subst converted. rewrite (createCheckinFromBooking_stored_stays _ _ _ Hok2).
    by rewrite Hstays2. }
  set (c := converted.1) in *.
  destruct (lookup_snoc_fresh (loadArray CHECKIN_KEY w) c (fun x : CheckinRecord => id x)
              Hfresh_c) as [Hc Hfirst_c].
  rewrite <- Hstays3 in Hc, Hfirst_c.
  (* check-out *)
  split_and!; [|exact Hcount1|exact Hcount2|exact Hcount3|].
  - subst accepted. unfold acceptBooking.
    rewrite (setBookingStatus_found _ _ _ _ Hfind). cbn [fst].
    by rewrite list_lookup_alter_eq, Hr.
  - subst checkedOut.
    rewrite (countOn_checkOutCheckin _ c tenant day _ Hok3 Hc Hfirst_c).
    rewrite Hcount3, Hcount2.
    pose proof (converted_stay_counts r' accepted.2 tenant day) as Hstay.
    cbv zeta in Hstay. fold converted in Hstay. fold c in Hstay. rewrite Hstay.
    change (contribution tenant r' day) with (contribution tenant r day). lia.
Qed.

Lemma booking_lifecycle_returns_capacity_witness :
  countOn KENNEL_ID fourCatsWorld "2024-03-02" = 0%Z
  /\ countOn KENNEL_ID marchRequest.2 "2024-03-02" = 0%Z
  /\ countOn KENNEL_ID marchAccepted.2 "2024-03-02" = 2%Z
  /\ countOn KENNEL_ID marchStay.2 "2024-03-02" = 2%Z
  /\ countOn KENNEL_ID marchCheckedOut.2 "2024-03-02" = 0%Z.
Proof.
  pose proof (booking_lifecycle_returns_capacity Number_integer (demoPayload "2" "1") None
                KENNEL_ID "2024-03-02" fourCatsWorld) as H.
  cbv zeta in H.
  assert (countOn KENNEL_ID fourCatsWorld "2024-03-02" = 0%Z) as H0
    by (vm_compute; reflexivity).
  assert (contribution KENNEL_ID marchRequest.1 "2024-03-02" = 2%Z) as Hn
    by (vm_compute; reflexivity).
  unfold marchCheckedOut, marchStay, marchAccepted, marchRequest in *.
  rewrite H0, Hn in H.
  destruct H as (_ & H1 & H2 & H3 & H4).
  - split_and!; reflexivity.
  - intros x Hx. apply list_elem_of_singleton in Hx. subst x.
    intros Heq. vm_compute in Heq. discriminate Heq.
  - intros x Hx. apply elem_of_nil in Hx. destruct Hx.
  - rewrite H2 in H3.
    split; [exact H0|]. split; [exact H1|]. split; [exact H2|]. split; [exact H3|exact H4].
Defined.

(** ** Accepting a booking that was already converted *)


